(** * extract_mixbox_lut.py: the Mixbox LUT extraction pipeline

    A shallow embedding of [scripts/extract_mixbox_lut.py] and of the
    Node.js snippet it writes and runs.  The script is a linear pipeline:

    - [create_extraction_script] writes the snippet [extract_lut.js];
    - [run_extraction] runs it under [node]; the snippet locates the
      compressed table in [mixbox.esm.js], decompresses it with the code
      found next to it, normalises the size and writes [mixbox_lut_raw.bin];
    - [convert_to_dart] renders the bytes as a Dart list literal;
    - [cleanup] removes the two intermediate files.

    Files are byte sequences in a finite map from absolute paths, the
    console is a list of events, exceptions are values of an error monad.
    The third-party decompression code is run by [eval] in the snippet: what
    it returns or throws, and what it writes meanwhile on the two streams of
    the child, are parameters of the environment ([js_decompress]).

    What the model covers: the tree of files and directories (a call fails
    when a file or a directory is missing or stands where the other is
    needed), the presence of Node, the text of the third-party file and what
    its decompression code returns, throws and prints.  What it leaves out:
    access rights and symbolic links, a console that cannot be written to,
    signals and timers, other processes changing the disk during the run, a
    third-party file that is not valid UTF-8, and third-party code that
    changes the disk or ends the child by itself. *)

From Stdlib Require Import ZArith NArith String Ascii List DecimalString DecimalN.
From Stdlib.Strings Require Import Byte.
From stdpp Require Import gmap strings list.

Open Scope string_scope.
Open Scope list_scope.

(** ** Characters and strings of the two languages *)

Definition nl : string := String "010"%char EmptyString.
Definition quote : ascii := "034"%char.
Definition q : string := String quote EmptyString.

(** The concatenation of a list of texts; [lines ls] is the text of a
    triple-quoted literal whose lines are [ls], each one ended by a newline. *)
Definition flat (ls : list string) : string := fold_right String.append "" ls.

Definition lines (ls : list string) : string :=
  flat (map (fun l => l +:+ nl) ls).

(** Python [str(n)] and JavaScript number-to-string, on a natural number. *)
Definition str (n : N) : string := NilEmpty.string_of_uint (N.to_uint n).

(** [str(b)] for an element [b] of a [bytes] object. *)
Definition byte_str (b : byte) : string := str (Byte.to_N b).

(** Python [sep.join(items)]. *)
Definition join (sep : string) (items : list string) : string :=
  String.concat sep items.

(** Python [s * n]. *)
Fixpoint str_mul (s : string) (n : nat) : string :=
  match n with
  | O => ""
  | S n' => s +:+ str_mul s n'
  end.

(** Python [len(l)] and JavaScript [l.length]. *)
Definition len {A} (l : list A) : Z := Z.of_nat (length l).

(** Python [range(0, stop, step)] for a positive [step]: the multiples of
    [step] below [stop], [ceil(stop / step)] of them. *)
Definition py_range (stop step : nat) : list nat :=
  map (fun k => k * step)%nat (seq 0 ((stop + step - 1) / step)).

(** Python [l[i:j]] for [0 <= i <= j]; the slice stops at the end of [l]. *)
Definition py_slice {A} (l : list A) (i j : nat) : list A :=
  take (j - i) (drop i l).

(** JavaScript [a.slice(start)]: a negative [start] counts from the end. *)
Definition js_slice {A} (a : list A) (start : Z) : list A :=
  if (start <? 0)%Z then drop (Z.to_nat (Z.max 0 (len a + start))) a
  else drop (Z.to_nat start) a.

(** JavaScript [hay.indexOf(needle)]: [-1] when [needle] does not occur. *)
Definition indexOf (hay needle : string) : Z :=
  match String.index 0 needle hay with
  | Some i => Z.of_nat i
  | None => (-1)%Z
  end.

(** JavaScript [s.substring(a, b)]: both indices are clamped to
    [0 .. s.length] and swapped when [a > b]. *)
Definition js_substring (s : string) (a b : Z) : string :=
  let clamp i := Z.to_nat (Z.min (Z.max 0 i) (Z.of_nat (String.length s))) in
  let lo := Nat.min (clamp a) (clamp b) in
  let hi := Nat.max (clamp a) (clamp b) in
  String.substring lo (hi - lo) s.

(** ** The regular expression of the snippet

    The pattern on the line [const lutMatch = ...] is: the literal text
    [var lut = decompress(] and a double quote, a non-empty run of characters
    other than the double quote (group 1), a double quote and the literal
    text [);].  The character class excludes the quote that must follow it, so
    the only run that can match is the longest one and no backtracking is
    needed. *)

Definition lut_prefix : string := "var lut = decompress(" +:+ q.
Definition lut_suffix : string := q +:+ ");".

Fixpoint strip_prefix (p s : string) : option string :=
  match p with
  | EmptyString => Some s
  | String a p' =>
      match s with
      | EmptyString => None
      | String b s' => if Ascii.eqb a b then strip_prefix p' s' else None
      end
  end.

Fixpoint span_not_quote (s : string) : string * string :=
  match s with
  | EmptyString => (EmptyString, EmptyString)
  | String c s' =>
      if Ascii.eqb c quote then (EmptyString, s)
      else let (a, b) := span_not_quote s' in (String c a, b)
  end.

(** The match anchored at the start of [s]; the result is group 1. *)
Definition match_here (s : string) : option string :=
  match strip_prefix lut_prefix s with
  | None => None
  | Some rest =>
      let (body, tail) := span_not_quote rest in
      match body with
      | EmptyString => None
      | String _ _ =>
          match strip_prefix lut_suffix tail with
          | Some _ => Some body
          | None => None
          end
      end
  end.

(** [mixboxCode.match(re)]: the leftmost match, [None] for [null]. *)
Fixpoint lut_match (s : string) : option string :=
  match match_here s with
  | Some body => Some body
  | None =>
      match s with
      | EmptyString => None
      | String _ s' => lut_match s'
      end
  end.

(** ** Size normaliser (snippet, [expectedSize] block) *)

Definition expectedSize : Z := 786432.

(** The three branches of the block: the buffer to write together with the
    lines logged on the way, or [None] for the branch that exits. *)
Definition select_lut_buffer (lut : list byte) : option (list byte * string) :=
  if (len lut =? expectedSize)%Z then Some (lut, "")
  else if (len lut >? expectedSize)%Z then
    let offset := (len lut - expectedSize)%Z in
    Some (js_slice lut offset,
          lines ["Decompressed data larger than expected, finding actual LUT data...";
                 "Skipping " +:+ str (Z.to_N offset) +:+ " bytes of header/metadata"])
  else None.

(** ** Formatter ([convert_to_dart], text generation) *)

Definition dart_header : string :=
  lines [
    "// ==========================================================";
    "//  MIXBOX 2.0 LUT DATA";
    "//  Automatically generated from mixbox.esm.js";
    "//";
    "//  This file contains the lookup table for Mixbox pigment mixing.";
    "//  Original implementation: (c) 2022 Secret Weapons";
    "//  License: Creative Commons Attribution-NonCommercial 4.0";
    "// ==========================================================";
    "";
    "/// Mixbox Lookup Table (LUT) Data";
    "///";
    "/// This is a 64×64×64 lookup table that maps RGB colors to a";
    "/// 7-dimensional latent space representing pigment mixing behavior.";
    "///";
    "/// Size: 786,432 bytes (64 * 64 * 64 * 3)";
    "const List<int> mixboxLutData = ["
  ].

(** One iteration of the loop: the text appended for index [i]. *)
Definition data_line (lut_data : list byte) (i : nat) : string :=
  let chunk := py_slice lut_data i (i + 16) in
  let line := "  " +:+ join ", " (map byte_str chunk) in
  let line := if (i + 16 <? length lut_data)%nat then line +:+ "," else line in
  line +:+ nl.

Definition dart_code (lut_data : list byte) : string :=
  fold_left (fun code i => code +:+ data_line lut_data i)
            (py_range (length lut_data) 16) dart_header
  +:+ "];" +:+ nl.

(** ** Paths and the file system

    A [pathname] is a path as the program writes it: ['extract_lut.js'],
    [os.path.join('..', 'lib', ...)], [__file__].  A path on the disk is a
    [list string], absolute and normalised: the names from the root down.
    Resolution is lexical ([..] drops the last name), which is what the
    operating system does in a tree without symbolic links. *)

Record pathname := { absolute : bool; parts : list string }.

Definition relative (cs : list string) : pathname :=
  {| absolute := false; parts := cs |}.

Fixpoint walk (base : list string) (cs : list string) : list string :=
  match cs with
  | [] => base
  | c :: cs' =>
      if String.eqb c ".." then walk (removelast base) cs'
      else if String.eqb c "." || String.eqb c "" then walk base cs'
      else walk (base ++ [c]) cs'
  end.

Definition resolve (cwd : list string) (p : pathname) : list string :=
  walk (if absolute p then [] else cwd) (parts p).

Definition pathname_str (p : pathname) : string :=
  (if absolute p then "/" else "") +:+ join "/" (parts p).

(** [os.path.join(a, b, ...)] on relative names, [os.path.dirname]. *)
Definition os_path_join (cs : list string) : pathname := relative cs.
Definition os_path_dirname (p : pathname) : pathname :=
  {| absolute := absolute p; parts := removelast (parts p) |}.

#[global] Instance byte_eq_decision : EqDecision byte := Byte.byte_eq_dec.

Inductive entry := File (content : list byte) | Dir.

(** The changes made to the tree, oldest first.  The journal is not part of
    what the programs can observe: it records which paths were written, removed
    or created so that statements such as "the output file is never written"
    can be made about a run. *)
Inductive fs_op :=
| Wrote (p : list string)
| Removed (p : list string)
| MadeDir (p : list string).

Record Disk := { files : gmap (list string) entry; journal : list fs_op }.

Definition commit (d : Disk) (fs : gmap (list string) entry) (op : fs_op) : Disk :=
  {| files := fs; journal := journal d ++ [op] |}.

Inductive errno := ENOENT | EISDIR | ENOTDIR | EEXIST.

Inductive fs_result (A : Type) := FsOk (a : A) | FsErr (e : errno).
Arguments FsOk {A} a.
Arguments FsErr {A} e.

(** The root always exists and is a directory. *)
Definition fs_lookup (d : Disk) (p : list string) : option entry :=
  match p with
  | [] => Some Dir
  | _ => files d !! p
  end.

Definition is_dir (d : Disk) (p : list string) : bool :=
  match fs_lookup d p with Some Dir => true | _ => false end.

Definition fs_exists (d : Disk) (p : list string) : bool :=
  match fs_lookup d p with Some _ => true | None => false end.

(** The error of an operation that needs the parent of [p] to be a
    directory, if there is one. *)
Definition parent_error (d : Disk) (p : list string) : option errno :=
  match fs_lookup d (removelast p) with
  | Some Dir => None
  | Some (File _) => Some ENOTDIR
  | None => Some ENOENT
  end.

(** Create or truncate the file [p] and write [c] to it. *)
Definition fs_write (d : Disk) (p : list string) (c : list byte) : fs_result Disk :=
  match fs_lookup d p with
  | Some Dir => FsErr EISDIR
  | _ =>
      match parent_error d p with
      | Some e => FsErr e
      | None => FsOk (commit d (<[p := File c]> (files d)) (Wrote p))
      end
  end.

Definition fs_read (d : Disk) (p : list string) : fs_result (list byte) :=
  match fs_lookup d p with
  | Some (File c) => FsOk c
  | Some Dir => FsErr EISDIR
  | None => FsErr ENOENT
  end.

Definition fs_unlink (d : Disk) (p : list string) : fs_result Disk :=
  match fs_lookup d p with
  | Some (File _) => FsOk (commit d (delete p (files d)) (Removed p))
  | Some Dir => FsErr EISDIR
  | None => FsErr ENOENT
  end.

Definition fs_mkdir (d : Disk) (p : list string) : fs_result Disk :=
  match fs_lookup d p with
  | Some _ => FsErr EEXIST
  | None =>
      match parent_error d p with
      | Some e => FsErr e
      | None => FsOk (commit d (<[p := Dir]> (files d)) (MadeDir p))
      end
  end.

(** ** The Node.js snippet *)

(** The text of [js_script], written to [extract_lut.js]. *)
Definition js_script : string :=
  lines [
    "";
    "const fs = require('fs');";
    "const path = require('path');";
    "";
    "// Read the mixbox module";
    "const mixboxPath = path.join(__dirname, '../reference-mixbox/mixbox-master/javascript/mixbox.esm.js');";
    "const mixboxCode = fs.readFileSync(mixboxPath, 'utf8');";
    "";
    "// Extract the compressed LUT string (it's the large string at the end)";
    "// Find the var lut = decompress(" +:+ q +:+ "..." +:+ q +:+ ") line";
    "const lutMatch = mixboxCode.match(/var lut = decompress\(" +:+ q +:+ "([^"
      +:+ q +:+ "]+)" +:+ q +:+ "\);/);";
    "";
    "if (!lutMatch) {";
    "    console.error('Could not find LUT data in mixbox.esm.js');";
    "    process.exit(1);";
    "}";
    "";
    "const compressedLut = lutMatch[1];";
    "console.log('Found compressed LUT, length:', compressedLut.length);";
    "";
    "// We need to extract and run the decompress function";
    "// Find the decompress function and all its dependencies";
    "const decompressFunctionStart = mixboxCode.indexOf('function decompress(');";
    "const decompressFunctionEnd = mixboxCode.indexOf('var lut = decompress');";
    "";
    "if (decompressFunctionStart === -1) {";
    "    console.error('Could not find decompress function');";
    "    process.exit(1);";
    "}";
    "";
    "// Extract all the decompression-related code";
    "const decompressionCode = mixboxCode.substring(decompressFunctionStart, decompressFunctionEnd);";
    "";
    "// Execute the decompression";
    "eval(decompressionCode);";
    "const lut = decompress(compressedLut);";
    "";
    "console.log('Decompressed LUT, length:', lut.length);";
    "console.log('Expected length: 786432 (64*64*64*3)');";
    "";
    "// The LUT should be 786432 bytes (64*64*64*3)";
    "// Skip any header if the decompressed data is larger";
    "const expectedSize = 786432;";
    "let lutBuffer;";
    "";
    "if (lut.length === expectedSize) {";
    "    lutBuffer = Buffer.from(lut);";
    "} else if (lut.length > expectedSize) {";
    "    console.log('Decompressed data larger than expected, finding actual LUT data...');";
    "    // The actual LUT data is at the end";
    "    const offset = lut.length - expectedSize;";
    "    console.log('Skipping', offset, 'bytes of header/metadata');";
    "    lutBuffer = Buffer.from(lut.slice(offset));";
    "} else {";
    "    console.error('Decompressed data smaller than expected!');";
    "    process.exit(1);";
    "}";
    "";
    "fs.writeFileSync('mixbox_lut_raw.bin', lutBuffer);";
    "console.log('Written raw LUT to mixbox_lut_raw.bin (' + lutBuffer.length + ' bytes)');"
  ].

(** What the parent process sees of a finished child. *)
Record Completed := { returncode : Z; stdout : string; stderr : string }.

Definition exited (code : Z) (out err : string) : Completed :=
  {| returncode := code; stdout := out; stderr := err |}.

Definition mixbox_rel : list string :=
  [".."; "reference-mixbox"; "mixbox-master"; "javascript"; "mixbox.esm.js"].

Definition errno_str (e : errno) : string :=
  match e with
  | ENOENT => "ENOENT: no such file or directory"
  | EISDIR => "EISDIR: illegal operation on a directory"
  | ENOTDIR => "ENOTDIR: not a directory"
  | EEXIST => "EEXIST: file already exists"
  end.

(** What Node does with the code that is not the text of the snippet.
    [rt code data] is the value of [eval(code); decompress(data)]: the byte
    array the call returns, or [None] when the evaluation or the call throws;
    [logged rt code data] and [warned rt code data] are what the two write
    meanwhile on standard output and on standard error, the latter with the
    report that Node prints when they throw.  [uncaught rt e] is the report
    that Node prints when [fs.readFileSync] fails with the error [e].  An
    uncaught exception ends Node with exit code 1.  The texts are taken as
    the parent receives them from [subprocess.run(..., text=True)]. *)
Record JsRuntime := {
  returned :> string -> string -> option (list byte);
  logged : string -> string -> string;
  warned : string -> string -> string;
  uncaught : errno -> string
}.

(** JavaScript [s.length] of a text held as UTF-8: the number of UTF-16
    code units, one for a character of one to three bytes, two for a
    character of four bytes. *)
Definition js_strlen (s : string) : N :=
  fold_right
    (fun b n =>
       if (N.land (Byte.to_N b) 192 =? 128)%N then n
       else if (240 <=? Byte.to_N b)%N then (n + 2)%N
       else (n + 1)%N)
    0%N (list_byte_of_string s).

(** The run of the snippet in directory [dir] (both [__dirname] and the
    working directory of the child), in two parts.

    First part, up to the two [console.log] lines after [decompress]: the
    process has exited, or it goes on with the decompressed table and the
    text on standard output so far. *)
Definition locate_and_decompress
    (decompress : JsRuntime)
    (dir : list string) (d : Disk) : Completed + string * list byte :=
  let mixboxPath := walk dir mixbox_rel in
  match fs_read d mixboxPath with
  | FsErr e => inl (exited 1 "" (uncaught decompress e))
  | FsOk bytes =>
  let mixboxCode := string_of_list_byte bytes in
  match lut_match mixboxCode with
  | None => inl (exited 1 "" ("Could not find LUT data in mixbox.esm.js" +:+ nl))
  | Some compressedLut =>
  let out1 := "Found compressed LUT, length: "
              +:+ str (js_strlen compressedLut) +:+ nl in
  let decompressFunctionStart := indexOf mixboxCode "function decompress(" in
  let decompressFunctionEnd := indexOf mixboxCode "var lut = decompress" in
  if (decompressFunctionStart =? -1)%Z then
    inl (exited 1 out1 ("Could not find decompress function" +:+ nl))
  else
  let decompressionCode :=
    js_substring mixboxCode decompressFunctionStart decompressFunctionEnd in
  let out1 := out1 +:+ logged decompress decompressionCode compressedLut in
  match decompress decompressionCode compressedLut with
  | None => inl (exited 1 out1 (warned decompress decompressionCode compressedLut))
  | Some lut =>
      inr (out1 +:+ "Decompressed LUT, length: " +:+ str (Z.to_N (len lut)) +:+ nl
           +:+ "Expected length: 786432 (64*64*64*3)" +:+ nl, lut)
  end end end.

(** What the evaluation wrote on standard error, when the snippet gets as
    far as the evaluation. *)
Definition evaluation_stderr (decompress : JsRuntime)
    (dir : list string) (d : Disk) : string :=
  match fs_read d (walk dir mixbox_rel) with
  | FsErr _ => ""
  | FsOk bytes =>
  let mixboxCode := string_of_list_byte bytes in
  match lut_match mixboxCode with
  | None => ""
  | Some compressedLut =>
      warned decompress
        (js_substring mixboxCode (indexOf mixboxCode "function decompress(")
                      (indexOf mixboxCode "var lut = decompress"))
        compressedLut
  end end.

(** Second part: the size block and [fs.writeFileSync], with the standard
    output so far in [out2].  The standard error of the result is what this
    part writes itself; [extract_lut_js] puts what the evaluation wrote in
    front of it.  When [fs.writeFileSync] fails, the text stands for the
    report of the uncaught error, whose wording depends on the version of
    Node; no property below depends on it. *)
Definition store_lut (out2 : string) (lut : list byte)
    (dir : list string) (d : Disk) : Completed * Disk :=
  match select_lut_buffer lut with
  | None => (exited 1 out2 ("Decompressed data smaller than expected!" +:+ nl), d)
  | Some (lutBuffer, log) =>
  match fs_write d (walk dir ["mixbox_lut_raw.bin"]) lutBuffer with
  | FsErr e => (exited 1 (out2 +:+ log) ("Error: " +:+ errno_str e +:+ nl), d)
  | FsOk d' =>
      (exited 0 (out2 +:+ log +:+ "Written raw LUT to mixbox_lut_raw.bin ("
                 +:+ str (Z.to_N (len lutBuffer)) +:+ " bytes)" +:+ nl) "", d')
  end end.

Definition extract_lut_js (decompress : JsRuntime)
    (dir : list string) (d : Disk) : Completed * Disk :=
  match locate_and_decompress decompress dir d with
  | inl done => (done, d)
  | inr (out2, lut) =>
      let (r, d') := store_lut out2 lut dir d in
      (exited (returncode r) (stdout r)
              (evaluation_stderr decompress dir d +:+ stderr r), d')
  end.

(** [node extract_lut.js] in directory [dir].  Only the snippet above is
    given a semantics: [main] writes it just before it runs [node]. *)
Definition node (decompress : JsRuntime)
    (dir : list string) (d : Disk) : Completed * Disk :=
  match fs_read d (walk dir ["extract_lut.js"]) with
  | FsOk c =>
      if decide (c = list_byte_of_string js_script)
      then extract_lut_js decompress dir d
      else (exited 1 "" ("SyntaxError" +:+ nl), d)
  | FsErr _ => (exited 1 "" ("Error: Cannot find module" +:+ nl), d)
  end.

(** ** The Python process: state, exceptions, console *)

Inductive exn :=
| OSError (e : errno) (filename : string)
| CalledProcessError (r : Completed).

Definition exn_str (e : exn) : string :=
  match e with
  | OSError ENOENT f => "[Errno 2] No such file or directory: '" +:+ f +:+ "'"
  | OSError EISDIR f => "[Errno 21] Is a directory: '" +:+ f +:+ "'"
  | OSError ENOTDIR f => "[Errno 20] Not a directory: '" +:+ f +:+ "'"
  | OSError EEXIST f => "[Errno 17] File exists: '" +:+ f +:+ "'"
  | CalledProcessError r =>
      "Command '['node', 'extract_lut.js']' returned non-zero exit status "
      +:+ str (Z.to_N (returncode r)) +:+ "."
  end.

(** What reaches the terminal, oldest first: a line on standard output, a
    line on standard error, the stack trace of an exception. *)
Inductive event :=
| Print (s : string)
| PrintErr (s : string)
| Traceback (e : exn).

Record World := { cwd : list string; disk : Disk; console : list event }.

Inductive outcome (A : Type) := Return (a : A) | Raise (e : exn).
Arguments Return {A} a.
Arguments Raise {A} e.

Definition Py (A : Type) : Type := World -> outcome A * World.

#[global] Instance Py_ret : MRet Py := fun A a w => (Return a, w).

#[global] Instance Py_bind : MBind Py := fun A B k m w =>
  match m w with
  | (Return a, w') => k a w'
  | (Raise e, w') => (Raise e, w')
  end.

Definition raise {A} (e : exn) : Py A := fun w => (Raise e, w).

(** [try: body  except ...: handler]; [handler e] is [None] when no clause
    matches [e], which then propagates. *)
Definition try_except {A} (body : Py A) (handler : exn -> option (Py A)) : Py A :=
  fun w =>
    match body w with
    | (Return a, w') => (Return a, w')
    | (Raise e, w') =>
        match handler e with
        | Some h => h w'
        | None => (Raise e, w')
        end
    end.

Fixpoint for_each {A} (l : list A) (body : A -> Py unit) : Py unit :=
  match l with
  | [] => mret tt
  | a :: l' => body a ;; for_each l' body
  end.

Definition emit (ev : event) : Py unit := fun w =>
  (Return tt, {| cwd := cwd w; disk := disk w; console := console w ++ [ev] |}).

Definition print (s : string) : Py unit := emit (Print s).
Definition print_err (s : string) : Py unit := emit (PrintErr s).
Definition traceback_print_exc (e : exn) : Py unit := emit (Traceback e).

Definition set_disk (w : World) (d : Disk) : World :=
  {| cwd := cwd w; disk := d; console := console w |}.

(** A file-system call of the process on the name [name]: the errno of a
    failed call becomes the [OSError] of that errno. *)
Definition os_call (op : Disk -> list string -> fs_result Disk)
    (name : pathname) : Py unit := fun w =>
  match op (disk w) (resolve (cwd w) name) with
  | FsOk d' => (Return tt, set_disk w d')
  | FsErr e => (Raise (OSError e (pathname_str name)), w)
  end.

(** [with open(name, 'w') as f: f.write(text)] *)
Definition open_write (name : pathname) (text : list byte) : Py unit :=
  os_call (fun fs p => fs_write fs p text) name.

(** [with open(name, 'rb') as f: f.read()] *)
Definition open_read (name : pathname) : Py (list byte) := fun w =>
  match fs_read (disk w) (resolve (cwd w) name) with
  | FsOk c => (Return c, w)
  | FsErr e => (Raise (OSError e (pathname_str name)), w)
  end.

Definition os_remove (name : pathname) : Py unit := os_call fs_unlink name.
Definition os_mkdir (name : pathname) : Py unit := os_call fs_mkdir name.

Definition os_path_exists (name : pathname) : Py bool := fun w =>
  (Return (fs_exists (disk w) (resolve (cwd w) name)), w).

Definition os_path_isdir (name : pathname) : Py bool := fun w =>
  (Return (is_dir (disk w) (resolve (cwd w) name)), w).

(** [os.path.abspath(name)] *)
Definition os_path_abspath (name : pathname) : Py pathname := fun w =>
  (Return {| absolute := true; parts := resolve (cwd w) name |}, w).

Definition os_chdir (name : pathname) : Py unit := fun w =>
  let p := resolve (cwd w) name in
  match fs_lookup (disk w) p with
  | Some Dir => (Return tt, {| cwd := p; disk := disk w; console := console w |})
  | Some (File _) => (Raise (OSError ENOTDIR (pathname_str name)), w)
  | None => (Raise (OSError ENOENT (pathname_str name)), w)
  end.

(** [os.makedirs(name, exist_ok=True)] as the standard library defines it:
    when the parent [head] is missing, create it first (a [FileExistsError]
    from there is ignored) and stop if the last name is [.]; then create the
    directory itself, and accept a failure of that [mkdir] when the directory
    is there.  [fuel] bounds the recursion by the number of names in [name]. *)
Definition mkdir_exist_ok (name : pathname) : Py unit :=
  try_except (os_mkdir name)
    (fun e => match e with
              | OSError _ _ =>
                  Some (isdir ← os_path_isdir name;
                        if (isdir : bool) then mret tt else raise e)
              | _ => None
              end).

Definition ignore_exists (body : Py unit) : Py unit :=
  try_except body
    (fun e => match e with
              | OSError EEXIST _ => Some (mret tt)
              | _ => None
              end).

(** [tail == curdir] for the last name of [name]. *)
Definition tail_is_curdir (name : pathname) : bool :=
  match last (parts name) with
  | Some c => String.eqb c "."
  | None => false
  end.

Fixpoint os_makedirs_from (fuel : nat) (name : pathname) : Py unit :=
  let head := os_path_dirname name in
  match fuel with
  | O => mkdir_exist_ok name
  | S fuel' =>
      present ← os_path_exists head;
      if (absolute head || negb (bool_decide (parts head = [])))
         && negb (bool_decide (parts name = [])) && negb present
      then
        ignore_exists (os_makedirs_from fuel' head) ;;
        if tail_is_curdir name then mret tt else mkdir_exist_ok name
      else mkdir_exist_ok name
  end.

Definition os_makedirs (name : pathname) : Py unit :=
  os_makedirs_from (length (parts name)) name.

(** Python [len(s)] of a text held as UTF-8: the bytes that start a
    character (those that are not of the form [10xxxxxx]). *)
Definition py_strlen (s : string) : N :=
  N.of_nat (length (filter (fun b => negb (N.land (Byte.to_N b) 192 =? 128)%N)
                           (list_byte_of_string s))).

(** The runtime and the third-party code around the script. *)
Record Env := {
  script_file : pathname;     (* [__file__] *)
  node_installed : bool;      (* is there a [node] on the PATH *)
  js_decompress : JsRuntime
}.

(** [subprocess.run(['node', 'extract_lut.js'], capture_output=True,
    text=True, check=True)] *)
Definition subprocess_run (env : Env) : Py Completed := fun w =>
  if node_installed env then
    let (r, d') := node (js_decompress env) (cwd w) (disk w) in
    if (returncode r =? 0)%Z then (Return r, set_disk w d')
    else (Raise (CalledProcessError r), set_disk w d')
  else (Raise (OSError ENOENT "node"), w).

(** ** The functions of the script *)

Definition create_extraction_script : Py unit :=
  open_write (relative ["extract_lut.js"]) (list_byte_of_string js_script).

Definition run_extraction (env : Env) : Py bool :=
  print "Running Node.js extraction script..." ;;
  try_except
    (result ← subprocess_run env;
     print (stdout result) ;;
     (if bool_decide (stderr result = "") then mret tt
      else print_err ("Warnings: " +:+ stderr result)) ;;
     mret true)
    (fun e =>
       match e with
       | CalledProcessError r =>
           Some (print_err ("Error running extraction script: " +:+ exn_str e) ;;
                 print_err ("stdout: " +:+ stdout r) ;;
                 print_err ("stderr: " +:+ stderr r) ;;
                 mret false)
       | OSError ENOENT _ =>
           Some (print_err
                   "Error: Node.js not found. Please install Node.js to run this script." ;;
                 mret false)
       | _ => None
       end).

Definition output_path : pathname :=
  os_path_join [".."; "lib"; "utils"; "mixbox_lut_data.dart"].

Definition convert_to_dart : Py unit :=
  print "Converting to Dart format..." ;;
  lut_data ← open_read (relative ["mixbox_lut_raw.bin"]);
  print ("Read " +:+ str (Z.to_N (len lut_data)) +:+ " bytes") ;;
  let dart := dart_code lut_data in
  os_makedirs (os_path_dirname output_path) ;;
  open_write output_path (list_byte_of_string dart) ;;
  print ("Generated " +:+ pathname_str output_path) ;;
  print ("File size: " +:+ str (py_strlen dart) +:+ " bytes").

Definition cleanup : Py unit :=
  for_each ["extract_lut.js"; "mixbox_lut_raw.bin"] (fun filename =>
    present ← os_path_exists (relative [filename]);
    if (present : bool) then
      os_remove (relative [filename]) ;;
      print ("Cleaned up " +:+ filename)
    else mret tt).

(** The body of the [try] block of [main]. *)
Definition pipeline (env : Env) : Py Z :=
  print "Step 1: Creating Node.js extraction script..." ;;
  create_extraction_script ;;
  print "[OK] Created extract_lut.js" ;;
  print "" ;;
  print "Step 2: Extracting LUT from mixbox.esm.js..." ;;
  ok ← run_extraction env;
  if negb ok then
    print "[FAIL] Extraction failed" ;;
    mret 1%Z
  else
    print "[OK] Extraction complete" ;;
    print "" ;;
    print "Step 3: Converting to Dart format..." ;;
    convert_to_dart ;;
    print "[OK] Dart file generated" ;;
    print "" ;;
    print "Step 4: Cleaning up temporary files..." ;;
    cleanup ;;
    print "[OK] Cleanup complete" ;;
    print "" ;;
    print (str_mul "=" 60) ;;
    print "SUCCESS! Mixbox LUT has been extracted and converted." ;;
    print "Output: lib/utils/mixbox_lut_data.dart" ;;
    print (str_mul "=" 60) ;;
    mret 0%Z.

(** The [try] block with its [except Exception as e] clause. *)
Definition guarded_pipeline (env : Env) : Py Z :=
  try_except (pipeline env)
    (fun e => Some (print_err (nl +:+ "[ERROR] " +:+ exn_str e) ;;
                    traceback_print_exc e ;;
                    mret 1%Z)).

Definition main (env : Env) : Py Z :=
  print (str_mul "=" 60) ;;
  print "Mixbox LUT Extraction Script" ;;
  print (str_mul "=" 60) ;;
  print "" ;;
  script ← os_path_abspath (script_file env);
  let script_dir := os_path_dirname script in
  os_chdir script_dir ;;
  guarded_pipeline env.

(** [sys.exit(main())]: the exit status of the process and the world it
    leaves.  An exception that leaves [main] ends the interpreter with its
    trace on standard error and status 1.  The process starts in directory
    [cwd0] on the tree [fs0], with an empty console and journal. *)
Definition run_script (env : Env) (cwd0 : list string)
    (fs0 : gmap (list string) entry) : Z * World :=
  let w0 := {| cwd := cwd0; disk := {| files := fs0; journal := [] |};
               console := [] |} in
  match main env w0 with
  | (Return code, w') => (code, w')
  | (Raise e, w') =>
      (1%Z, {| cwd := cwd w'; disk := disk w';
               console := console w' ++ [Traceback e] |})
  end.

(** ** Reading the generated literal back

    What a consumer of the generated file sees: the decimal entries between
    the opening and the closing bracket, separated by commas, with blanks and
    line breaks around them. *)

Inductive scan_state :=
| Idle            (* between entries *)
| Num (n : N)     (* inside the digits of an entry *)
| Done (n : N).   (* after an entry, before its comma *)

Definition digit_val (c : ascii) : option N :=
  let n := N_of_ascii c in
  if ((48 <=? n) && (n <=? 57))%N then Some (n - 48)%N else None.

Definition is_blank (c : ascii) : bool :=
  Ascii.eqb c " " || Ascii.eqb c "010".

Fixpoint scan (s : string) (st : scan_state) : option (list N) :=
  match s with
  | EmptyString => None
  | String c s' =>
      match digit_val c with
      | Some d =>
          match st with
          | Idle => scan s' (Num d)
          | Num n => scan s' (Num (10 * n + d))
          | Done _ => None
          end
      | None =>
          if Ascii.eqb c "," then
            match st with
            | Idle => None
            | Num n | Done n => cons n <$> scan s' Idle
            end
          else if Ascii.eqb c "]" then
            Some (match st with Idle => [] | Num n | Done n => [n] end)
          else if is_blank c then
            scan s' (match st with Num n => Done n | _ => st end)
          else None
      end
  end.

Fixpoint after_open (s : string) : option string :=
  match s with
  | EmptyString => None
  | String c s' => if Ascii.eqb c "[" then Some s' else after_open s'
  end.

Definition array_entries (code : string) : option (list N) :=
  match after_open code with
  | Some body => scan body Idle
  | None => None
  end.

(** The texts appended by the iterations of the loop, in order. *)
Definition data_lines (lut_data : list byte) : list string :=
  map (data_line lut_data) (py_range (length lut_data) 16).

(** The text of one line without its end: a chunk rendered in decimal. *)
Definition render (chunk : list byte) : string :=
  "  " +:+ join ", " (map byte_str chunk).

Fixpoint last_char (s : string) : option ascii :=
  match s with
  | EmptyString => None
  | String c EmptyString => Some c
  | String _ s' => last_char s'
  end.

Definition is_digit (c : ascii) : bool :=
  match digit_val c with Some _ => true | None => false end.

Definition all_digits (s : string) : bool :=
  forallb is_digit (list_ascii_of_string s).

(** The layout that the specification gives to the values of a data line,
    written out without [join]: the values in order, and between one value
    and the next a comma and a blank. *)
Fixpoint comma_blank_separated (values : list string) : string :=
  match values with
  | [] => ""
  | v :: rest =>
      match rest with
      | [] => v
      | _ :: _ => v +:+ ", " +:+ comma_blank_separated rest
      end
  end.

(** ** The paths and the conditions of a run *)

(** [os.path.dirname(os.path.abspath(__file__))] for a process started in
    [cwd0]. *)
Definition script_dir (env : Env) (cwd0 : list string) : list string :=
  resolve cwd0
    (os_path_dirname {| absolute := true; parts := resolve cwd0 (script_file env) |}).

(** The disk at the start of a process: the tree, nothing done yet. *)
Definition pristine (fs0 : gmap (list string) entry) : Disk :=
  {| files := fs0; journal := [] |}.

(** A normalised path: no name is [..], [.] or empty. *)
Definition plain (p : list string) : Prop :=
  Forall (fun c => c <> ".." /\ c <> "." /\ c <> "") p.

(** What [main] prints before it changes directory. *)
Definition banner : list event :=
  [Print (str_mul "=" 60); Print "Mixbox LUT Extraction Script";
   Print (str_mul "=" 60); Print ""].

(** The world in which the [try] block starts, for a script in [dir]. *)
Definition start_world (dir : list string) (fs0 : gmap (list string) entry) : World :=
  {| cwd := dir; disk := pristine fs0; console := banner |}.

(** The files of the program, as paths on the disk, when its relative names
    are resolved in directory [dir]. *)
Definition snippet_at (dir : list string) : list string :=
  resolve dir (relative ["extract_lut.js"]).
Definition raw_at (dir : list string) : list string :=
  resolve dir (relative ["mixbox_lut_raw.bin"]).
Definition input_at (dir : list string) : list string :=
  resolve dir (relative mixbox_rel).
Definition output_at (dir : list string) : list string :=
  resolve dir output_path.
Definition output_dir_at (dir : list string) : list string :=
  resolve dir (os_path_dirname output_path).

Definition not_a_dir (d : Disk) (p : list string) : bool := negb (is_dir d p).

Definition not_a_file (d : Disk) (p : list string) : bool :=
  match fs_lookup d p with Some (File _) => false | _ => true end.

(** Where [convert_to_dart] can create the output directory and the output
    file when run in [dir]: the parent of [dir] is a directory, no file stands
    where [lib] and [lib/utils] go, no directory where the output file goes. *)
Record output_writable (d : Disk) (dir : list string) : Prop := {
  ow_up : is_dir d (resolve dir (relative [".."])) = true;
  ow_lib : not_a_file d (resolve dir (relative [".."; "lib"])) = true;
  ow_utils : not_a_file d (output_dir_at dir) = true;
  ow_out : not_a_dir d (output_at dir) = true
}.

(** A known-good run: the script directory exists, Node is installed, the
    third-party file holds the declaration and the decompression code, which
    yields the table [lut] with at least the expected size, and nothing on
    the disk stands in the way of the files the run writes. *)
Record known_good (env : Env) (cwd0 : list string)
    (fs0 : gmap (list string) entry) (lut : list byte) : Prop := {
  kg_dir : is_dir (pristine fs0) (script_dir env cwd0) = true;
  kg_node : node_installed env = true;
  kg_snippet : not_a_dir (pristine fs0) (snippet_at (script_dir env cwd0)) = true;
  kg_raw : not_a_dir (pristine fs0) (raw_at (script_dir env cwd0)) = true;
  kg_input : exists out2,
      locate_and_decompress (js_decompress env) (script_dir env cwd0) (pristine fs0)
      = inr (out2, lut);
  kg_size : (expectedSize <= len lut)%Z;
  kg_output : output_writable (pristine fs0) (script_dir env cwd0)
}.

(** The declaration the snippet looks for, as a property of the text: the
    call with a non-empty string literal that holds no double quote. *)
Definition contains_decl (code : string) : Prop :=
  exists pre body post,
    code = pre +:+ lut_prefix +:+ body +:+ lut_suffix +:+ post /\
    body <> "" /\
    Forall (fun c => c <> quote) (list_ascii_of_string body).

Definition is_error_event (ev : event) : bool :=
  match ev with
  | PrintErr _ | Traceback _ => true
  | Print _ => false
  end.

(** What the snippet writes on standard error when the declaration is not
    found, as [run_extraction] prints it. *)
Definition no_decl_report : event :=
  PrintErr ("stderr: " +:+ "Could not find LUT data in mixbox.esm.js" +:+ nl).

Definition success_line : string :=
  "SUCCESS! Mixbox LUT has been extracted and converted.".

(** [say w evs]: the world [w] after the events [evs] were printed. *)
Definition say (w : World) (evs : list event) : World :=
  {| cwd := cwd w; disk := disk w; console := console w ++ evs |}.

(** A run of events without the line that announces success. *)
Definition quiet (evs : list event) : Prop :=
  Forall (fun ev => ev <> Print success_line) evs.

Definition js_bytes : list byte := list_byte_of_string js_script.

(** [d'] is [d] after some directories were created: the journal grew by
    [MadeDir] entries, nothing changed elsewhere, and every entry of [d] is
    still there. *)
Definition only_mkdirs (d d' : Disk) : Prop :=
  (exists ps, journal d' = journal d ++ map MadeDir ps /\
              forall q, q ∉ ps -> fs_lookup d' q = fs_lookup d q) /\
  forall q e, fs_lookup d q = Some e -> fs_lookup d' q = Some e.

(** What a call that only creates directories leaves of the world. *)
Definition mkdirs_step (w w' : World) : Prop :=
  cwd w' = cwd w /\ console w' = console w /\ only_mkdirs (disk w) (disk w').

(** Why a run started in directory [dir] on the disk [d0] does not reach the
    end of the pipeline: the directory of the script is not there; the snippet
    cannot be written; the extraction reports a failure; the conversion
    raises. *)
Inductive failure (env : Env) (dir : list string) (d0 : Disk) : Prop :=
| NoScriptDir :
    is_dir d0 dir = false -> failure env dir d0
| SnippetNotWritten (e : errno) :
    fs_write d0 (snippet_at dir) js_bytes = FsErr e -> failure env dir d0
| ExtractionFailed (w1 w2 : World) :
    cwd w1 = dir ->
    fs_write d0 (snippet_at dir) js_bytes = FsOk (disk w1) ->
    run_extraction env w1 = (Return false, w2) ->
    failure env dir d0
| ConversionFailed (d1 : Disk) (w2 w3 : World) (e : exn)
    (out2 : string) (lut buf : list byte) (log : string) :
    fs_write d0 (snippet_at dir) js_bytes = FsOk d1 ->
    locate_and_decompress (js_decompress env) dir d0 = inr (out2, lut) ->
    select_lut_buffer lut = Some (buf, log) ->
    fs_write d1 (raw_at dir) buf = FsOk (disk w2) ->
    cwd w2 = dir ->
    convert_to_dart w2 = (Raise e, w3) ->
    failure env dir d0.

(** A run started in directory [dir] on the disk [d0] that passes the first
    three stages: the snippet is written, the extraction decompresses [lut],
    keeps [buf] of it and reports success, the conversion returns. *)
Record completed (env : Env) (dir : list string) (d0 : Disk)
    (lut buf : list byte) : Prop := {
  co_node : node_installed env = true;
  co_located : exists out2,
      locate_and_decompress (js_decompress env) dir d0 = inr (out2, lut);
  co_selected : exists log, select_lut_buffer lut = Some (buf, log);
  co_stages : exists d1 w1 w2 w3 w4,
      fs_write d0 (snippet_at dir) js_bytes = FsOk d1 /\
      cwd w1 = dir /\ disk w1 = d1 /\
      run_extraction env w1 = (Return true, w2) /\
      fs_write d1 (raw_at dir) buf = FsOk (disk w2) /\
      cwd w3 = dir /\ disk w3 = disk w2 /\
      convert_to_dart w3 = (Return tt, w4)
}.

(** Two worlds that differ in what was printed only, and the programs whose
    result and effect on the directory and the disk do not depend on what was
    printed before. *)
Definition same_state (w1 w2 : World) : Prop :=
  cwd w1 = cwd w2 /\ disk w1 = disk w2.

Definition stable {A} (m : Py A) : Prop :=
  forall w1 w2, same_state w1 w2 ->
    (m w1).1 = (m w2).1 /\ same_state (m w1).2 (m w2).2.

(** ** Sample inputs

    A project tree with the third-party file, the script started from
    [/home] as [proj/scripts/extract_mixbox_lut.py], and decompressed tables
    of 786,432, 800,000 and 100 bytes. *)

Definition demo_code : string :=
  "function decompress(s) { return inflate(s); }" +:+ nl +:+
  "var lut = decompress(" +:+ q +:+ "eJzt" +:+ q +:+ ");" +:+ nl.

Definition demo_tree : gmap (list string) entry :=
  list_to_map [
    (["home"], Dir);
    (["home"; "proj"], Dir);
    (["home"; "proj"; "scripts"], Dir);
    (["home"; "proj"; "reference-mixbox"], Dir);
    (["home"; "proj"; "reference-mixbox"; "mixbox-master"], Dir);
    (["home"; "proj"; "reference-mixbox"; "mixbox-master"; "javascript"], Dir);
    (["home"; "proj"; "reference-mixbox"; "mixbox-master"; "javascript";
      "mixbox.esm.js"], File (list_byte_of_string demo_code))
  ].

(** The same tree with a third-party file that holds the decompression code
    but not the declaration of the table. *)
Definition bare_code : string :=
  "function decompress(s) { return inflate(s); }" +:+ nl.

Definition bare_tree : gmap (list string) entry :=
  <[["home"; "proj"; "reference-mixbox"; "mixbox-master"; "javascript";
     "mixbox.esm.js"] := File (list_byte_of_string bare_code)]> demo_tree.

(** Third-party code that writes nothing, and one that logs a line and
    makes Node print a warning. *)
Definition silent (f : string -> string -> option (list byte)) : JsRuntime :=
  {| returned := f; logged := fun _ _ => ""; warned := fun _ _ => "";
     uncaught := fun e => "Error: " +:+ errno_str e +:+ nl |}.

Definition chatty (f : string -> string -> option (list byte)) : JsRuntime :=
  {| returned := f;
     logged := fun _ _ => "inflating" +:+ nl;
     warned := fun _ _ => "(node:1) Warning: slow path" +:+ nl;
     uncaught := fun e => "Error: " +:+ errno_str e +:+ nl |}.

Definition demo_env (lut : list byte) : Env :=
  {| script_file := relative ["proj"; "scripts"; "extract_mixbox_lut.py"];
     node_installed := true;
     js_decompress := silent (fun _ _ => Some lut) |}.

(** The same with third-party code that writes on both streams. *)
Definition chatty_env (lut : list byte) : Env :=
  {| script_file := relative ["proj"; "scripts"; "extract_mixbox_lut.py"];
     node_installed := true;
     js_decompress := chatty (fun _ _ => Some lut) |}.

(** The same script started from [/tmp] under its absolute name. *)
Definition demo_env_abs (lut : list byte) : Env :=
  {| script_file := {| absolute := true;
                       parts := ["home"; "proj"; "scripts"; "extract_mixbox_lut.py"] |};
     node_installed := true;
     js_decompress := silent (fun _ _ => Some lut) |}.

Fixpoint doubled {A} (k : nat) (l : list A) : list A :=
  match k with
  | O => l
  | S k' => doubled k' (l ++ l)
  end.

(** 3 * 2^18 = 786,432 bytes. *)
Definition lut_exact : list byte := doubled 18 [x00; x01; x02]%byte.
(** 13,568 bytes in front of them: 800,000 bytes. *)
Definition lut_padded : list byte := doubled 8 (replicate 53 xff%byte) ++ lut_exact.
Definition lut_short : list byte := replicate 100 x07%byte.

(** The world in front of [convert_to_dart] after an extraction that left
    35 bytes in the raw file; [lib] does not exist yet. *)
Definition lut_tiny : list byte := replicate 35 x2a%byte.

Definition formatter_world : World :=
  {| cwd := ["home"; "proj"; "scripts"];
     disk := pristine (<[["home"; "proj"; "scripts"; "mixbox_lut_raw.bin"]
                         := File lut_tiny]> demo_tree);
     console := [] |}.

(** ** Further notions about the runs *)

(** A declaration of the table in [code]: after [pre], with [body] between
    the quotes and [post] behind it. *)
Definition decl_at (code pre body post : string) : Prop :=
  code = pre +:+ lut_prefix +:+ body +:+ lut_suffix +:+ post /\
  body <> "" /\
  Forall (fun c => c <> quote) (list_ascii_of_string body).

(** What [main] prints from the start of the [try] block to the start of the
    child process. *)
Definition step_lines : list event :=
  [Print "Step 1: Creating Node.js extraction script...";
   Print "[OK] Created extract_lut.js";
   Print "";
   Print "Step 2: Extracting LUT from mixbox.esm.js...";
   Print "Running Node.js extraction script..."].

(** The disk of a process started on the tree [fs0] once the snippet is
    written in [dir]. *)
Definition with_snippet (fs0 : gmap (list string) entry) (dir : list string) : Disk :=
  commit (pristine fs0) (<[snippet_at dir := File js_bytes]> fs0)
         (Wrote (snippet_at dir)).

(** The three lines of [run_extraction] about a child that exited with a
    status other than 0. *)
Definition child_report (r : Completed) : list event :=
  [PrintErr ("Error running extraction script: " +:+ exn_str (CalledProcessError r));
   PrintErr ("stdout: " +:+ stdout r);
   PrintErr ("stderr: " +:+ stderr r)].

(** The world in which [run_extraction] is called. *)
Definition extraction_world (fs0 : gmap (list string) entry) (dir : list string) : World :=
  {| cwd := dir; disk := with_snippet fs0 dir;
     console := banner ++ [Print "Step 1: Creating Node.js extraction script...";
                           Print "[OK] Created extract_lut.js";
                           Print "";
                           Print "Step 2: Extracting LUT from mixbox.esm.js..."] |}.

(** The sample tree with a third-party file that declares the table but
    holds no decompression function. *)
Definition headless_code : string :=
  "var lut = decompress(" +:+ q +:+ "eJzt" +:+ q +:+ ");" +:+ nl.

Definition headless_tree : gmap (list string) entry :=
  <[["home"; "proj"; "reference-mixbox"; "mixbox-master"; "javascript";
     "mixbox.esm.js"] := File (list_byte_of_string headless_code)]> demo_tree.

(** The sample tree with a directory where the snippet goes, and with a
    regular file where the output directory goes. *)
Definition blocked_tree : gmap (list string) entry :=
  <[["home"; "proj"; "scripts"; "extract_lut.js"] := Dir]> demo_tree.

Definition clogged_tree : gmap (list string) entry :=
  <[["home"; "proj"; "lib"; "utils"] := File []]>
    (<[["home"; "proj"; "lib"] := Dir]> demo_tree).

Definition demo_env_no_node : Env :=
  {| script_file := relative ["proj"; "scripts"; "extract_mixbox_lut.py"];
     node_installed := false;
     js_decompress := silent (fun _ _ => None) |}.

(** [needle] occurs in [hay]. *)
Definition occurs (needle hay : string) : Prop :=
  exists pre post, hay = pre +:+ needle +:+ post.

(** The disk once the child has written the raw file with the bytes [buf]. *)
Definition with_raw (fs0 : gmap (list string) entry) (dir : list string)
    (buf : list byte) : Disk :=
  commit (with_snippet fs0 dir)
         (<[raw_at dir := File buf]> (files (with_snippet fs0 dir)))
         (Wrote (raw_at dir)).

(** The standard output of a child that wrote [buf]: what it logged up to
    the decompression, what the size block logged, the closing line. *)
Definition child_stdout (out2 log : string) (buf : list byte) : string :=
  out2 +:+ log +:+ "Written raw LUT to mixbox_lut_raw.bin ("
  +:+ str (Z.to_N (len buf)) +:+ " bytes)" +:+ nl.

(** The result of a child that ran to its end and wrote [buf]: on standard
    error there is what the evaluation of the third-party code wrote. *)
Definition finished_child (rt : JsRuntime) (fs0 : gmap (list string) entry)
    (dir : list string) (out2 log : string) (buf : list byte) : Completed :=
  exited 0 (child_stdout out2 log buf) (evaluation_stderr rt dir (pristine fs0)).

(** The line of [run_extraction] about the standard error of a child that
    exited with status 0: printed when there is something on it. *)
Definition warning_lines (r : Completed) : list event :=
  if bool_decide (stderr r = "") then []
  else [PrintErr ("Warnings: " +:+ stderr r)].

(** What the script prints about a child [r] that exited with status 0, up
    to the call of [convert_to_dart], and the world in which that call is
    made. *)
Definition extraction_lines (r : Completed) : list event :=
  [Print (stdout r)] ++ warning_lines r
  ++ [Print "[OK] Extraction complete"; Print "";
      Print "Step 3: Converting to Dart format..."].

Definition conversion_world (fs0 : gmap (list string) entry) (dir : list string)
    (buf : list byte) (r : Completed) : World :=
  {| cwd := dir; disk := with_raw fs0 dir buf;
     console := banner ++ step_lines ++ extraction_lines r |}.

(** A tree and an environment in which the child runs to its end: the
    script directory is there, the two intermediate names are free or held by
    files, Node is installed, and the third-party file yields a table [lut]
    of which [buf] is kept. *)
Record extractable (env : Env) (cwd0 : list string)
    (fs0 : gmap (list string) entry) (out2 : string) (lut buf : list byte)
    (log : string) : Prop := {
  ex_dir : is_dir (pristine fs0) (script_dir env cwd0) = true;
  ex_node : node_installed env = true;
  ex_snippet : not_a_dir (pristine fs0) (snippet_at (script_dir env cwd0)) = true;
  ex_raw : not_a_dir (pristine fs0) (raw_at (script_dir env cwd0)) = true;
  ex_located :
    locate_and_decompress (js_decompress env) (script_dir env cwd0) (pristine fs0)
    = inr (out2, lut);
  ex_selected : select_lut_buffer lut = Some (buf, log)
}.

(** [d'] is [d] with, at most, new directories at the paths [ps]: every
    path holds what it held, or is one of [ps], was free, and holds a directory
    now. *)
Definition made_dirs (ps : list (list string)) (d d' : Disk) : Prop :=
  forall q,
    fs_lookup d' q = fs_lookup d q \/
    (q ∈ ps /\ fs_lookup d q = None /\ fs_lookup d' q = Some Dir).

(** [../lib] seen from [dir]. *)
Definition lib_at (dir : list string) : list string :=
  resolve dir (relative [".."; "lib"]).

(** What [convert_to_dart] prints before it creates the output directory,
    and after it wrote the file. *)
Definition read_lines (data : list byte) : list event :=
  [Print "Converting to Dart format...";
   Print ("Read " +:+ str (Z.to_N (len data)) +:+ " bytes")].

Definition written_lines (data : list byte) : list event :=
  [Print ("Generated " +:+ "../lib/utils/mixbox_lut_data.dart");
   Print ("File size: " +:+ str (py_strlen (dart_code data)) +:+ " bytes")].

(** What a run may do to a path [q] other than its three files: leave it as
    it is, or create the directory [../lib] or [../lib/utils] there. *)
Definition kept_or_made (dir : list string) (d d' : Disk) (q : list string) : Prop :=
  fs_lookup d' q = fs_lookup d q \/
  (q ∈ [lib_at dir; output_dir_at dir] /\
   fs_lookup d q = None /\ fs_lookup d' q = Some Dir).

(** The sample tree after an earlier run: the output directory exists and
    holds an output file, here with the text [old]. *)
Definition stale_tree : gmap (list string) entry :=
  <[["home"; "proj"; "lib"; "utils"; "mixbox_lut_data.dart"]
    := File (list_byte_of_string "old")]>
    (<[["home"; "proj"; "lib"; "utils"] := Dir]>
       (<[["home"; "proj"; "lib"] := Dir]> demo_tree)).

(** What the script prints after a conversion that returned. *)
Definition closing_lines : list event :=
  [Print "[OK] Dart file generated"; Print "";
   Print "Step 4: Cleaning up temporary files...";
   Print "Cleaned up extract_lut.js";
   Print "Cleaned up mixbox_lut_raw.bin";
   Print "[OK] Cleanup complete"; Print "";
   Print (str_mul "=" 60);
   Print "SUCCESS! Mixbox LUT has been extracted and converted.";
   Print "Output: lib/utils/mixbox_lut_data.dart";
   Print (str_mul "=" 60)].

(** A world with both intermediate files and an unrelated file next to
    them. *)
Definition littered_world : World :=
  {| cwd := ["home"; "proj"; "scripts"];
     disk := pristine
               (<[["home"; "proj"; "scripts"; "extract_lut.js"] := File js_bytes]>
                  (<[["home"; "proj"; "scripts"; "mixbox_lut_raw.bin"] := File lut_tiny]>
                     (<[["home"; "proj"; "scripts"; "notes.txt"] := File []]> demo_tree)));
     console := [] |}.

(** The number of bytes that [f.write(s)] puts in a file opened with
    [encoding='utf-8']. *)
Definition byte_count (s : string) : N :=
  N.of_nat (length (list_byte_of_string s)).

(** The first occurrence of [needle] in [hay] comes right after [pre]. *)
Definition first_at (needle hay pre : string) : Prop :=
  (exists rest, hay = pre +:+ needle +:+ rest) /\
  forall pre' rest',
    hay = pre' +:+ needle +:+ rest' ->
    (String.length pre <= String.length pre')%nat.

(** A third-party text in which the declaration comes before the
    decompression function. *)
Definition swapped_code : string :=
  "var lut = decompress(" +:+ q +:+ "eJzt" +:+ q +:+ ");" +:+ nl +:+
  "function decompress(s) { return inflate(s); }" +:+ nl.

Definition swapped_tree : gmap (list string) entry :=
  <[["home"; "proj"; "reference-mixbox"; "mixbox-master"; "javascript";
     "mixbox.esm.js"] := File (list_byte_of_string swapped_code)]> demo_tree.

(** ** Pure lemmas: sizes and slices *)

Lemma len_drop {A} (l : list A) (n : nat) :
  len (drop n l) = Z.max 0 (len l - Z.of_nat n).
Proof. unfold len. rewrite length_drop. lia. Qed.

Lemma js_slice_drop {A} (l : list A) (k : Z) :
  (0 <= k)%Z -> js_slice l k = drop (Z.to_nat k) l.
Proof.
  intros Hk. unfold js_slice.
  destruct (k <? 0)%Z eqn:E; [apply Z.ltb_lt in E; lia | reflexivity].
Qed.

Lemma select_equal (lut : list byte) :
  len lut = expectedSize -> select_lut_buffer lut = Some (lut, "").
Proof.
  intros H. unfold select_lut_buffer. rewrite H, Z.eqb_refl. reflexivity.
Qed.

Lemma select_larger (lut : list byte) :
  (len lut > expectedSize)%Z ->
  exists log, select_lut_buffer lut =
              Some (drop (Z.to_nat (len lut - expectedSize)) lut, log).
Proof.
  intros H. unfold select_lut_buffer.
  destruct (len lut =? expectedSize)%Z eqn:E1; [apply Z.eqb_eq in E1; lia |].
  destruct (len lut >? expectedSize)%Z eqn:E2.
  - rewrite js_slice_drop by lia. eexists. reflexivity.
  - rewrite Z.gtb_ltb in E2. apply Z.ltb_ge in E2. lia.
Qed.

Lemma select_smaller (lut : list byte) :
  (len lut < expectedSize)%Z -> select_lut_buffer lut = None.
Proof.
  intros H. unfold select_lut_buffer.
  destruct (len lut =? expectedSize)%Z eqn:E1; [apply Z.eqb_eq in E1; lia |].
  destruct (len lut >? expectedSize)%Z eqn:E2; [| reflexivity].
  rewrite Z.gtb_ltb in E2. apply Z.ltb_lt in E2. lia.
Qed.

(** Whatever the block keeps has the expected size and is a suffix of the
    decompressed data. *)
Lemma select_some (lut buf : list byte) (log : string) :
  select_lut_buffer lut = Some (buf, log) ->
  len buf = expectedSize /\
  buf = drop (Z.to_nat (len lut - expectedSize)) lut /\
  (expectedSize <= len lut)%Z.
Proof.
  unfold select_lut_buffer.
  destruct (len lut =? expectedSize)%Z eqn:E1.
  - apply Z.eqb_eq in E1. intros [= <- <-].
    rewrite E1, Z.sub_diag. simpl. split; [reflexivity | split; [reflexivity | lia]].
  - destruct (len lut >? expectedSize)%Z eqn:E2; [| discriminate].
    rewrite Z.gtb_ltb in E2. apply Z.ltb_lt in E2.
    rewrite js_slice_drop by lia. intros [= <- <-].
    split; [rewrite len_drop; unfold expectedSize in *; lia
           | split; [reflexivity | lia]].
Qed.

(** ** Pure lemmas: strings *)

Lemma sapp_nil_l (b : string) : "" +:+ b = b.
Proof. reflexivity. Qed.

Lemma sapp_cons (x : ascii) (a b : string) :
  String x a +:+ b = String x (a +:+ b).
Proof. reflexivity. Qed.

Lemma sapp_assoc (a b c : string) : (a +:+ b) +:+ c = a +:+ (b +:+ c).
Proof.
  induction a as [| x a IH]; [reflexivity |].
  now rewrite !sapp_cons, IH.
Qed.

Lemma sapp_nil_r (a : string) : a +:+ "" = a.
Proof.
  induction a as [| x a IH]; [reflexivity |].
  now rewrite sapp_cons, IH.
Qed.

Lemma fold_left_flat (f : nat -> string) (l : list nat) (acc : string) :
  fold_left (fun code i => code +:+ f i) l acc = acc +:+ flat (map f l).
Proof.
  revert acc. induction l as [| i l IH]; intros acc; simpl.
  - now rewrite sapp_nil_r.
  - rewrite IH. apply sapp_assoc.
Qed.

(** The generated text: the header, the data lines, the closing line. *)
Lemma dart_code_flat (lut_data : list byte) :
  dart_code lut_data
  = dart_header +:+ flat (data_lines lut_data) +:+ "];" +:+ nl.
Proof.
  unfold dart_code, data_lines. rewrite fold_left_flat. apply sapp_assoc.
Qed.

(** ** Pure lemmas: the loop over [range(0, len(lut_data), 16)] *)

Lemma py_range_lookup (n k : nat) :
  py_range n 16 !! k = if (k <? (n + 15) / 16)%nat then Some (k * 16)%nat else None.
Proof.
  unfold py_range. rewrite list_lookup_fmap.
  replace (n + 16 - 1)%nat with (n + 15)%nat by lia.
  destruct (k <? (n + 15) / 16)%nat eqn:E.
  - apply Nat.ltb_lt in E. rewrite lookup_seq_lt by exact E. reflexivity.
  - apply Nat.ltb_ge in E. rewrite lookup_seq_ge by exact E. reflexivity.
Qed.

Lemma py_range_length (n : nat) : length (py_range n 16) = ((n + 15) / 16)%nat.
Proof.
  unfold py_range. rewrite length_map, length_seq. f_equal. lia.
Qed.

Lemma py_range_nil : py_range 0 16 = [].
Proof. reflexivity. Qed.

Lemma py_range_cons (n : nat) :
  (0 < n)%nat ->
  py_range n 16 = 0%nat :: map (fun i => i + 16)%nat (py_range (n - 16) 16).
Proof.
  intros Hn. unfold py_range.
  assert (E : ((n + 16 - 1) / 16 = S ((n - 16 + 16 - 1) / 16))%nat).
  { destruct (Nat.le_gt_cases 16 n) as [Hge | Hlt].
    - replace (n + 16 - 1)%nat with (1 * 16 + (n - 16 + 16 - 1))%nat by lia.
      rewrite Nat.div_add_l by lia. lia.
    - replace (n - 16 + 16 - 1)%nat with 15%nat by lia.
      rewrite (Nat.div_small 15 16) by lia.
      replace (n + 16 - 1)%nat with (1 * 16 + (n - 1))%nat by lia.
      rewrite Nat.div_add_l by lia. rewrite Nat.div_small by lia. reflexivity. }
  rewrite E. cbn [seq map]. f_equal.
  rewrite <- seq_shift, !map_map. apply map_ext. intros k. lia.
Qed.

Lemma data_line_shift (lut_data : list byte) (i : nat) :
  data_line lut_data (i + 16) = data_line (drop 16 lut_data) i.
Proof.
  unfold data_line, py_slice. rewrite drop_drop, length_drop.
  replace (16 + i)%nat with (i + 16)%nat by lia.
  replace (i + 16 + 16 - (i + 16))%nat with (i + 16 - i)%nat by lia.
  replace (i + 16 + 16 <? length lut_data)%nat
    with (i + 16 <? length lut_data - 16)%nat; [reflexivity |].
  destruct (i + 16 <? length lut_data - 16)%nat eqn:E; symmetry.
  - apply Nat.ltb_lt in E. apply Nat.ltb_lt. lia.
  - apply Nat.ltb_ge in E. apply Nat.ltb_ge. lia.
Qed.

Lemma data_line_0 (lut_data : list byte) :
  data_line lut_data 0
  = render (take 16 lut_data)
    +:+ (if (16 <? length lut_data)%nat then "," else "") +:+ nl.
Proof.
  unfold data_line, py_slice, render. simpl drop.
  replace (0 + 16 - 0)%nat with 16%nat by lia.
  replace (0 + 16)%nat with 16%nat by lia.
  destruct (16 <? length lut_data)%nat.
  - now rewrite !sapp_assoc.
  - simpl. now rewrite !sapp_assoc.
Qed.

Lemma data_lines_nil : data_lines [] = [].
Proof. reflexivity. Qed.

Lemma data_lines_cons (lut_data : list byte) :
  lut_data <> [] ->
  data_lines lut_data = data_line lut_data 0 :: data_lines (drop 16 lut_data).
Proof.
  intros Hne. unfold data_lines.
  rewrite py_range_cons by (destruct lut_data; [congruence | simpl; lia]).
  cbn [map]. f_equal. rewrite map_map, length_drop.
  apply map_ext. intros i. apply data_line_shift.
Qed.

(** The line of index [k]: the [k]-th chunk of 16 bytes, a comma unless the
    chunk is the last one, the end of line. *)
Lemma data_lines_lookup (lut_data : list byte) (k : nat) (line : string) :
  data_lines lut_data !! k = Some line ->
  (k < length (data_lines lut_data))%nat /\
  line = render (take 16 (drop (16 * k) lut_data))
         +:+ (if (S k <? length (data_lines lut_data))%nat then "," else "")
         +:+ nl.
Proof.
  intros H. pose proof (lookup_lt_Some _ _ _ H) as Hlt. split; [exact Hlt |].
  revert H Hlt. unfold data_lines at 1 2. rewrite length_map, py_range_length.
  rewrite list_lookup_fmap, py_range_lookup. intros H Hlt.
  apply Nat.ltb_lt in Hlt. rewrite Hlt in H. simpl in H. injection H as <-.
  apply Nat.ltb_lt in Hlt.
  unfold data_lines. rewrite length_map, py_range_length.
  unfold data_line, py_slice, render.
  replace (k * 16 + 16 - k * 16)%nat with 16%nat by lia.
  replace (k * 16)%nat with (16 * k)%nat by lia.
  replace (16 * k + 16 <? length lut_data)%nat
    with (S k <? (length lut_data + 15) / 16)%nat.
  - destruct (S k <? _)%nat; simpl; now rewrite ?sapp_assoc.
  - assert (Hd : forall m, (S k < (m + 15) / 16 <-> 16 * k + 16 < m)%nat).
    { intros m. pose proof (Nat.div_mod_eq (m + 15) 16) as Hq.
      pose proof (Nat.mod_upper_bound (m + 15) 16) as Hr. lia. }
    destruct (S k <? _)%nat eqn:E; symmetry.
    + apply Nat.ltb_lt in E. apply Nat.ltb_lt. now apply Hd.
    + apply Nat.ltb_ge in E. apply Nat.ltb_ge.
      destruct (Nat.le_gt_cases (length lut_data) (16 * k + 16)) as [? | Hc];
        [assumption | apply Hd in Hc; lia].
Qed.

(** ** Pure lemmas: reading the data lines back *)

Lemma scan_str (b : byte) (rest : string) :
  scan (byte_str b +:+ rest) Idle = scan rest (Num (Byte.to_N b)).
Proof. destruct b; reflexivity. Qed.

Lemma scan_comma (n : N) (s : string) :
  scan (String "," s) (Num n) = cons n <$> scan s Idle.
Proof. reflexivity. Qed.

Lemma scan_blank (s : string) : scan (String " " s) Idle = scan s Idle.
Proof. reflexivity. Qed.

Lemma scan_nl (s : string) : scan (nl +:+ s) Idle = scan s Idle.
Proof. reflexivity. Qed.

Lemma scan_nl_close (n : N) (s : string) :
  scan (nl +:+ "]" +:+ s) (Num n) = Some [n].
Proof. reflexivity. Qed.

Lemma join_cons2 (sep x y : string) (l : list string) :
  join sep (x :: y :: l) = x +:+ sep +:+ join sep (y :: l).
Proof. reflexivity. Qed.

Lemma join_single (sep x : string) : join sep [x] = x.
Proof. reflexivity. Qed.

(** A chunk followed by a comma: its entries, then those of what follows. *)
Lemma scan_chunk_comma (bs : list byte) (b : byte) (rest : string) :
  scan (join ", " (map byte_str (b :: bs)) +:+ "," +:+ rest) Idle
  = app (map Byte.to_N (b :: bs)) <$> scan rest Idle.
Proof.
  revert b. induction bs as [| b' bs IH]; intros b.
  - cbn [map]. rewrite join_single, scan_str, sapp_cons, sapp_nil_l, scan_comma.
    destruct (scan rest Idle); reflexivity.
  - cbn [map] in *. rewrite join_cons2, !sapp_assoc, scan_str.
    rewrite !sapp_cons, sapp_nil_l, scan_comma, scan_blank, IH.
    destruct (scan rest Idle); reflexivity.
Qed.

(** The last chunk: no comma, the end of line, the closing bracket. *)
Lemma scan_chunk_close (bs : list byte) (b : byte) (rest : string) :
  scan (join ", " (map byte_str (b :: bs)) +:+ nl +:+ "]" +:+ rest) Idle
  = Some (map Byte.to_N (b :: bs)).
Proof.
  revert b. induction bs as [| b' bs IH]; intros b.
  - cbn [map]. now rewrite join_single, scan_str, scan_nl_close.
  - cbn [map] in *. rewrite join_cons2, !sapp_assoc, scan_str.
    rewrite !sapp_cons, sapp_nil_l, scan_comma, scan_blank, IH.
    reflexivity.
Qed.

Lemma flat_cons (x : string) (l : list string) : flat (x :: l) = x +:+ flat l.
Proof. reflexivity. Qed.

Lemma scan_data_lines (n : nat) (lut_data : list byte) (rest : string) :
  (length lut_data <= n)%nat -> lut_data <> [] ->
  scan (flat (data_lines lut_data) +:+ "]" +:+ rest) Idle
  = Some (map Byte.to_N lut_data).
Proof.
  revert lut_data. induction n as [| n IH]; intros lut_data Hlen Hne.
  - destruct lut_data; [congruence | simpl in Hlen; lia].
  - rewrite data_lines_cons, flat_cons, data_line_0 by exact Hne.
    unfold render. rewrite !sapp_assoc, !sapp_cons, sapp_nil_l, !scan_blank.
    destruct (take 16 lut_data) as [| b bs] eqn:Etake.
    { destruct lut_data; [congruence | discriminate]. }
    destruct (16 <? length lut_data)%nat eqn:E16.
    + apply Nat.ltb_lt in E16.
      rewrite !sapp_cons, sapp_nil_l.
      change (String "," (nl +:+ ?s)) with ("," +:+ nl +:+ s).
      rewrite scan_chunk_comma, scan_nl, IH.
      * cbn [fmap option_fmap option_map]. rewrite <- Etake, <- map_app.
        now rewrite take_drop.
      * rewrite length_drop. lia.
      * intros Hd. apply (f_equal length) in Hd.
        rewrite length_drop in Hd. simpl in Hd. lia.
    + apply Nat.ltb_ge in E16.
      rewrite drop_ge by exact E16. rewrite data_lines_nil.
      rewrite take_ge in Etake by exact E16. subst lut_data.
      change (flat []) with "". rewrite !sapp_nil_l.
      apply scan_chunk_close.
Qed.

Lemma after_open_header (s : string) :
  after_open (dart_header +:+ s) = Some (nl +:+ s).
Proof. reflexivity. Qed.

(** The entries read back from the generated text are the bytes that were
    formatted, in order. *)
Lemma array_entries_dart_code (lut_data : list byte) :
  array_entries (dart_code lut_data) = Some (map Byte.to_N lut_data).
Proof.
  unfold array_entries. rewrite dart_code_flat, after_open_header, scan_nl.
  destruct lut_data as [| b l] eqn:E.
  - reflexivity.
  - rewrite <- E. apply (scan_data_lines (length lut_data)); [lia | congruence].
Qed.

Lemma byte_to_N_le (b : byte) : (Byte.to_N b <= 255)%N.
Proof. pose proof (Byte.to_N_bounded b). lia. Qed.

(** ** The paths of the program *)

Lemma snippet_at_eq (dir : list string) : snippet_at dir = dir ++ ["extract_lut.js"].
Proof. reflexivity. Qed.

Lemma raw_at_eq (dir : list string) : raw_at dir = dir ++ ["mixbox_lut_raw.bin"].
Proof. reflexivity. Qed.

Lemma input_at_eq (dir : list string) :
  input_at dir
  = removelast dir ++ ["reference-mixbox"; "mixbox-master"; "javascript"; "mixbox.esm.js"].
Proof.
  unfold input_at, resolve, relative, mixbox_rel. cbn. now rewrite <- !app_assoc.
Qed.

Lemma up_at_eq (dir : list string) :
  resolve dir (relative [".."]) = removelast dir.
Proof. reflexivity. Qed.

Lemma lib_at_eq (dir : list string) :
  resolve dir (relative [".."; "lib"]) = removelast dir ++ ["lib"].
Proof. reflexivity. Qed.

Lemma output_dir_at_eq (dir : list string) :
  output_dir_at dir = removelast dir ++ ["lib"; "utils"].
Proof.
  unfold output_dir_at, resolve, output_path. cbn. now rewrite <- !app_assoc.
Qed.

Lemma output_at_eq (dir : list string) :
  output_at dir = removelast dir ++ ["lib"; "utils"; "mixbox_lut_data.dart"].
Proof.
  unfold output_at, resolve, output_path. cbn. now rewrite <- !app_assoc.
Qed.

(** Two paths with different last names are different. *)
Ltac path_neq :=
  let H := fresh "H" in
  intros H; apply (f_equal last) in H;
  rewrite ?last_app in H; cbn in H; congruence.

Lemma removelast_snoc_neq (l : list string) (x : string) : removelast l <> l ++ [x].
Proof.
  intros H. apply (f_equal length) in H.
  rewrite length_app in H. simpl in H.
  destruct l as [| a l]; [simpl in H; lia |].
  rewrite removelast_firstn_len, length_take in H. simpl in H. lia.
Qed.

Lemma snoc_neq_self (l : list string) (x : string) : l <> l ++ [x].
Proof.
  intros H. apply (f_equal length) in H. rewrite length_app in H. simpl in H. lia.
Qed.

(** ** The file system *)

Lemma fs_lookup_app (d : Disk) (l : list string) (x : string) (m : list string) :
  fs_lookup d (l ++ x :: m) = files d !! (l ++ x :: m).
Proof. destruct l; reflexivity. Qed.

Lemma fs_lookup_insert_ne (d : Disk) (p q : list string) (e : entry) (op : fs_op) :
  p <> q ->
  fs_lookup (commit d (<[p := e]> (files d)) op) q = fs_lookup d q.
Proof.
  intros Hne. destruct q as [| x q]; [reflexivity |].
  simpl. now rewrite lookup_insert_ne.
Qed.

Lemma fs_lookup_insert_eq (d : Disk) (p : list string) (e : entry) (op : fs_op) :
  p <> [] ->
  fs_lookup (commit d (<[p := e]> (files d)) op) p = Some e.
Proof.
  intros Hne. destruct p as [| x p]; [congruence |].
  simpl. now rewrite lookup_insert_eq.
Qed.

Lemma fs_lookup_delete_ne (d : Disk) (p q : list string) (op : fs_op) :
  p <> q ->
  fs_lookup (commit d (delete p (files d)) op) q = fs_lookup d q.
Proof.
  intros Hne. destruct q as [| x q]; [reflexivity |].
  simpl. now rewrite lookup_delete_ne.
Qed.

Lemma fs_lookup_delete_eq (d : Disk) (p : list string) (op : fs_op) :
  p <> [] ->
  fs_lookup (commit d (delete p (files d)) op) p = None.
Proof.
  intros Hne. destruct p as [| x p]; [congruence |].
  simpl. now rewrite lookup_delete_eq.
Qed.

(** A successful write: the file is there, nothing else changes, no directory
    is replaced. *)
Lemma fs_write_ok (d d' : Disk) (p : list string) (c : list byte) :
  fs_write d p c = FsOk d' ->
  d' = commit d (<[p := File c]> (files d)) (Wrote p) /\
  p <> [] /\
  fs_lookup d p <> Some Dir /\
  fs_lookup d (removelast p) = Some Dir.
Proof.
  unfold fs_write, parent_error. intros H.
  assert (Hp : p <> []).
  { intros ->. simpl in H. discriminate. }
  destruct (fs_lookup d p) as [[c0 |] |] eqn:E; try discriminate;
    destruct (fs_lookup d (removelast p)) as [[c1 |] |] eqn:E2; try discriminate;
    injection H as <-; repeat split; congruence.
Qed.

Lemma fs_write_intro (d : Disk) (p : list string) (c : list byte) :
  not_a_dir d p = true -> is_dir d (removelast p) = true ->
  fs_write d p c = FsOk (commit d (<[p := File c]> (files d)) (Wrote p)).
Proof.
  unfold not_a_dir, is_dir, fs_write, parent_error. intros H1 H2.
  destruct (fs_lookup d (removelast p)) as [[c1 |] |]; try discriminate.
  destruct (fs_lookup d p) as [[c0 |] |]; try discriminate; reflexivity.
Qed.

Lemma fs_mkdir_ok (d d' : Disk) (p : list string) :
  fs_mkdir d p = FsOk d' ->
  d' = commit d (<[p := Dir]> (files d)) (MadeDir p) /\
  p <> [] /\ fs_lookup d p = None.
Proof.
  unfold fs_mkdir, parent_error. intros H.
  assert (Hp : p <> []).
  { intros ->. simpl in H. discriminate. }
  destruct (fs_lookup d p) as [e |] eqn:E; try discriminate.
  destruct (fs_lookup d (removelast p)) as [[c1 |] |]; try discriminate.
  injection H as <-. repeat split; congruence.
Qed.

Lemma fs_unlink_ok (d : Disk) (p : list string) (c : list byte) :
  fs_lookup d p = Some (File c) ->
  fs_unlink d p = FsOk (commit d (delete p (files d)) (Removed p)).
Proof. unfold fs_unlink. now intros ->. Qed.

(** ** Running the monad *)

Lemma bind_unfold {A B} (m : Py A) (k : A -> Py B) (w : World) :
  (m ≫= k) w
  = match m w with
    | (Return a, w') => k a w'
    | (Raise e, w') => (Raise e, w')
    end.
Proof. reflexivity. Qed.

Lemma bind_print {B} (s : string) (k : unit -> Py B) (w : World) :
  (print s ≫= k) w = k tt (say w [Print s]).
Proof. reflexivity. Qed.

Lemma bind_print_err {B} (s : string) (k : unit -> Py B) (w : World) :
  (print_err s ≫= k) w = k tt (say w [PrintErr s]).
Proof. reflexivity. Qed.

Lemma print_eq (s : string) (w : World) : print s w = (Return tt, say w [Print s]).
Proof. reflexivity. Qed.

Lemma bind_ret {A B} (a : A) (k : A -> Py B) (w : World) :
  (mret a ≫= k) w = k a w.
Proof. reflexivity. Qed.

Lemma say_say (w : World) (evs1 evs2 : list event) :
  say (say w evs1) evs2 = say w (evs1 ++ evs2).
Proof. unfold say. simpl. now rewrite <- app_assoc. Qed.

Lemma say_nil (w : World) : say w [] = w.
Proof. destruct w. unfold say. simpl. now rewrite app_nil_r. Qed.

Lemma quiet_app (evs1 evs2 : list event) :
  quiet evs1 -> quiet evs2 -> quiet (evs1 ++ evs2).
Proof. unfold quiet. intros. now apply Forall_app. Qed.

Lemma quiet_nil : quiet [].
Proof. constructor. Qed.

Lemma quiet_err (s : string) (evs : list event) :
  quiet evs -> quiet (PrintErr s :: evs).
Proof. intros H. constructor; [discriminate | exact H]. Qed.

Lemma quiet_trace (e : exn) (evs : list event) :
  quiet evs -> quiet (Traceback e :: evs).
Proof. intros H. constructor; [discriminate | exact H]. Qed.

Lemma quiet_print (s : string) (evs : list event) :
  s <> success_line -> quiet evs -> quiet (Print s :: evs).
Proof. intros Hs H. constructor; [congruence | exact H]. Qed.

Lemma quiet_print_empty (evs : list event) : quiet evs -> quiet (Print "" :: evs).
Proof. intros H. constructor; [discriminate | exact H]. Qed.

(** ** The snippet under Node *)

Lemma locate_out (dec : JsRuntime)
    (dir : list string) (d : Disk) (out2 : string) (lut : list byte) :
  locate_and_decompress dec dir d = inr (out2, lut) ->
  exists t, out2 = String "F" t.
Proof.
  unfold locate_and_decompress.
  destruct (fs_read d _); [| discriminate].
  destruct (lut_match _); [| discriminate].
  destruct (_ =? _)%Z; [discriminate |].
  destruct (dec _ _); [| discriminate].
  intros [= <- _]. rewrite !sapp_assoc, sapp_cons. eexists. reflexivity.
Qed.

Lemma locate_inl (dec : JsRuntime)
    (dir : list string) (d : Disk) (done : Completed) :
  locate_and_decompress dec dir d = inl done -> returncode done = 1%Z.
Proof.
  unfold locate_and_decompress.
  destruct (fs_read d _); [| now intros [= <-]].
  destruct (lut_match _); [| now intros [= <-]].
  destruct (_ =? _)%Z; [now intros [= <-] |].
  destruct (dec _ _); [discriminate | now intros [= <-]].
Qed.

(** The first part reads one file only. *)
Lemma locate_frame (dec : JsRuntime)
    (dir : list string) (d d' : Disk) :
  fs_lookup d' (input_at dir) = fs_lookup d (input_at dir) ->
  locate_and_decompress dec dir d' = locate_and_decompress dec dir d.
Proof.
  intros H. unfold locate_and_decompress, fs_read.
  change (walk dir mixbox_rel) with (input_at dir). now rewrite H.
Qed.

Lemma store_lut_inv (out2 : string) (lut : list byte) (dir : list string)
    (d : Disk) (r : Completed) (d' : Disk) :
  store_lut out2 lut dir d = (r, d') ->
  (returncode r = 1%Z /\ d' = d) \/
  (returncode r = 0%Z /\ stderr r = "" /\
   (exists t, stdout r = out2 +:+ t) /\
   exists buf log, select_lut_buffer lut = Some (buf, log) /\
                   fs_write d (raw_at dir) buf = FsOk d').
Proof.
  unfold store_lut.
  destruct (select_lut_buffer lut) as [[buf log] |] eqn:Es.
  - change (walk dir ["mixbox_lut_raw.bin"]) with (raw_at dir).
    destruct (fs_write d (raw_at dir) buf) as [d1 | e] eqn:Ew.
    + intros [= <- <-]. right. simpl. repeat split; eauto.
    + intros [= <- <-]. left. now split.
  - intros [= <- <-]. left. now split.
Qed.

Lemma node_inv (dec : JsRuntime)
    (dir : list string) (d : Disk) (r : Completed) (d' : Disk) :
  node dec dir d = (r, d') ->
  (returncode r = 1%Z /\ d' = d) \/
  (returncode r = 0%Z /\
   (exists t, stdout r = String "F" t) /\
   fs_read d (snippet_at dir) = FsOk js_bytes /\
   exists out2 lut buf log,
     locate_and_decompress dec dir d = inr (out2, lut) /\
     select_lut_buffer lut = Some (buf, log) /\
     fs_write d (raw_at dir) buf = FsOk d').
Proof.
  unfold node. change (walk dir ["extract_lut.js"]) with (snippet_at dir).
  destruct (fs_read d (snippet_at dir)) as [c | e] eqn:Er.
  - destruct (decide (c = list_byte_of_string js_script)) as [-> | Hne].
    + unfold extract_lut_js.
      destruct (locate_and_decompress dec dir d) as [done | [out2 lut]] eqn:El.
      * intros [= <- <-]. left. split; [| reflexivity].
        now apply (locate_inl dec dir d).
      * destruct (store_lut out2 lut dir d) as [r0 d0] eqn:Hs.
        intros [= <- <-]. cbn [returncode stdout stderr exited].
        apply store_lut_inv in Hs.
        destruct Hs as [Hs | (Hrc & _ & [t Ht] & buf & log & Hsel & Hw)];
          [now left | right].
        destruct (locate_out _ _ _ _ _ El) as [t' ->].
        split; [exact Hrc |]. split.
        -- rewrite Ht, sapp_cons. eexists. reflexivity.
        -- split; [reflexivity |].
           exists (String "F" t'), lut, buf, log. now repeat split.
    + intros [= <- <-]. left. now split.
  - intros [= <- <-]. left. now split.
Qed.

(** ** The stages of the script, one by one *)

Lemma create_inv (w : World) (r : outcome unit) (w' : World) :
  create_extraction_script w = (r, w') ->
  (exists e e', r = Raise e /\ w' = w /\
      fs_write (disk w) (snippet_at (cwd w)) js_bytes = FsErr e') \/
  (r = Return tt /\
   exists d', fs_write (disk w) (snippet_at (cwd w)) js_bytes = FsOk d' /\
              w' = set_disk w d').
Proof.
  unfold create_extraction_script, open_write, os_call.
  change (resolve (cwd w) (relative ["extract_lut.js"])) with (snippet_at (cwd w)).
  change (list_byte_of_string js_script) with js_bytes.
  destruct (fs_write (disk w) (snippet_at (cwd w)) js_bytes) as [d' | e].
  - intros [= <- <-]. right. eauto.
  - intros [= <- <-]. left. eauto 6.
Qed.

Ltac quiet_all :=
  rewrite ?sapp_cons;
  repeat first
    [ assumption
    | apply quiet_nil
    | apply quiet_err
    | apply quiet_trace
    | apply quiet_print_empty
    | apply quiet_print; [unfold success_line; discriminate |]
    | apply quiet_app ].

Lemma run_extraction_inv (env : Env) (w : World) :
  exists b w' evs,
    run_extraction env w = (Return b, w') /\
    cwd w' = cwd w /\
    console w' = console w ++ evs /\
    quiet evs /\
    if b : bool then
      node_installed env = true /\
      fs_read (disk w) (snippet_at (cwd w)) = FsOk js_bytes /\
      exists out2 lut buf log,
        locate_and_decompress (js_decompress env) (cwd w) (disk w) = inr (out2, lut) /\
        select_lut_buffer lut = Some (buf, log) /\
        fs_write (disk w) (raw_at (cwd w)) buf = FsOk (disk w')
    else
      disk w' = disk w /\ Exists (fun ev => is_error_event ev = true) evs.
Proof.
  unfold run_extraction. rewrite bind_print. unfold try_except.
  rewrite bind_unfold. unfold subprocess_run.
  destruct (node_installed env) eqn:Hnode.
  - change (cwd (say w _)) with (cwd w). change (disk (say w _)) with (disk w).
    destruct (node (js_decompress env) (cwd w) (disk w)) as [r d'] eqn:Hn.
    apply node_inv in Hn.
    destruct Hn as [[Hrc ->] | (Hrc & [t Ht] & Hsn & out2 & lut & buf & log & Hl & Hs & Hw)].
    + rewrite Hrc. cbn [Z.eqb Pos.eqb].
      rewrite !bind_print_err.
      eexists false, _, _. split; [reflexivity |].
      split; [reflexivity |]. split.
      * cbn. rewrite <- !app_assoc. reflexivity.
      * split; [quiet_all |]. split; [now destruct w |].
        cbn. apply Exists_cons_tl, Exists_cons_hd. reflexivity.
    + rewrite Hrc. cbn [Z.eqb]. rewrite bind_print.
      destruct (bool_decide (stderr r = "")).
      * rewrite bind_unfold.
        eexists true, _, _. split; [reflexivity |].
        split; [reflexivity |]. split.
        -- cbn. rewrite <- !app_assoc. reflexivity.
        -- split; [rewrite Ht; quiet_all |].
           split; [reflexivity |]. split; [exact Hsn |].
           exists out2, lut, buf, log. now repeat split.
      * rewrite bind_print_err.
        eexists true, _, _. split; [reflexivity |].
        split; [reflexivity |]. split.
        -- cbn. rewrite <- !app_assoc. reflexivity.
        -- split; [rewrite Ht; quiet_all |].
           split; [reflexivity |]. split; [exact Hsn |].
           exists out2, lut, buf, log. now repeat split.
  - rewrite bind_print_err.
    eexists false, _, _. split; [reflexivity |].
    split; [reflexivity |]. split.
    + cbn. rewrite <- !app_assoc. reflexivity.
    + split; [quiet_all |]. split; [reflexivity |].
      cbn. apply Exists_cons_tl, Exists_cons_hd. reflexivity.
Qed.

Lemma only_mkdirs_refl (d : Disk) : only_mkdirs d d.
Proof.
  split; [| auto]. exists []. split; [simpl; now rewrite app_nil_r | auto].
Qed.

Lemma only_mkdirs_trans (d1 d2 d3 : Disk) :
  only_mkdirs d1 d2 -> only_mkdirs d2 d3 -> only_mkdirs d1 d3.
Proof.
  intros [(ps1 & H1 & F1) P1] [(ps2 & H2 & F2) P2]. split; [| auto].
  exists (ps1 ++ ps2). split; [now rewrite H2, H1, map_app, app_assoc |].
  intros q Hq. rewrite elem_of_app in Hq. rewrite F2, F1; tauto.
Qed.

Lemma mkdirs_step_refl (w : World) : mkdirs_step w w.
Proof. split; [| split]; [reflexivity | reflexivity | apply only_mkdirs_refl]. Qed.

Lemma mkdirs_step_trans (w1 w2 w3 : World) :
  mkdirs_step w1 w2 -> mkdirs_step w2 w3 -> mkdirs_step w1 w3.
Proof.
  intros (C1 & K1 & M1) (C2 & K2 & M2).
  split; [congruence | split; [congruence |]].
  eapply only_mkdirs_trans; eassumption.
Qed.

Lemma fs_mkdir_only (d d' : Disk) (p : list string) :
  fs_mkdir d p = FsOk d' -> only_mkdirs d d'.
Proof.
  intros H. apply fs_mkdir_ok in H. destruct H as (-> & Hp & Hnone). split.
  - exists [p]. split; [reflexivity |].
    intros q Hq. apply fs_lookup_insert_ne. intros ->. apply Hq. now left.
  - intros q e Hq. rewrite fs_lookup_insert_ne; [exact Hq |].
    intros ->. congruence.
Qed.

(** [os.mkdir] with the handler of [makedirs]: the directory is created, or
    the world is left as it was. *)
Lemma mkdir_exist_ok_inv (name : pathname) (w : World) (r : outcome unit) (w' : World) :
  mkdir_exist_ok name w = (r, w') -> mkdirs_step w w'.
Proof.
  unfold mkdir_exist_ok, try_except, os_mkdir, os_call.
  destruct (fs_mkdir (disk w) (resolve (cwd w) name)) as [d' | e] eqn:Hm.
  - intros [= <- <-].
    split; [reflexivity | split; [reflexivity |]]. now apply fs_mkdir_only in Hm.
  - rewrite bind_unfold. unfold os_path_isdir.
    destruct (is_dir _ _); intros [= <- <-]; apply mkdirs_step_refl.
Qed.

Lemma makedirs_from_inv (fuel : nat) :
  forall (name : pathname) (w : World) (r : outcome unit) (w' : World),
    os_makedirs_from fuel name w = (r, w') -> mkdirs_step w w'.
Proof.
  induction fuel as [| fuel IH]; intros name w r w'.
  - cbn [os_makedirs_from]. apply mkdir_exist_ok_inv.
  - cbn [os_makedirs_from]. rewrite bind_unfold. unfold os_path_exists at 1.
    destruct (_ && _); [| apply mkdir_exist_ok_inv].
    rewrite bind_unfold. unfold ignore_exists, try_except.
    assert (Hlast : forall w1 r1 w2,
               mkdirs_step w w1 ->
               (if tail_is_curdir name then mret tt else mkdir_exist_ok name) w1
               = (r1, w2) ->
               mkdirs_step w w2).
    { intros w1 r1 w2 Hs. destruct (tail_is_curdir name).
      - intros [= <- <-]. exact Hs.
      - intros H. apply mkdir_exist_ok_inv in H.
        eapply mkdirs_step_trans; eassumption. }
    destruct (os_makedirs_from fuel (os_path_dirname name) w)
      as [[[] | e] w1] eqn:Hrec; apply IH in Hrec.
    + now apply Hlast.
    + destruct e as [[] f | c]; try (intros [= <- <-]; exact Hrec).
      now apply Hlast.
Qed.

Lemma convert_inv (w : World) (r : outcome unit) (w' : World) :
  convert_to_dart w = (r, w') ->
  cwd w' = cwd w /\
  exists evs d1,
    console w' = console w ++ evs /\ quiet evs /\
    only_mkdirs (disk w) d1 /\
    match r with
    | Raise _ => disk w' = d1
    | Return _ =>
        exists data,
          fs_read (disk w) (raw_at (cwd w)) = FsOk data /\
          fs_write d1 (output_at (cwd w)) (list_byte_of_string (dart_code data))
          = FsOk (disk w')
    end.
Proof.
  unfold convert_to_dart. rewrite bind_print, bind_unfold. unfold open_read.
  change (resolve (cwd (say w _)) (relative ["mixbox_lut_raw.bin"]))
    with (raw_at (cwd w)).
  change (disk (say w _)) with (disk w).
  destruct (fs_read (disk w) (raw_at (cwd w))) as [data | e] eqn:Hr.
  - rewrite bind_print, bind_unfold. unfold os_makedirs.
    destruct (os_makedirs_from _ _ _) as [[[] | e] w2] eqn:Hm;
      apply makedirs_from_inv in Hm; destruct Hm as (Hc & Hk & Hd);
      cbn [cwd console disk say] in Hc, Hk, Hd.
    + rewrite bind_unfold. unfold open_write, os_call.
      rewrite Hc. change (resolve (cwd w) output_path) with (output_at (cwd w)).
      destruct (fs_write (disk w2) (output_at (cwd w))
                  (list_byte_of_string (dart_code data))) as [d' | e] eqn:Hw.
      * rewrite !bind_print. intros [= <- <-]. split; [exact Hc |].
        eexists _, (disk w2). split; [| split; [| split; [exact Hd |]]].
        -- cbn. rewrite Hk. cbn. rewrite <- !app_assoc. reflexivity.
        -- rewrite !sapp_cons. quiet_all.
        -- exists data. now split.
      * intros [= <- <-]. split; [exact Hc |].
        eexists _, (disk w2). split; [| split; [| split; [exact Hd |]]].
        -- rewrite Hk. cbn. rewrite <- !app_assoc. reflexivity.
        -- rewrite !sapp_cons. quiet_all.
        -- reflexivity.
    + intros [= <- <-]. split; [exact Hc |].
      eexists _, (disk w2). split; [| split; [| split; [exact Hd |]]].
      * rewrite Hk. cbn. rewrite <- !app_assoc. reflexivity.
      * rewrite !sapp_cons. quiet_all.
      * reflexivity.
  - intros [= <- <-]. split; [reflexivity |].
    eexists _, (disk w). split; [| split; [| split; [apply only_mkdirs_refl |]]].
    + reflexivity.
    + quiet_all.
    + reflexivity.
Qed.

Lemma cleanup_ok (w : World) (c1 c2 : list byte) :
  fs_lookup (disk w) (snippet_at (cwd w)) = Some (File c1) ->
  fs_lookup (disk w) (raw_at (cwd w)) = Some (File c2) ->
  exists d1,
    d1 = commit (disk w) (delete (snippet_at (cwd w)) (files (disk w)))
                (Removed (snippet_at (cwd w))) /\
    cleanup w
    = (Return tt,
       {| cwd := cwd w;
          disk := commit d1 (delete (raw_at (cwd w)) (files d1))
                         (Removed (raw_at (cwd w)));
          console := console w ++ [Print ("Cleaned up " +:+ "extract_lut.js");
                                    Print ("Cleaned up " +:+ "mixbox_lut_raw.bin")] |}).
Proof.
  intros H1 H2. eexists. split; [reflexivity |].
  unfold cleanup. cbn [for_each].
  rewrite bind_unfold, bind_unfold. unfold os_path_exists at 1, fs_exists.
  change (resolve (cwd w) (relative ["extract_lut.js"])) with (snippet_at (cwd w)).
  rewrite H1. rewrite bind_unfold. unfold os_remove at 1, os_call.
  change (resolve (cwd w) (relative ["extract_lut.js"])) with (snippet_at (cwd w)).
  rewrite (fs_unlink_ok _ _ _ H1). rewrite print_eq. cbn beta iota.
  rewrite bind_unfold, bind_unfold. unfold os_path_exists, fs_exists.
  cbn [cwd disk say set_disk].
  change (resolve (cwd w) (relative ["mixbox_lut_raw.bin"])) with (raw_at (cwd w)).
  assert (H2' : fs_lookup
                  (commit (disk w) (delete (snippet_at (cwd w)) (files (disk w)))
                          (Removed (snippet_at (cwd w)))) (raw_at (cwd w))
                = Some (File c2)).
  { rewrite fs_lookup_delete_ne; [exact H2 |].
    rewrite snippet_at_eq, raw_at_eq. path_neq. }
  rewrite H2'. rewrite bind_unfold. unfold os_remove, os_call.
  cbn [cwd disk say set_disk].
  change (resolve (cwd w) (relative ["mixbox_lut_raw.bin"])) with (raw_at (cwd w)).
  rewrite (fs_unlink_ok _ _ _ H2'). rewrite print_eq. cbn beta iota.
  unfold say, set_disk. cbn [cwd disk console].
  rewrite <- !app_assoc. reflexivity.
Qed.

(** ** The disk along the pipeline *)

Lemma fs_write_effect (d d' : Disk) (p : list string) (c : list byte) :
  fs_write d p c = FsOk d' ->
  fs_lookup d' p = Some (File c) /\
  (forall q, q <> p -> fs_lookup d' q = fs_lookup d q) /\
  journal d' = journal d ++ [Wrote p] /\
  fs_lookup d (removelast p) = Some Dir.
Proof.
  intros H. apply fs_write_ok in H. destruct H as (-> & Hp & _ & Hpar).
  split; [now apply fs_lookup_insert_eq |].
  split; [| split; [reflexivity | exact Hpar]].
  intros q Hq. apply fs_lookup_insert_ne. congruence.
Qed.

Lemma snippet_neq_raw (dir : list string) : snippet_at dir <> raw_at dir.
Proof. rewrite snippet_at_eq, raw_at_eq. path_neq. Qed.

Lemma input_neq_snippet (dir : list string) : input_at dir <> snippet_at dir.
Proof. rewrite snippet_at_eq, input_at_eq. path_neq. Qed.

Lemma snippet_neq_output (dir : list string) : snippet_at dir <> output_at dir.
Proof. rewrite snippet_at_eq, output_at_eq. path_neq. Qed.

Lemma raw_neq_output (dir : list string) : raw_at dir <> output_at dir.
Proof. rewrite raw_at_eq, output_at_eq. path_neq. Qed.

Lemma output_dir_neq_output (dir : list string) : output_dir_at dir <> output_at dir.
Proof. rewrite output_dir_at_eq, output_at_eq. path_neq. Qed.

Lemma output_dir_neq_snippet (dir : list string) : output_dir_at dir <> snippet_at dir.
Proof. rewrite output_dir_at_eq, snippet_at_eq. path_neq. Qed.

Lemma output_dir_neq_raw (dir : list string) : output_dir_at dir <> raw_at dir.
Proof. rewrite output_dir_at_eq, raw_at_eq. path_neq. Qed.

Lemma removelast_output (dir : list string) :
  removelast (output_at dir) = output_dir_at dir.
Proof.
  rewrite output_at_eq, output_dir_at_eq.
  change (removelast dir ++ ["lib"; "utils"; "mixbox_lut_data.dart"])
    with (removelast dir ++ ["lib"; "utils"] ++ ["mixbox_lut_data.dart"]).
  rewrite app_assoc. apply removelast_last.
Qed.

Lemma removelast_snippet (dir : list string) : removelast (snippet_at dir) = dir.
Proof. rewrite snippet_at_eq. apply removelast_last. Qed.

Lemma removelast_raw (dir : list string) : removelast (raw_at dir) = dir.
Proof. rewrite raw_at_eq. apply removelast_last. Qed.

(** The disk after the two intermediate files were removed. *)
Lemma after_cleanup (d : Disk) (dir : list string) :
  let d1 := commit d (delete (snippet_at dir) (files d)) (Removed (snippet_at dir)) in
  let d2 := commit d1 (delete (raw_at dir) (delete (snippet_at dir) (files d)))
                   (Removed (raw_at dir)) in
  fs_lookup d2 (snippet_at dir) = None /\
  fs_lookup d2 (raw_at dir) = None /\
  fs_lookup d2 (output_at dir) = fs_lookup d (output_at dir) /\
  fs_lookup d2 (output_dir_at dir) = fs_lookup d (output_dir_at dir) /\
  journal d2 = journal d ++ [Removed (snippet_at dir); Removed (raw_at dir)].
Proof.
  intros d1 d2. subst d2.
  change (delete (raw_at dir) (delete (snippet_at dir) (files d)))
    with (delete (raw_at dir) (files d1)).
  assert (Hs : snippet_at dir <> []) by (rewrite snippet_at_eq; now destruct dir).
  assert (Hr : raw_at dir <> []) by (rewrite raw_at_eq; now destruct dir).
  pose proof (snippet_neq_raw dir). pose proof (snippet_neq_output dir).
  pose proof (raw_neq_output dir). pose proof (output_dir_neq_snippet dir).
  pose proof (output_dir_neq_raw dir).
  repeat split.
  - rewrite fs_lookup_delete_ne by congruence. now apply fs_lookup_delete_eq.
  - now apply fs_lookup_delete_eq.
  - rewrite fs_lookup_delete_ne by congruence. now apply fs_lookup_delete_ne.
  - rewrite fs_lookup_delete_ne by congruence. apply fs_lookup_delete_ne. congruence.
  - subst d1. cbn. now rewrite <- app_assoc.
Qed.

(** ** The pipeline as a whole

    Every run of the [try] block ends in one of four ways: the snippet could
    not be written (exception, nothing changed); the extraction failed
    (status 1, only the snippet was written); the conversion failed
    (exception, both intermediate files are in place); or all four stages
    were passed (status 0). *)

Lemma pipeline_inv (env : Env) (w : World) (r : outcome Z) (w' : World) :
  pipeline env w = (r, w') ->
  cwd w' = cwd w /\
  exists evs,
    console w' = console w ++ evs /\
    match r with
    | Return code =>
        (code = 1%Z /\ failure env (cwd w) (disk w) /\ quiet evs /\
         Exists (fun ev => is_error_event ev = true) evs /\
         journal (disk w') = journal (disk w) ++ [Wrote (snippet_at (cwd w))] /\
         fs_lookup (disk w') (snippet_at (cwd w)) = Some (File js_bytes))
        \/
        (code = 0%Z /\ Print success_line ∈ evs /\
         exists lut buf ps,
           completed env (cwd w) (disk w) lut buf /\
           fs_lookup (disk w') (output_at (cwd w))
           = Some (File (list_byte_of_string (dart_code buf))) /\
           fs_lookup (disk w') (snippet_at (cwd w)) = None /\
           fs_lookup (disk w') (raw_at (cwd w)) = None /\
           fs_lookup (disk w') (output_dir_at (cwd w)) = Some Dir /\
           journal (disk w')
           = journal (disk w)
             ++ [Wrote (snippet_at (cwd w)); Wrote (raw_at (cwd w))]
             ++ map MadeDir ps
             ++ [Wrote (output_at (cwd w)); Removed (snippet_at (cwd w));
                 Removed (raw_at (cwd w))])
    | Raise e =>
        failure env (cwd w) (disk w) /\ quiet evs /\
        (disk w' = disk w \/
         exists ps,
           journal (disk w')
           = journal (disk w)
             ++ [Wrote (snippet_at (cwd w)); Wrote (raw_at (cwd w))]
             ++ map MadeDir ps /\
           fs_lookup (disk w') (snippet_at (cwd w)) = Some (File js_bytes))
    end.
Proof.
  unfold pipeline. rewrite bind_print, bind_unfold.
  destruct (create_extraction_script _) as [rc w1] eqn:Hc.
  apply create_inv in Hc. cbn [cwd disk say] in Hc.
  destruct Hc as [(e & e' & -> & -> & Hw1) | (-> & d1 & Hw1 & ->)].
  { intros [= <- <-]. split; [reflexivity |]. eexists. split; [reflexivity |].
    split; [eapply SnippetNotWritten; exact Hw1 |].
    split; [quiet_all | left; reflexivity]. }
  destruct (fs_write_effect _ _ _ _ Hw1) as (Hsp1 & Hfr1 & Hj1 & _).
  rewrite !bind_print, bind_unfold.
  match goal with
  | |- context [run_extraction env ?W0] => set (W := W0)
  end.
  destruct (run_extraction_inv env W)
    as (b & w2 & evs2 & Hrun & Hcwd2 & Hcon2 & Hq2 & Hb).
  rewrite Hrun. subst W. cbn [cwd disk console say set_disk] in Hcwd2, Hcon2, Hb.
  destruct b; cbn [negb].
  2:{ destruct Hb as [Hd2 Herr]. rewrite bind_print.
      intros [= <- <-]. split; [exact Hcwd2 |]. eexists. split.
      { cbn [console say]. rewrite Hcon2, <- !app_assoc. reflexivity. }
      left. split; [reflexivity |].
      split; [eapply ExtractionFailed; [| | exact Hrun]; [reflexivity | exact Hw1] |].
      split; [cbn; quiet_all |]. split.
      - cbn. do 4 apply Exists_cons_tl. apply Exists_app. left. exact Herr.
      - cbn [disk say]. rewrite Hd2. now split. }
  destruct Hb as (Hnode & _ & out2 & lut & buf & log & Hloc & Hsel & Hw2).
  destruct (fs_write_effect _ _ _ _ Hw2) as (Hrp2 & Hfr2 & Hj2 & _).
  assert (Hsp2 : fs_lookup (disk w2) (snippet_at (cwd w)) = Some (File js_bytes)).
  { rewrite Hfr2; [exact Hsp1 | apply snippet_neq_raw]. }
  rewrite (locate_frame _ _ (disk w) d1) in Hloc
    by (apply Hfr1, input_neq_snippet).
  rewrite !bind_print, bind_unfold.
  match goal with
  | |- context [convert_to_dart ?W0] => set (W := W0)
  end.
  destruct (convert_to_dart W) as [r3 w3] eqn:Hconv'.
  pose proof Hconv' as Hconv.
  apply convert_inv in Hconv. subst W. cbn [cwd disk console say] in Hconv.
  rewrite Hcwd2 in Hconv.
  destruct Hconv as (Hcwd3 & evs3 & d3 & Hcon3 & Hq3 & [(ps & Hjm & _) Hpres] & Hr3).
  destruct r3 as [[] | e].
  2:{ intros [= <- <-]. split; [exact Hcwd3 |]. eexists. split.
      { rewrite Hcon3, Hcon2, <- !app_assoc. reflexivity. }
      split; [eapply ConversionFailed; [exact Hw1 | exact Hloc | exact Hsel
                                        | | | exact Hconv'];
              [exact Hw2 | exact Hcwd2] |].
      split; [cbn; quiet_all |]. right. exists ps. rewrite Hr3. split.
      - rewrite Hjm, Hj2, Hj1, <- !app_assoc. reflexivity.
      - now apply Hpres. }
  destruct Hr3 as (data & Hread & Hw3).
  assert (data = buf) as ->.
  { unfold fs_read in Hread. rewrite Hrp2 in Hread. congruence. }
  destruct (fs_write_effect _ _ _ _ Hw3) as (Hout3 & Hfr3 & Hj3 & Hpar3).
  rewrite removelast_output in Hpar3.
  assert (Hsp3 : fs_lookup (disk w3) (snippet_at (cwd w)) = Some (File js_bytes)).
  { rewrite Hfr3; [now apply Hpres | apply snippet_neq_output]. }
  assert (Hrp3 : fs_lookup (disk w3) (raw_at (cwd w)) = Some (File buf)).
  { rewrite Hfr3; [now apply Hpres | apply raw_neq_output]. }
  rewrite !bind_print, bind_unfold.
  match goal with
  | |- context [cleanup ?W] =>
      destruct (cleanup_ok W js_bytes buf) as (d4 & Hd4 & Hclean)
  end.
  { cbn [cwd disk say]. now rewrite Hcwd3. }
  { cbn [cwd disk say]. now rewrite Hcwd3. }
  rewrite Hclean. cbn [cwd disk console say] in *. subst d4.
  rewrite !bind_print. intros [= <- <-]. rewrite Hcwd3.
  split; [reflexivity |]. eexists. split.
  { cbn [console say]. rewrite Hcon3, Hcon2, <- !app_assoc. reflexivity. }
  right. split; [reflexivity |]. split.
  { cbn [app].
    repeat first [ apply list_elem_of_here
                 | apply list_elem_of_further
                 | apply elem_of_app; right ]. }
  exists lut, buf, ps.
  destruct (after_cleanup (disk w3) (cwd w)) as (A1 & A2 & A3 & A4 & A5).
  cbn [disk say]. split.
  { split; [exact Hnode | eauto | eauto |].
    eexists d1, _, w2, _, w3.
    split; [exact Hw1 |]. split; [| split; [| split; [exact Hrun |]]];
      [reflexivity | reflexivity |].
    split; [exact Hw2 |]. split; [| split; [| exact Hconv']];
      [exact Hcwd2 | reflexivity]. }
  split; [now rewrite A3 |]. split; [exact A1 |]. split; [exact A2 |].
  split.
  - rewrite A4, Hfr3; [exact Hpar3 | apply output_dir_neq_output].
  - rewrite A5, Hj3, Hjm, Hj2, Hj1, <- !app_assoc. reflexivity.
Qed.

(** ** [main] and the process *)

(** [main] moves to the directory of the script and runs the guarded
    pipeline there; when the directory is not there, [os.chdir] raises
    outside the [try] block. *)
Lemma main_start (env : Env) (cwd0 : list string) (fs0 : gmap (list string) entry) :
  main env {| cwd := cwd0; disk := pristine fs0; console := [] |}
  = match fs_lookup (pristine fs0) (script_dir env cwd0) with
    | Some Dir => guarded_pipeline env (start_world (script_dir env cwd0) fs0)
    | Some (File _) =>
        (Raise (OSError ENOTDIR
                  (pathname_str
                     (os_path_dirname
                        {| absolute := true;
                           parts := resolve cwd0 (script_file env) |}))),
         {| cwd := cwd0; disk := pristine fs0; console := banner |})
    | None =>
        (Raise (OSError ENOENT
                  (pathname_str
                     (os_path_dirname
                        {| absolute := true;
                           parts := resolve cwd0 (script_file env) |}))),
         {| cwd := cwd0; disk := pristine fs0; console := banner |})
    end.
Proof.
  unfold main. rewrite !bind_print, bind_unfold. unfold os_path_abspath.
  rewrite bind_unfold. unfold os_chdir. cbn [cwd disk console say].
  change (resolve cwd0 (os_path_dirname _)) with (script_dir env cwd0).
  destruct (fs_lookup (pristine fs0) (script_dir env cwd0)) as [[c |] |]; reflexivity.
Qed.

Lemma quiet_banner : quiet banner.
Proof. unfold banner. cbn [str_mul]. quiet_all. Qed.

(** Every run of the script ends with status 1 for one of the reasons of
    [failure], with no line announcing success and at least one error on the
    console, or with status 0 after the four stages. *)
Lemma run_script_inv (env : Env) (cwd0 : list string)
    (fs0 : gmap (list string) entry) (code : Z) (w' : World) :
  run_script env cwd0 fs0 = (code, w') ->
  (code = 1%Z /\
   failure env (script_dir env cwd0) (pristine fs0) /\
   quiet (console w') /\
   Exists (fun ev => is_error_event ev = true) (console w') /\
   (journal (disk w') = [] \/
    fs_lookup (disk w') (snippet_at (script_dir env cwd0)) = Some (File js_bytes) /\
    (journal (disk w') = [Wrote (snippet_at (script_dir env cwd0))] \/
     exists ps,
       journal (disk w')
       = [Wrote (snippet_at (script_dir env cwd0));
          Wrote (raw_at (script_dir env cwd0))] ++ map MadeDir ps)))
  \/
  (code = 0%Z /\
   cwd w' = script_dir env cwd0 /\
   is_dir (pristine fs0) (script_dir env cwd0) = true /\
   Print success_line ∈ console w' /\
   exists lut buf ps,
     completed env (script_dir env cwd0) (pristine fs0) lut buf /\
     fs_lookup (disk w') (output_at (script_dir env cwd0))
     = Some (File (list_byte_of_string (dart_code buf))) /\
     fs_lookup (disk w') (snippet_at (script_dir env cwd0)) = None /\
     fs_lookup (disk w') (raw_at (script_dir env cwd0)) = None /\
     fs_lookup (disk w') (output_dir_at (script_dir env cwd0)) = Some Dir /\
     journal (disk w')
     = [Wrote (snippet_at (script_dir env cwd0));
        Wrote (raw_at (script_dir env cwd0))]
       ++ map MadeDir ps
       ++ [Wrote (output_at (script_dir env cwd0));
           Removed (snippet_at (script_dir env cwd0));
           Removed (raw_at (script_dir env cwd0))]).
Proof.
  unfold run_script. change {| files := fs0; journal := [] |} with (pristine fs0).
  rewrite main_start.
  destruct (fs_lookup (pristine fs0) (script_dir env cwd0)) as [[c |] |] eqn:Hdir.
  - intros [= <- <-]. left. split; [reflexivity |].
    split; [apply NoScriptDir; unfold is_dir; now rewrite Hdir |].
    cbn [console disk].
    split; [change (quiet (banner ++ [Traceback (OSError ENOTDIR
              (pathname_str (os_path_dirname
                 {| absolute := true; parts := resolve cwd0 (script_file env) |})))]));
            apply quiet_app; [apply quiet_banner | quiet_all] |].
    split; [| now left].
    do 4 apply Exists_cons_tl. now constructor.
  - unfold guarded_pipeline, try_except.
    destruct (pipeline env (start_world (script_dir env cwd0) fs0)) as [r w1] eqn:Hp.
    apply pipeline_inv in Hp. cbn [cwd disk console start_world] in Hp.
    destruct Hp as (Hcwd & evs & Hcon & Hr).
    destruct r as [code1 | e].
    + intros [= <- <-].
      destruct Hr as [(-> & Hfail & Hq & Herr & Hj & Hsp)
                     | (-> & Hin & lut & buf & ps & Hrest)].
      * left. split; [reflexivity |]. split; [exact Hfail |].
        rewrite Hcon. split; [apply quiet_app; [apply quiet_banner | exact Hq] |].
        split; [apply Exists_app; now right |].
        right. split; [exact Hsp | left; exact Hj].
      * right. split; [reflexivity |]. split; [exact Hcwd |].
        split; [unfold is_dir; now rewrite Hdir |].
        rewrite Hcon. split; [apply elem_of_app; now right |].
        exists lut, buf, ps. exact Hrest.
    + rewrite bind_print_err, bind_unfold. unfold traceback_print_exc, emit.
      cbn [cwd disk console say]. intros [= <- <-]. cbn [cwd disk console].
      destruct Hr as (Hfail & Hq & Hd).
      left. split; [reflexivity |]. split; [exact Hfail |].
      rewrite Hcon. split.
      { rewrite <- !app_assoc. apply quiet_app; [apply quiet_banner |].
        apply quiet_app; [exact Hq | quiet_all]. }
      split.
      { apply Exists_app. right. now constructor. }
      destruct Hd as [-> | (ps & Hj & Hsp)]; [now left |].
      right. split; [exact Hsp | right; exists ps; exact Hj].
  - intros [= <- <-]. left. split; [reflexivity |].
    split; [apply NoScriptDir; unfold is_dir; now rewrite Hdir |].
    cbn [console disk].
    split; [change (quiet (banner ++ [Traceback (OSError ENOENT
              (pathname_str (os_path_dirname
                 {| absolute := true; parts := resolve cwd0 (script_file env) |})))]));
            apply quiet_app; [apply quiet_banner | quiet_all] |].
    split; [| now left].
    do 4 apply Exists_cons_tl. now constructor.
Qed.

(** ** Stages that cannot fail on a good input *)

Lemma run_extraction_true (env : Env) (w : World) (d' : Disk)
    (out2 : string) (lut buf : list byte) (log : string) :
  node_installed env = true ->
  fs_read (disk w) (snippet_at (cwd w)) = FsOk js_bytes ->
  locate_and_decompress (js_decompress env) (cwd w) (disk w) = inr (out2, lut) ->
  select_lut_buffer lut = Some (buf, log) ->
  fs_write (disk w) (raw_at (cwd w)) buf = FsOk d' ->
  forall w', run_extraction env w <> (Return false, w').
Proof.
  intros Hnode Hsn Hloc Hsel Hw w'.
  unfold run_extraction. rewrite bind_print. unfold try_except.
  rewrite bind_unfold. unfold subprocess_run. rewrite Hnode.
  cbn [cwd disk say]. unfold node.
  change (walk (cwd w) ["extract_lut.js"]) with (snippet_at (cwd w)).
  rewrite Hsn. fold js_bytes.
  destruct (decide (js_bytes = js_bytes)) as [_ | Hne]; [| congruence].
  unfold extract_lut_js. rewrite Hloc. unfold store_lut. rewrite Hsel.
  change (walk (cwd w) ["mixbox_lut_raw.bin"]) with (raw_at (cwd w)).
  rewrite Hw. cbn [returncode exited Z.eqb].
  rewrite bind_print.
  destruct (bool_decide _); [rewrite bind_unfold | rewrite bind_print_err];
    intros [=].
Qed.

Lemma mkdir_exist_ok_dir (name : pathname) (w : World) :
  fs_lookup (disk w) (resolve (cwd w) name) = Some Dir ->
  mkdir_exist_ok name w = (Return tt, w).
Proof.
  intros H. unfold mkdir_exist_ok, try_except, os_mkdir, os_call, fs_mkdir.
  rewrite H. rewrite bind_unfold. unfold os_path_isdir, is_dir. now rewrite H.
Qed.

Lemma mkdir_exist_ok_new (name : pathname) (w : World) :
  fs_lookup (disk w) (resolve (cwd w) name) = None ->
  fs_lookup (disk w) (removelast (resolve (cwd w) name)) = Some Dir ->
  mkdir_exist_ok name w
  = (Return tt,
     set_disk w (commit (disk w) (<[resolve (cwd w) name := Dir]> (files (disk w)))
                        (MadeDir (resolve (cwd w) name)))).
Proof.
  intros H Hp.
  unfold mkdir_exist_ok, try_except, os_mkdir, os_call, fs_mkdir, parent_error.
  now rewrite H, Hp.
Qed.

Lemma makedirs_head_present (fuel : nat) (name : pathname) (w : World) :
  fs_exists (disk w) (resolve (cwd w) (os_path_dirname name)) = true ->
  os_makedirs_from (S fuel) name w = mkdir_exist_ok name w.
Proof.
  intros H. cbn [os_makedirs_from]. rewrite bind_unfold.
  unfold os_path_exists. rewrite H. cbn [negb]. rewrite andb_false_r.
  reflexivity.
Qed.

Lemma makedirs_head_absent (fuel : nat) (name : pathname) (w : World) :
  fs_exists (disk w) (resolve (cwd w) (os_path_dirname name)) = false ->
  parts (os_path_dirname name) <> [] -> parts name <> [] ->
  tail_is_curdir name = false ->
  os_makedirs_from (S fuel) name w
  = (ignore_exists (os_makedirs_from fuel (os_path_dirname name)) ;;
     mkdir_exist_ok name) w.
Proof.
  intros H H1 H2 H3. cbn [os_makedirs_from]. rewrite bind_unfold.
  unfold os_path_exists. rewrite H. cbn [negb].
  rewrite (bool_decide_eq_false_2 _ H1), (bool_decide_eq_false_2 _ H2), H3.
  cbn [negb]. rewrite orb_true_r. reflexivity.
Qed.

Lemma is_dir_lookup (d : Disk) (p : list string) :
  is_dir d p = true <-> fs_lookup d p = Some Dir.
Proof.
  unfold is_dir. destruct (fs_lookup d p) as [[c |] |]; split; congruence.
Qed.

Lemma not_a_file_cases (d : Disk) (p : list string) :
  not_a_file d p = true -> fs_lookup d p = Some Dir \/ fs_lookup d p = None.
Proof.
  unfold not_a_file. destruct (fs_lookup d p) as [[c |] |]; auto. discriminate.
Qed.

Lemma removelast_output_dir (dir : list string) :
  removelast (output_dir_at dir) = removelast dir ++ ["lib"].
Proof.
  rewrite output_dir_at_eq.
  change (removelast dir ++ ["lib"; "utils"])
    with (removelast dir ++ ["lib"] ++ ["utils"]).
  rewrite app_assoc. apply removelast_last.
Qed.

Lemma lib_neq_output_dir (dir : list string) :
  removelast dir ++ ["lib"] <> output_dir_at dir.
Proof. rewrite output_dir_at_eq. path_neq. Qed.

Lemma lib_neq_output (dir : list string) :
  removelast dir ++ ["lib"] <> output_at dir.
Proof. rewrite output_at_eq. path_neq. Qed.

Lemma output_dir_nonempty (dir : list string) : output_dir_at dir <> [].
Proof. rewrite output_dir_at_eq. now destruct (removelast dir). Qed.

(** The last [mkdir] of [makedirs], once [lib] is a directory. *)
Lemma mkdir_utils_ok (w : World) (dir : list string) :
  cwd w = dir ->
  fs_lookup (disk w) (removelast dir ++ ["lib"]) = Some Dir ->
  not_a_file (disk w) (output_dir_at dir) = true ->
  not_a_dir (disk w) (output_at dir) = true ->
  exists w',
    mkdir_exist_ok (os_path_dirname output_path) w = (Return tt, w') /\
    cwd w' = dir /\
    fs_lookup (disk w') (output_dir_at dir) = Some Dir /\
    not_a_dir (disk w') (output_at dir) = true.
Proof.
  intros Hcwd HL HU Hout.
  assert (Hres : resolve (cwd w) (os_path_dirname output_path) = output_dir_at dir)
    by now rewrite Hcwd.
  destruct (not_a_file_cases _ _ HU) as [Hd | Hn].
  - exists w. rewrite mkdir_exist_ok_dir by now rewrite Hres. now repeat split.
  - rewrite mkdir_exist_ok_new.
    + eexists. split; [reflexivity |]. rewrite Hres. cbn [cwd disk set_disk].
      split; [exact Hcwd |]. split.
      * apply fs_lookup_insert_eq, output_dir_nonempty.
      * unfold not_a_dir, is_dir in *.
        rewrite fs_lookup_insert_ne by apply output_dir_neq_output. exact Hout.
    + now rewrite Hres.
    + now rewrite Hres, removelast_output_dir.
Qed.

Lemma makedirs_ok (w : World) :
  output_writable (disk w) (cwd w) ->
  exists w',
    os_makedirs (os_path_dirname output_path) w = (Return tt, w') /\
    cwd w' = cwd w /\
    fs_lookup (disk w') (output_dir_at (cwd w)) = Some Dir /\
    not_a_dir (disk w') (output_at (cwd w)) = true.
Proof.
  intros [Hup Hlib Hutils Hout].
  rewrite up_at_eq in Hup. rewrite lib_at_eq in Hlib. apply is_dir_lookup in Hup.
  unfold os_makedirs.
  change (length (parts (os_path_dirname output_path))) with 3%nat.
  assert (Hhead : resolve (cwd w) (os_path_dirname (os_path_dirname output_path))
                  = removelast (cwd w) ++ ["lib"]) by reflexivity.
  destruct (not_a_file_cases _ _ Hlib) as [HL | HL].
  - rewrite makedirs_head_present
      by (unfold fs_exists; now rewrite Hhead, HL).
    now apply mkdir_utils_ok.
  - rewrite makedirs_head_absent;
      [| unfold fs_exists; now rewrite Hhead, HL | discriminate | discriminate
       | reflexivity].
    rewrite bind_unfold. unfold ignore_exists, try_except.
    rewrite makedirs_head_present.
    2:{ unfold fs_exists.
        change (resolve (cwd w)
                  (os_path_dirname (os_path_dirname (os_path_dirname output_path))))
          with (removelast (cwd w)).
        now rewrite Hup. }
    rewrite mkdir_exist_ok_new;
      [| now rewrite Hhead | now rewrite Hhead, removelast_last].
    rewrite Hhead.
    match goal with
    | |- context [mkdir_exist_ok _ ?W] =>
        destruct (mkdir_utils_ok W (cwd w)) as (w' & Hrun & Hc & Hd & Ho)
    end.
    + reflexivity.
    + cbn [disk set_disk]. apply fs_lookup_insert_eq. now destruct (removelast (cwd w)).
    + cbn [disk set_disk]. unfold not_a_file in *.
      now rewrite fs_lookup_insert_ne by apply lib_neq_output_dir.
    + cbn [disk set_disk]. unfold not_a_dir, is_dir in *.
      now rewrite fs_lookup_insert_ne by apply lib_neq_output.
    + exists w'. now repeat split.
Qed.

Lemma convert_ok (w : World) (data : list byte) :
  fs_read (disk w) (raw_at (cwd w)) = FsOk data ->
  output_writable (disk w) (cwd w) ->
  forall e w', convert_to_dart w <> (Raise e, w').
Proof.
  intros Hread Hok e w'.
  unfold convert_to_dart. rewrite bind_print, bind_unfold. unfold open_read.
  change (resolve (cwd (say w _)) (relative ["mixbox_lut_raw.bin"]))
    with (raw_at (cwd w)).
  change (disk (say w _)) with (disk w). rewrite Hread.
  rewrite bind_print, bind_unfold.
  match goal with
  | |- context [os_makedirs _ ?W] =>
      destruct (makedirs_ok W) as (w2 & Hrun & Hc & Hd & Ho); [exact Hok |]
  end.
  rewrite Hrun. cbn [cwd say] in Hc, Hd, Ho.
  rewrite bind_unfold. unfold open_write, os_call. rewrite Hc.
  change (resolve (cwd w) output_path) with (output_at (cwd w)).
  rewrite fs_write_intro;
    [| exact Ho | rewrite removelast_output; now apply is_dir_lookup].
  rewrite !bind_print. discriminate.
Qed.

(** ** A known-good run does not fail *)

Lemma select_ge (lut : list byte) :
  (expectedSize <= len lut)%Z ->
  exists buf log, select_lut_buffer lut = Some (buf, log).
Proof.
  intros H. destruct (Z.eq_dec (len lut) expectedSize) as [E | E].
  - exists lut, "". now apply select_equal.
  - destruct (select_larger lut) as [log Hs]; [lia | eauto].
Qed.

Lemma output_writable_frame (d d' : Disk) (dir : list string) :
  (forall q, q <> snippet_at dir -> q <> raw_at dir ->
             fs_lookup d' q = fs_lookup d q) ->
  output_writable d dir -> output_writable d' dir.
Proof.
  intros Hfr [Hup Hlib Hutils Hout].
  pose proof (output_dir_neq_snippet dir). pose proof (output_dir_neq_raw dir).
  pose proof (snippet_neq_output dir). pose proof (raw_neq_output dir).
  split.
  - rewrite up_at_eq in *. unfold is_dir in *. rewrite Hfr; [exact Hup | |].
    + rewrite snippet_at_eq. apply removelast_snoc_neq.
    + rewrite raw_at_eq. apply removelast_snoc_neq.
  - rewrite lib_at_eq in *. unfold not_a_file in *. rewrite Hfr; [exact Hlib | |].
    + rewrite snippet_at_eq. path_neq.
    + rewrite raw_at_eq. path_neq.
  - unfold not_a_file in *. rewrite Hfr; [exact Hutils | |]; congruence.
  - unfold not_a_dir, is_dir in *. rewrite Hfr; [exact Hout | |]; congruence.
Qed.

Lemma known_good_runs (env : Env) (cwd0 : list string)
    (fs0 : gmap (list string) entry) (lut : list byte) :
  known_good env cwd0 fs0 lut ->
  ~ failure env (script_dir env cwd0) (pristine fs0).
Proof.
  intros [Hdir Hnode Hsn Hraw [out2 Hloc] Hsize Hout] F.
  set (dir := script_dir env cwd0) in *.
  assert (Hwsn : fs_write (pristine fs0) (snippet_at dir) js_bytes
                 = FsOk (commit (pristine fs0)
                           (<[snippet_at dir := File js_bytes]> (files (pristine fs0)))
                           (Wrote (snippet_at dir)))).
  { apply fs_write_intro; [exact Hsn | now rewrite removelast_snippet]. }
  destruct (select_ge lut Hsize) as (buf & log & Hsel).
  destruct F as [Hnd | e He | w1 w2 Hc Hw Hrun
                | d1 w2 w3 e out2' lut' buf' log' Hw1 Hloc' Hsel' Hw2 Hc Hconv].
  - congruence.
  - congruence.
  - rewrite Hwsn in Hw. injection Hw as Hd1.
    assert (Hfr : forall q, q <> snippet_at dir ->
                            fs_lookup (disk w1) q = fs_lookup (pristine fs0) q).
    { intros q Hq. rewrite <- Hd1. apply fs_lookup_insert_ne. congruence. }
    eapply (run_extraction_true env w1); [exact Hnode | | | exact Hsel | | exact Hrun].
    + rewrite Hc. unfold fs_read. rewrite <- Hd1.
      rewrite fs_lookup_insert_eq; [reflexivity |].
      rewrite snippet_at_eq. now destruct dir.
    + rewrite Hc. rewrite (locate_frame _ _ (pristine fs0)); [exact Hloc |].
      apply Hfr, input_neq_snippet.
    + rewrite Hc. apply fs_write_intro.
      * unfold not_a_dir, is_dir in *.
        rewrite Hfr; [exact Hraw |]. intros E. symmetry in E.
        now apply snippet_neq_raw in E.
      * rewrite removelast_raw. unfold is_dir in *.
        rewrite Hfr; [exact Hdir |]. rewrite snippet_at_eq. apply snoc_neq_self.
  - rewrite Hloc in Hloc'. injection Hloc' as _ <-.
    destruct (fs_write_effect _ _ _ _ Hw1) as (_ & Hfr1 & _ & _).
    destruct (fs_write_effect _ _ _ _ Hw2) as (Hrp & Hfr2 & _ & _).
    eapply (convert_ok w2 buf'); [| | exact Hconv].
    + rewrite Hc. unfold fs_read. now rewrite Hrp.
    + rewrite Hc. apply (output_writable_frame (pristine fs0)); [| exact Hout].
      intros q Hq1 Hq2. rewrite Hfr2, Hfr1; congruence.
Qed.

(** A known-good run goes through the four stages, and leaves the literal of
    the normalised table in the output file. *)
Lemma known_good_success (env : Env) (cwd0 : list string)
    (fs0 : gmap (list string) entry) (lut : list byte) :
  known_good env cwd0 fs0 lut ->
  exists w' buf log,
    run_script env cwd0 fs0 = (0%Z, w') /\
    select_lut_buffer lut = Some (buf, log) /\
    fs_lookup (disk w') (output_at (script_dir env cwd0))
    = Some (File (list_byte_of_string (dart_code buf))) /\
    fs_lookup (disk w') (snippet_at (script_dir env cwd0)) = None /\
    fs_lookup (disk w') (raw_at (script_dir env cwd0)) = None /\
    fs_lookup (disk w') (output_dir_at (script_dir env cwd0)) = Some Dir /\
    Print success_line ∈ console w'.
Proof.
  intros KG. pose proof (known_good_runs _ _ _ _ KG) as Hnf.
  destruct KG as [_ _ _ _ [out2 Hloc] _ _].
  destruct (run_script env cwd0 fs0) as [code w'] eqn:Hrun.
  apply run_script_inv in Hrun.
  destruct Hrun as [(_ & Hf & _) | (-> & _ & _ & Hin & lut' & buf & ps
                                    & Hco & Ho & Hs & Hr & Hd & _)];
    [contradiction |].
  destruct Hco as [_ [out2' Hloc'] [log Hsel] _].
  rewrite Hloc in Hloc'. injection Hloc' as _ <-.
  exists w', buf, log. now repeat split.
Qed.

(** ** The console does not steer the program *)

Lemma stable_ret {A} (a : A) : stable (mret a : Py A).
Proof. intros w1 w2 H. now split. Qed.

Lemma stable_raise {A} (e : exn) : stable (raise e : Py A).
Proof. intros w1 w2 H. now split. Qed.

Lemma stable_emit (ev : event) : stable (emit ev).
Proof. intros w1 w2 [H1 H2]. now repeat split. Qed.

Lemma stable_bind {A B} (m : Py A) (k : A -> Py B) :
  stable m -> (forall a, stable (k a)) -> stable (m ≫= k).
Proof.
  intros Hm Hk w1 w2 H. rewrite !bind_unfold.
  destruct (Hm w1 w2 H) as [Hr Hs].
  destruct (m w1) as [[a1 | e1] u1], (m w2) as [[a2 | e2] u2];
    simpl in Hr, Hs; try discriminate.
  - injection Hr as ->. now apply Hk.
  - injection Hr as ->. now split.
Qed.

Lemma stable_try {A} (body : Py A) (handler : exn -> option (Py A)) :
  stable body -> (forall e h, handler e = Some h -> stable h) ->
  stable (try_except body handler).
Proof.
  intros Hm Hh w1 w2 H. unfold try_except.
  destruct (Hm w1 w2 H) as [Hr Hs].
  destruct (body w1) as [[a1 | e1] u1], (body w2) as [[a2 | e2] u2];
    simpl in Hr, Hs; try discriminate.
  - now split.
  - injection Hr as ->. destruct (handler e2) as [h |] eqn:E.
    + now apply (Hh e2 h E).
    + now split.
Qed.

Lemma stable_os_call (op : Disk -> list string -> fs_result Disk) (name : pathname) :
  stable (os_call op name).
Proof.
  intros w1 w2 [H1 H2]. unfold os_call. rewrite H1, H2.
  destruct (op _ _); now repeat split.
Qed.

Lemma stable_open_read (name : pathname) : stable (open_read name).
Proof.
  intros w1 w2 [H1 H2]. unfold open_read. rewrite H1, H2.
  destruct (fs_read _ _); now repeat split.
Qed.

Lemma stable_exists (name : pathname) : stable (os_path_exists name).
Proof. intros w1 w2 [H1 H2]. unfold os_path_exists. rewrite H1, H2. now repeat split. Qed.

Lemma stable_isdir (name : pathname) : stable (os_path_isdir name).
Proof. intros w1 w2 [H1 H2]. unfold os_path_isdir. rewrite H1, H2. now repeat split. Qed.

Lemma stable_subprocess_run (env : Env) : stable (subprocess_run env).
Proof.
  intros w1 w2 [H1 H2]. unfold subprocess_run. rewrite H1, H2.
  destruct (node_installed env); [| now repeat split].
  destruct (node _ _ _) as [r d']. destruct (_ =? _)%Z; now repeat split.
Qed.

Ltac stable_tac :=
  repeat first
    [ apply stable_ret
    | apply stable_raise
    | apply stable_emit
    | apply stable_os_call
    | apply stable_open_read
    | apply stable_exists
    | apply stable_isdir
    | apply stable_subprocess_run
    | assumption
    | apply stable_bind; [| intros ?]
    | match goal with
      | |- stable (if ?c then _ else _) => destruct c
      | |- stable (match ?e with _ => _ end) => destruct e
      end ].

Lemma stable_mkdir_exist_ok (name : pathname) : stable (mkdir_exist_ok name).
Proof.
  unfold mkdir_exist_ok. apply stable_try; [apply stable_os_call |].
  intros e h. destruct e; [| discriminate]. intros [= <-]. stable_tac.
Qed.

Lemma stable_makedirs_from (fuel : nat) :
  forall name, stable (os_makedirs_from fuel name).
Proof.
  induction fuel as [| fuel IH]; intros name; cbn [os_makedirs_from].
  - apply stable_mkdir_exist_ok.
  - apply stable_bind; [apply stable_exists |]. intros present.
    destruct (_ && _); [| apply stable_mkdir_exist_ok].
    apply stable_bind.
    + unfold ignore_exists. apply stable_try; [apply IH |].
      intros e h. destruct e as [[] f | c]; try discriminate.
      intros [= <-]. apply stable_ret.
    + intros _. destruct (tail_is_curdir name);
        [apply stable_ret | apply stable_mkdir_exist_ok].
Qed.

Lemma stable_run_extraction (env : Env) : stable (run_extraction env).
Proof.
  unfold run_extraction. apply stable_bind; [apply stable_emit |]. intros _.
  apply stable_try.
  - unfold print, print_err. stable_tac.
  - intros e h. unfold print, print_err.
    destruct e as [[] f | c]; try discriminate; intros [= <-]; stable_tac.
Qed.

Lemma stable_convert_to_dart : stable convert_to_dart.
Proof.
  unfold convert_to_dart, print, os_makedirs, open_write.
  apply stable_bind; [apply stable_emit |]. intros _.
  apply stable_bind; [apply stable_open_read |]. intros data.
  apply stable_bind; [apply stable_emit |]. intros _.
  apply stable_bind; [apply stable_makedirs_from |]. intros _.
  stable_tac.
Qed.

(** ** Exit status and failure *)

Lemma completed_not_failure (env : Env) (dir : list string) (d0 : Disk)
    (lut buf : list byte) :
  is_dir d0 dir = true -> completed env dir d0 lut buf -> ~ failure env dir d0.
Proof.
  intros Hdir [Hnode [out2 Hloc] [log Hsel]
                (d1 & w1 & w2 & w3 & w4 & Hw1 & Hc1 & Hd1 & Hrun & Hw2 & Hc3 & Hd3 & Hconv)] F.
  destruct F as [Hnd | e He | u1 u2 Hc Hw Hfalse
                | d1' u2 u3 e out2' lut' buf' log' Hw1' Hloc' Hsel' Hw2' Hc Hraise].
  - congruence.
  - congruence.
  - rewrite Hw1 in Hw. injection Hw as Hd.
    destruct (stable_run_extraction env w1 u1) as [Hr _]; [split; congruence |].
    rewrite Hrun, Hfalse in Hr. discriminate.
  - rewrite Hw1 in Hw1'. injection Hw1' as <-.
    rewrite Hloc in Hloc'. injection Hloc' as _ <-.
    rewrite Hsel in Hsel'. injection Hsel' as <- _.
    rewrite Hw2 in Hw2'. injection Hw2' as Hd.
    destruct (stable_convert_to_dart w3 u2) as [Hr _]; [split; congruence |].
    rewrite Hconv, Hraise in Hr. discriminate.
Qed.

(** The exit status is 1 exactly when the run fails, 0 otherwise. *)
Lemma exit_status_failure (env : Env) (cwd0 : list string)
    (fs0 : gmap (list string) entry) :
  ((run_script env cwd0 fs0).1 = 1%Z
   <-> failure env (script_dir env cwd0) (pristine fs0)) /\
  ((run_script env cwd0 fs0).1 = 0%Z
   <-> ~ failure env (script_dir env cwd0) (pristine fs0)).
Proof.
  destruct (run_script env cwd0 fs0) as [code w'] eqn:Hrun.
  apply run_script_inv in Hrun. cbn [fst].
  destruct Hrun as [(-> & Hf & _) | (-> & _ & Hdir & _ & lut & buf & ps & Hco & _)].
  - split; split; try tauto; try discriminate.
  - pose proof (completed_not_failure _ _ _ _ _ Hdir Hco) as Hnf.
    split; split; try tauto; try discriminate.
Qed.

(** ** The matcher finds the declaration exactly when it is there *)

Lemma strip_prefix_some (p s r : string) :
  strip_prefix p s = Some r -> s = p +:+ r.
Proof.
  revert s. induction p as [| a p IH]; intros s; simpl.
  - now intros [= ->].
  - destruct s as [| b s]; [discriminate |].
    destruct (Ascii.eqb a b) eqn:E; [| discriminate].
    apply Ascii.eqb_eq in E. subst b. intros H. rewrite sapp_cons.
    now rewrite (IH _ H).
Qed.

Lemma strip_prefix_app (p r : string) : strip_prefix p (p +:+ r) = Some r.
Proof.
  induction p as [| a p IH]; [reflexivity |].
  rewrite sapp_cons. simpl. now rewrite Ascii.eqb_refl.
Qed.

Lemma span_not_quote_spec (s a b : string) :
  span_not_quote s = (a, b) ->
  s = a +:+ b /\ Forall (fun c => c <> quote) (list_ascii_of_string a).
Proof.
  revert a b. induction s as [| c s IH]; intros a b; simpl.
  - intros [= <- <-]. split; [reflexivity | constructor].
  - destruct (Ascii.eqb c quote) eqn:E.
    + intros [= <- <-]. split; [reflexivity | constructor].
    + destruct (span_not_quote s) as [a' b'].
      intros [= <- <-]. destruct (IH a' b' eq_refl) as [-> Hall].
      split; [reflexivity |]. simpl. constructor; [| exact Hall].
      now apply Ascii.eqb_neq.
Qed.

Lemma span_not_quote_app (a b : string) :
  Forall (fun c => c <> quote) (list_ascii_of_string a) ->
  span_not_quote (a +:+ String quote b) = (a, String quote b).
Proof.
  induction a as [| c a IH]; intros H.
  - reflexivity.
  - rewrite sapp_cons. simpl in *. inversion H as [| ? ? Hc Hall]; subst.
    apply Ascii.eqb_neq in Hc. rewrite Hc. now rewrite IH.
Qed.

Lemma match_here_sound (s body : string) :
  match_here s = Some body ->
  exists post,
    s = lut_prefix +:+ body +:+ lut_suffix +:+ post /\
    body <> "" /\
    Forall (fun c => c <> quote) (list_ascii_of_string body).
Proof.
  unfold match_here.
  destruct (strip_prefix lut_prefix s) as [rest |] eqn:E1; [| discriminate].
  destruct (span_not_quote rest) as [b tail] eqn:E2.
  destruct b as [| c b]; [discriminate |].
  destruct (strip_prefix lut_suffix tail) as [post |] eqn:E3; [| discriminate].
  intros [= <-]. exists post.
  apply strip_prefix_some in E1. apply strip_prefix_some in E3.
  apply span_not_quote_spec in E2. destruct E2 as [-> Hall].
  subst. repeat split; [discriminate | exact Hall].
Qed.

Lemma match_here_complete (body post : string) :
  body <> "" ->
  Forall (fun c => c <> quote) (list_ascii_of_string body) ->
  match_here (lut_prefix +:+ body +:+ lut_suffix +:+ post) = Some body.
Proof.
  intros Hne Hall. unfold match_here. rewrite strip_prefix_app.
  change (lut_suffix +:+ post) with (String quote (");" +:+ post)).
  rewrite span_not_quote_app by exact Hall.
  destruct body as [| c b]; [congruence |].
  change (String quote (");" +:+ post)) with (lut_suffix +:+ post).
  now rewrite strip_prefix_app.
Qed.

Lemma lut_match_unfold (s : string) :
  lut_match s
  = match match_here s with
    | Some body => Some body
    | None => match s with
              | EmptyString => None
              | String _ s' => lut_match s'
              end
    end.
Proof. destruct s; reflexivity. Qed.

Lemma lut_match_sound (s body : string) :
  lut_match s = Some body -> contains_decl s.
Proof.
  induction s as [| c s IH]; rewrite lut_match_unfold.
  - destruct (match_here "") as [b |] eqn:E; [| discriminate].
    intros _. apply match_here_sound in E. destruct E as (post & E & H1 & H2).
    exists "", b, post. now rewrite sapp_nil_l.
  - destruct (match_here (String c s)) as [b |] eqn:E.
    + intros _. apply match_here_sound in E. destruct E as (post & E & H1 & H2).
      exists "", b, post. now rewrite sapp_nil_l.
    + intros H. destruct (IH H) as (pre & b & post & -> & H1 & H2).
      exists (String c pre), b, post. now rewrite sapp_cons.
Qed.

Lemma lut_match_complete (s : string) :
  contains_decl s -> exists body, lut_match s = Some body.
Proof.
  intros (pre & b & post & -> & H1 & H2).
  induction pre as [| c pre IH]; rewrite lut_match_unfold.
  - rewrite sapp_nil_l, match_here_complete by assumption. eauto.
  - destruct (match_here _) as [b' |]; [eauto |].
    rewrite sapp_cons. exact IH.
Qed.

(** [lutMatch] is [null] exactly when the text holds no declaration. *)
Lemma lut_match_none (s : string) : lut_match s = None <-> ~ contains_decl s.
Proof.
  split.
  - intros H Hc. apply lut_match_complete in Hc. destruct Hc as [b Hb]. congruence.
  - intros H. destruct (lut_match s) as [b |] eqn:E; [| reflexivity].
    exfalso. apply H. now apply (lut_match_sound s b).
Qed.

(** ** The sample inputs *)

Lemma lut_exact_len : len lut_exact = expectedSize.
Proof. vm_compute. reflexivity. Qed.

Lemma lut_padded_len : len lut_padded = 800000%Z.
Proof. vm_compute. reflexivity. Qed.

Lemma lut_short_len : len lut_short = 100%Z.
Proof. vm_compute. reflexivity. Qed.

(** On the sample tree the snippet finds the declaration and the code, and
    decompresses whatever table the environment is set up to return. *)
Lemma demo_located (lut : list byte) :
  exists out2,
    locate_and_decompress (js_decompress (demo_env lut))
      (script_dir (demo_env lut) ["home"]) (pristine demo_tree)
    = inr (out2, lut).
Proof. eexists. vm_compute. reflexivity. Qed.

Lemma demo_known_good (lut : list byte) :
  (expectedSize <= len lut)%Z ->
  known_good (demo_env lut) ["home"] demo_tree lut.
Proof.
  intros Hsize. split.
  - vm_compute. reflexivity.
  - reflexivity.
  - vm_compute. reflexivity.
  - vm_compute. reflexivity.
  - apply demo_located.
  - exact Hsize.
  - split; vm_compute; reflexivity.
Qed.

(** * The properties of the specification *)

(** C1. Size normalisation: a table of exactly 786,432 bytes is kept as it
    is; of a longer one the leading [length - 786432] bytes are dropped and
    the trailing 786,432 bytes kept (for 800,000 bytes: the first 13,568 are
    dropped); what is kept is what the snippet writes; for a shorter table the
    snippet keeps nothing, writes nothing and exits with status 1, and so does
    the script. *)
Theorem size_normalization_policy (lut : list byte) :
  (len lut = expectedSize -> select_lut_buffer lut = Some (lut, "")) /\
  ((len lut > expectedSize)%Z ->
   exists log,
     select_lut_buffer lut
     = Some (drop (Z.to_nat (len lut - expectedSize)) lut, log) /\
     len (drop (Z.to_nat (len lut - expectedSize)) lut) = expectedSize /\
     take (Z.to_nat (len lut - expectedSize)) lut
       ++ drop (Z.to_nat (len lut - expectedSize)) lut = lut) /\
  (len lut = 800000%Z ->
   exists log,
     select_lut_buffer lut = Some (drop (Z.to_nat 13568) lut, log) /\
     len (drop (Z.to_nat 13568) lut) = 786432%Z) /\
  (forall buf log out2 dir d d',
     select_lut_buffer lut = Some (buf, log) ->
     fs_write d (raw_at dir) buf = FsOk d' ->
     returncode (store_lut out2 lut dir d).1 = 0%Z /\
     (store_lut out2 lut dir d).2 = d' /\
     fs_lookup d' (raw_at dir) = Some (File buf)) /\
  ((len lut < expectedSize)%Z ->
   select_lut_buffer lut = None /\
   (forall out2 dir d,
      store_lut out2 lut dir d
      = (exited 1 out2 ("Decompressed data smaller than expected!" +:+ nl), d)) /\
   (forall env cwd0 fs0 out2,
      locate_and_decompress (js_decompress env) (script_dir env cwd0) (pristine fs0)
      = inr (out2, lut) ->
      (run_script env cwd0 fs0).1 = 1%Z)).
Proof.
  split; [apply select_equal |]. split; [| split; [| split]].
  - intros H. destruct (select_larger lut H) as [log Hs]. exists log.
    split; [exact Hs |]. split; [| apply take_drop].
    rewrite len_drop. unfold expectedSize in *. lia.
  - intros H. destruct (select_larger lut) as [log Hs].
    { unfold expectedSize. lia. }
    rewrite H in Hs. exists log. split; [exact Hs |].
    change (800000 - expectedSize)%Z with 13568%Z. rewrite len_drop. lia.
  - intros buf log out2 dir d d' Hs Hw. unfold store_lut. rewrite Hs.
    change (walk dir ["mixbox_lut_raw.bin"]) with (raw_at dir). rewrite Hw.
    split; [reflexivity |]. split; [reflexivity |].
    now destruct (fs_write_effect _ _ _ _ Hw) as (Hl & _).
  - intros H. pose proof (select_smaller lut H) as Hs.
    split; [exact Hs |]. split.
    + intros out2 dir d. unfold store_lut. now rewrite Hs.
    + intros env cwd0 fs0 out2 Hloc.
      destruct (run_script env cwd0 fs0) as [code w'] eqn:Hrun.
      apply run_script_inv in Hrun.
      destruct Hrun as [(-> & _) | (_ & _ & _ & _ & lut' & buf & ps & Hco & _)];
        [reflexivity |].
      destruct Hco as [_ [out2' Hloc'] [log Hsel] _].
      rewrite Hloc in Hloc'. injection Hloc' as _ <-. congruence.
Qed.

Lemma size_normalization_policy_witness :
  select_lut_buffer lut_exact = Some (lut_exact, "") /\
  (exists log,
     select_lut_buffer lut_padded = Some (drop (Z.to_nat 13568) lut_padded, log) /\
     len (drop (Z.to_nat 13568) lut_padded) = 786432%Z) /\
  select_lut_buffer lut_short = None.
Proof.
  split; [| split].
  - apply (size_normalization_policy lut_exact). exact lut_exact_len.
  - apply (size_normalization_policy lut_padded). exact lut_padded_len.
  - apply (size_normalization_policy lut_short). vm_compute. reflexivity.
Defined.

Lemma quiet_not_in (evs : list event) : quiet evs -> Print success_line ∉ evs.
Proof.
  unfold quiet. rewrite Forall_forall. intros H Hin. now apply (H _ Hin).
Qed.

Lemma elem_of_map {A B} (f : A -> B) (l : list A) (y : B) :
  y ∈ map f l -> exists x, y = f x /\ x ∈ l.
Proof.
  rewrite list_elem_of_In, in_map_iff. intros (x & <- & Hx).
  exists x. split; [reflexivity | now apply list_elem_of_In].
Qed.

(** The changes recorded by a run that fails: the two intermediate files
    and directories, never the output file, never a removal. *)
Lemma journal_ops (j : list fs_op) (dir : list string) :
  (j = [] \/ j = [Wrote (snippet_at dir)] \/
   exists ps, j = [Wrote (snippet_at dir); Wrote (raw_at dir)] ++ map MadeDir ps) ->
  forall op, op ∈ j ->
    op = Wrote (snippet_at dir) \/ op = Wrote (raw_at dir) \/ exists p, op = MadeDir p.
Proof.
  intros Hj op Hin. destruct Hj as [-> | [-> | [ps ->]]].
  - now apply elem_of_nil in Hin.
  - apply list_elem_of_singleton in Hin. now left.
  - apply elem_of_app in Hin. destruct Hin as [Hin | Hin].
    + rewrite !elem_of_cons in Hin.
      destruct Hin as [-> | [-> | Hin]]; [tauto | tauto |].
      now apply elem_of_nil in Hin.
    + apply elem_of_map in Hin. destruct Hin as (p & -> & _). eauto.
Qed.

Lemma journal_no_output (j : list fs_op) (dir : list string) :
  (j = [] \/ j = [Wrote (snippet_at dir)] \/
   exists ps, j = [Wrote (snippet_at dir); Wrote (raw_at dir)] ++ map MadeDir ps) ->
  (Wrote (output_at dir) ∉ j) /\ forall p, Removed p ∉ j.
Proof.
  intros Hj. pose proof (journal_ops j dir Hj) as Hops.
  pose proof (snippet_neq_output dir) as H1. pose proof (raw_neq_output dir) as H2.
  split; [| intros p]; intros Hin; apply Hops in Hin;
    destruct Hin as [E | [E | [q E]]]; congruence.
Qed.

(** The journal of a failed run, in the form [journal_no_output] expects. *)
Lemma failed_journal (env : Env) (cwd0 : list string)
    (fs0 : gmap (list string) entry) (w' : World) :
  run_script env cwd0 fs0 = (1%Z, w') ->
  (Wrote (output_at (script_dir env cwd0)) ∉ journal (disk w')) /\
  (forall p, Removed p ∉ journal (disk w')) /\
  (Wrote (snippet_at (script_dir env cwd0)) ∈ journal (disk w') ->
   fs_lookup (disk w') (snippet_at (script_dir env cwd0)) = Some (File js_bytes)) /\
  Exists (fun ev => is_error_event ev = true) (console w') /\
  Print success_line ∉ console w'.
Proof.
  intros Hrun. apply run_script_inv in Hrun.
  destruct Hrun as [(_ & _ & Hq & Herr & Hj) | (Hc & _)]; [| discriminate].
  assert (Hform : journal (disk w') = [] \/
                  journal (disk w') = [Wrote (snippet_at (script_dir env cwd0))] \/
                  (exists ps, journal (disk w')
                              = [Wrote (snippet_at (script_dir env cwd0));
                                 Wrote (raw_at (script_dir env cwd0))]
                                ++ map MadeDir ps)) by tauto.
  destruct (journal_no_output _ _ Hform) as [Ho Hr].
  split; [exact Ho |]. split; [exact Hr |]. split; [| split; [exact Herr |]].
  - destruct Hj as [Hnil | [Hsp _]]; [| now intros _].
    rewrite Hnil. intros Hin. now apply elem_of_nil in Hin.
  - now apply quiet_not_in.
Qed.

(** C2. Every successful run leaves in the output file the literal of a
    normalised table of 786,432 bytes; read back, the literal has exactly
    786,432 comma-separated entries, the bytes of the table, each one in
    [0 .. 255]. *)
Theorem emitted_literal_entries (env : Env) (cwd0 : list string)
    (fs0 : gmap (list string) entry) (w' : World) :
  run_script env cwd0 fs0 = (0%Z, w') ->
  exists lut buf log,
    select_lut_buffer lut = Some (buf, log) /\
    len buf = expectedSize /\
    fs_lookup (disk w') (output_at (script_dir env cwd0))
    = Some (File (list_byte_of_string (dart_code buf))) /\
    array_entries (dart_code buf) = Some (map Byte.to_N buf) /\
    len (map Byte.to_N buf) = 786432%Z /\
    Forall (fun n => (0 <= n <= 255)%N) (map Byte.to_N buf).
Proof.
  intros Hrun. apply run_script_inv in Hrun.
  destruct Hrun as [(Hc & _) | (_ & _ & _ & _ & lut & buf & ps & Hco & Ho & _)];
    [discriminate |].
  destruct Hco as [_ _ [log Hsel] _].
  destruct (select_some _ _ _ Hsel) as (Hlen & _ & _).
  exists lut, buf, log. split; [exact Hsel |]. split; [exact Hlen |].
  split; [exact Ho |]. split; [apply array_entries_dart_code |]. split.
  - unfold len in *. now rewrite length_map.
  - apply Forall_forall. intros n Hn. apply elem_of_map in Hn.
    destruct Hn as (b & -> & _). pose proof (byte_to_N_le b). lia.
Qed.

Lemma emitted_literal_entries_witness :
  exists w' buf,
    run_script (demo_env lut_exact) ["home"] demo_tree = (0%Z, w') /\
    len buf = expectedSize /\
    array_entries (dart_code buf) = Some (map Byte.to_N buf) /\
    len (map Byte.to_N buf) = 786432%Z.
Proof.
  destruct (known_good_success (demo_env lut_exact) ["home"] demo_tree lut_exact)
    as (w' & _ & _ & Hrun & _).
  { apply demo_known_good. rewrite lut_exact_len. reflexivity. }
  destruct (emitted_literal_entries _ _ _ _ Hrun)
    as (lut & buf & log & _ & Hlen & _ & Hent & Hn & _).
  exists w', buf. now repeat split.
Defined.

(** C3. Round trip: when the decompressed table has exactly 786,432 bytes,
    nothing is trimmed (and nothing logged about trimming), and the entries of
    the literal in the output file are the decompressed bytes, in order. *)
Theorem round_trip_identity (env : Env) (cwd0 : list string)
    (fs0 : gmap (list string) entry) (w' : World) (out2 : string) (lut : list byte) :
  run_script env cwd0 fs0 = (0%Z, w') ->
  locate_and_decompress (js_decompress env) (script_dir env cwd0) (pristine fs0)
  = inr (out2, lut) ->
  len lut = expectedSize ->
  select_lut_buffer lut = Some (lut, "") /\
  fs_lookup (disk w') (output_at (script_dir env cwd0))
  = Some (File (list_byte_of_string (dart_code lut))) /\
  array_entries (dart_code lut) = Some (map Byte.to_N lut).
Proof.
  intros Hrun Hloc Hlen. apply run_script_inv in Hrun.
  destruct Hrun as [(Hc & _) | (_ & _ & _ & _ & lut' & buf & ps & Hco & Ho & _)];
    [discriminate |].
  destruct Hco as [_ [out2' Hloc'] [log Hsel] _].
  rewrite Hloc in Hloc'. injection Hloc' as _ <-.
  pose proof (select_equal lut Hlen) as Heq.
  rewrite Heq in Hsel. injection Hsel as <- _.
  split; [exact Heq |]. split; [exact Ho | apply array_entries_dart_code].
Qed.

Lemma round_trip_identity_witness :
  exists w',
    run_script (demo_env lut_exact) ["home"] demo_tree = (0%Z, w') /\
    select_lut_buffer lut_exact = Some (lut_exact, "") /\
    fs_lookup (disk w')
      (output_at (script_dir (demo_env lut_exact) ["home"]))
    = Some (File (list_byte_of_string (dart_code lut_exact))) /\
    array_entries (dart_code lut_exact) = Some (map Byte.to_N lut_exact).
Proof.
  destruct (known_good_success (demo_env lut_exact) ["home"] demo_tree lut_exact)
    as (w' & _ & _ & Hrun & _).
  { apply demo_known_good. rewrite lut_exact_len. reflexivity. }
  destruct (demo_located lut_exact) as [out2 Hloc].
  exists w'. split; [exact Hrun |].
  exact (round_trip_identity _ _ _ _ _ _ Hrun Hloc lut_exact_len).
Defined.

(** When [main] is left by an exception of the pipeline, the handler prints
    the error and the trace and returns 1. *)
Lemma exception_caught (env : Env) (cwd0 : list string)
    (fs0 : gmap (list string) entry) (e : exn) (w1 : World) :
  is_dir (pristine fs0) (script_dir env cwd0) = true ->
  pipeline env (start_world (script_dir env cwd0) fs0) = (Raise e, w1) ->
  run_script env cwd0 fs0
  = (1%Z, say w1 [PrintErr (nl +:+ "[ERROR] " +:+ exn_str e); Traceback e]).
Proof.
  intros Hdir Hp. apply is_dir_lookup in Hdir.
  unfold run_script. change {| files := fs0; journal := [] |} with (pristine fs0).
  rewrite main_start, Hdir. unfold guarded_pipeline, try_except. rewrite Hp.
  rewrite bind_print_err, bind_unfold. unfold traceback_print_exc, emit.
  unfold say. cbn [cwd disk console mret Py_ret]. now rewrite <- app_assoc.
Qed.

(** When the directory of the script is not there, [os.chdir] raises before
    the [try] block: the interpreter prints the trace and exits with 1. *)
Lemma chdir_uncaught (env : Env) (cwd0 : list string)
    (fs0 : gmap (list string) entry) :
  is_dir (pristine fs0) (script_dir env cwd0) = false ->
  exists e,
    run_script env cwd0 fs0
    = (1%Z, {| cwd := cwd0; disk := pristine fs0;
               console := banner ++ [Traceback e] |}).
Proof.
  intros Hdir. unfold run_script.
  change {| files := fs0; journal := [] |} with (pristine fs0).
  rewrite main_start. unfold is_dir in Hdir.
  destruct (fs_lookup (pristine fs0) (script_dir env cwd0)) as [[c |] |];
    [| discriminate |]; eexists; reflexivity.
Qed.

Lemma locate_pattern (dec : JsRuntime)
    (dir : list string) (d : Disk) (out2 : string) (lut : list byte) :
  locate_and_decompress dec dir d = inr (out2, lut) ->
  exists bytes,
    fs_lookup d (input_at dir) = Some (File bytes) /\
    contains_decl (string_of_list_byte bytes).
Proof.
  unfold locate_and_decompress, fs_read.
  change (walk dir mixbox_rel) with (input_at dir).
  destruct (fs_lookup d (input_at dir)) as [[bytes |] |]; try discriminate.
  destruct (lut_match _) as [body |] eqn:E; [| discriminate].
  intros _. exists bytes. split; [reflexivity |]. now apply (lut_match_sound _ body).
Qed.

(** C4. Exit codes.  The status is 0 or 1; it is 0 exactly when the run
    reaches the line that announces success, and 1 exactly when the run fails
    ([failure]); a failed run leaves an error on the console.  In particular
    the status is 1 when Node is not installed, when the snippet exits before
    decompressing (no declaration, no decompression code, an exception in it),
    when the declaration is missing, when the decompressed table is too small;
    an exception raised in the pipeline is caught, printed with its trace, and
    gives 1, and so does one that [os.chdir] raises. *)
Theorem exit_code_mapping (env : Env) (cwd0 : list string)
    (fs0 : gmap (list string) entry) :
  ((run_script env cwd0 fs0).1 = 0%Z \/ (run_script env cwd0 fs0).1 = 1%Z) /\
  ((run_script env cwd0 fs0).1 = 0%Z
   <-> Print success_line ∈ console (run_script env cwd0 fs0).2) /\
  ((run_script env cwd0 fs0).1 = 1%Z
   <-> failure env (script_dir env cwd0) (pristine fs0)) /\
  ((run_script env cwd0 fs0).1 = 1%Z ->
   Exists (fun ev => is_error_event ev = true) (console (run_script env cwd0 fs0).2)) /\
  (node_installed env = false -> (run_script env cwd0 fs0).1 = 1%Z) /\
  (forall done,
     locate_and_decompress (js_decompress env) (script_dir env cwd0) (pristine fs0)
     = inl done ->
     (run_script env cwd0 fs0).1 = 1%Z) /\
  (forall bytes,
     fs_lookup (pristine fs0) (input_at (script_dir env cwd0)) = Some (File bytes) ->
     ~ contains_decl (string_of_list_byte bytes) ->
     (run_script env cwd0 fs0).1 = 1%Z) /\
  (forall out2 lut,
     locate_and_decompress (js_decompress env) (script_dir env cwd0) (pristine fs0)
     = inr (out2, lut) ->
     (len lut < expectedSize)%Z ->
     (run_script env cwd0 fs0).1 = 1%Z) /\
  (forall e w1,
     is_dir (pristine fs0) (script_dir env cwd0) = true ->
     pipeline env (start_world (script_dir env cwd0) fs0) = (Raise e, w1) ->
     run_script env cwd0 fs0
     = (1%Z, say w1 [PrintErr (nl +:+ "[ERROR] " +:+ exn_str e); Traceback e])) /\
  (is_dir (pristine fs0) (script_dir env cwd0) = false ->
   exists e,
     run_script env cwd0 fs0
     = (1%Z, {| cwd := cwd0; disk := pristine fs0;
                console := banner ++ [Traceback e] |})).
Proof.
  pose proof (exit_status_failure env cwd0 fs0) as [Hfail _].
  pose proof (exception_caught env cwd0 fs0) as Hexn.
  pose proof (chdir_uncaught env cwd0 fs0) as Hchdir.
  destruct (run_script env cwd0 fs0) as [code w'] eqn:Hrun. cbn [fst snd] in *.
  pose proof Hrun as Hinv. apply run_script_inv in Hinv.
  assert (Hgood : code = 1%Z \/
                  (code = 0%Z /\ Print success_line ∈ console w' /\
                   exists lut buf,
                     completed env (script_dir env cwd0) (pristine fs0) lut buf)).
  { destruct Hinv as [(-> & _) | (-> & _ & _ & Hin & lut & buf & ps & Hco & _)];
      [now left | right; eauto]. }
  split; [tauto |]. split.
  { split.
    - intros ->. destruct Hgood as [? | (_ & Hin & _)]; [discriminate | exact Hin].
    - intros Hin. destruct Hinv as [(-> & _ & Hq & _) | (-> & _)]; [| reflexivity].
      exfalso. now apply (quiet_not_in _ Hq). }
  split; [exact Hfail |]. split.
  { intros ->. destruct Hinv as [(_ & _ & _ & Herr & _) | (Hc & _)];
      [exact Herr | discriminate]. }
  split.
  { intros Hnode. destruct Hgood as [? | (_ & _ & lut & buf & Hco)]; [assumption |].
    destruct Hco as [Hn _ _ _]. congruence. }
  split.
  { intros done Hloc. destruct Hgood as [? | (_ & _ & lut & buf & Hco)]; [assumption |].
    destruct Hco as [_ [out2 Hl] _ _]. congruence. }
  split.
  { intros bytes Hb Hnd. destruct Hgood as [? | (_ & _ & lut & buf & Hco)]; [assumption |].
    destruct Hco as [_ [out2 Hl] _ _].
    destruct (locate_pattern _ _ _ _ _ Hl) as (bytes' & Hb' & Hdecl).
    rewrite Hb in Hb'. injection Hb' as <-. contradiction. }
  split.
  { intros out2 lut Hloc Hsmall.
    destruct Hgood as [? | (_ & _ & lut' & buf & Hco)]; [assumption |].
    destruct Hco as [_ [out2' Hl] [log Hsel] _].
    rewrite Hloc in Hl. injection Hl as _ <-.
    rewrite (select_smaller lut Hsmall) in Hsel. discriminate. }
  split; [exact Hexn | exact Hchdir].
Qed.

Lemma exit_code_mapping_witness :
  (run_script (demo_env lut_short) ["home"] demo_tree).1 = 1%Z /\
  (run_script (demo_env lut_exact) ["home"] demo_tree).1 = 0%Z.
Proof.
  split.
  - destruct (demo_located lut_short) as [out2 Hloc].
    apply (exit_code_mapping (demo_env lut_short) ["home"] demo_tree) with out2 lut_short.
    + exact Hloc.
    + vm_compute. reflexivity.
  - destruct (known_good_success (demo_env lut_exact) ["home"] demo_tree lut_exact)
      as (w' & _ & _ & Hrun & _ & _ & _ & _ & _ & Hin).
    { apply demo_known_good. rewrite lut_exact_len. reflexivity. }
    apply (exit_code_mapping (demo_env lut_exact) ["home"] demo_tree).
    rewrite Hrun. exact Hin.
Defined.

Lemma status_of_run (env : Env) (cwd0 : list string)
    (fs0 : gmap (list string) entry) :
  run_script env cwd0 fs0
  = ((run_script env cwd0 fs0).1, (run_script env cwd0 fs0).2).
Proof. now destruct (run_script env cwd0 fs0). Qed.

(** C5. When the decompressed table is shorter than 786,432 bytes, the
    script exits with status 1 and the output file is never written: no write
    to its path is recorded at any point of the run. *)
Theorem too_small_fails (env : Env) (cwd0 : list string)
    (fs0 : gmap (list string) entry) (out2 : string) (lut : list byte) :
  locate_and_decompress (js_decompress env) (script_dir env cwd0) (pristine fs0)
  = inr (out2, lut) ->
  (len lut < expectedSize)%Z ->
  (run_script env cwd0 fs0).1 = 1%Z /\
  Wrote (output_at (script_dir env cwd0))
    ∉ journal (disk (run_script env cwd0 fs0).2).
Proof.
  intros Hloc Hsmall.
  assert (Hcode : (run_script env cwd0 fs0).1 = 1%Z).
  { destruct (run_script env cwd0 fs0) as [code w'] eqn:Hrun. cbn [fst].
    apply run_script_inv in Hrun.
    destruct Hrun as [(-> & _) | (_ & _ & _ & _ & lut' & buf & ps & Hco & _)];
      [reflexivity |].
    destruct Hco as [_ [out2' Hl] [log Hsel] _].
    rewrite Hloc in Hl. injection Hl as _ <-.
    rewrite (select_smaller lut Hsmall) in Hsel. discriminate. }
  split; [exact Hcode |].
  pose proof (status_of_run env cwd0 fs0) as Hrun. rewrite Hcode in Hrun.
  now apply failed_journal in Hrun.
Qed.

Lemma too_small_fails_witness :
  len lut_short = 100%Z /\
  (run_script (demo_env lut_short) ["home"] demo_tree).1 = 1%Z /\
  Wrote (output_at (script_dir (demo_env lut_short) ["home"]))
    ∉ journal (disk (run_script (demo_env lut_short) ["home"] demo_tree).2).
Proof.
  split; [exact lut_short_len |].
  destruct (demo_located lut_short) as [out2 Hloc].
  apply (too_small_fails (demo_env lut_short) ["home"] demo_tree out2 lut_short Hloc).
  vm_compute. reflexivity.
Defined.

(** The extraction when the snippet exits before it decompresses: the
    report of [run_extraction], with what the snippet wrote on its two
    streams. *)
Lemma run_extraction_exited (env : Env) (w : World) (done : Completed) :
  node_installed env = true ->
  fs_read (disk w) (snippet_at (cwd w)) = FsOk js_bytes ->
  locate_and_decompress (js_decompress env) (cwd w) (disk w) = inl done ->
  run_extraction env w
  = (Return false,
     say w [Print "Running Node.js extraction script...";
            PrintErr ("Error running extraction script: "
                      +:+ exn_str (CalledProcessError done));
            PrintErr ("stdout: " +:+ stdout done);
            PrintErr ("stderr: " +:+ stderr done)]).
Proof.
  intros Hnode Hsn Hloc.
  unfold run_extraction. rewrite bind_print. unfold try_except.
  rewrite bind_unfold. unfold subprocess_run. rewrite Hnode.
  cbn [cwd disk say]. unfold node.
  change (walk (cwd w) ["extract_lut.js"]) with (snippet_at (cwd w)).
  rewrite Hsn. fold js_bytes.
  destruct (decide (js_bytes = js_bytes)) as [_ | Hne]; [| congruence].
  unfold extract_lut_js. rewrite Hloc.
  rewrite (locate_inl _ _ _ _ Hloc). cbn [Z.eqb].
  rewrite !bind_print_err. unfold say, set_disk. cbn [cwd disk console mret Py_ret].
  rewrite <- !app_assoc. now destruct w.
Qed.

Lemma locate_no_decl (dec : JsRuntime)
    (dir : list string) (d : Disk) (bytes : list byte) :
  fs_lookup d (input_at dir) = Some (File bytes) ->
  ~ contains_decl (string_of_list_byte bytes) ->
  locate_and_decompress dec dir d
  = inl (exited 1 "" ("Could not find LUT data in mixbox.esm.js" +:+ nl)).
Proof.
  intros Hb Hnd. apply lut_match_none in Hnd.
  unfold locate_and_decompress, fs_read.
  change (walk dir mixbox_rel) with (input_at dir). now rewrite Hb, Hnd.
Qed.

(** With Node installed and the snippet in place, a third-party file without
    the declaration makes the script print the report of the snippet. *)
Lemma missing_pattern_report (env : Env) (cwd0 : list string)
    (fs0 : gmap (list string) entry) (bytes : list byte) :
  fs_lookup (pristine fs0) (input_at (script_dir env cwd0)) = Some (File bytes) ->
  ~ contains_decl (string_of_list_byte bytes) ->
  is_dir (pristine fs0) (script_dir env cwd0) = true ->
  not_a_dir (pristine fs0) (snippet_at (script_dir env cwd0)) = true ->
  node_installed env = true ->
  no_decl_report ∈ console (run_script env cwd0 fs0).2.
Proof.
  intros Hb Hnd Hdir Hsn Hnode.
  set (dir := script_dir env cwd0) in *.
  pose proof Hdir as Hl. apply is_dir_lookup in Hl.
  unfold run_script. change {| files := fs0; journal := [] |} with (pristine fs0).
  rewrite main_start. fold dir. rewrite Hl.
  unfold guarded_pipeline, try_except, pipeline.
  rewrite bind_print, bind_unfold.
  unfold create_extraction_script, open_write, os_call.
  cbn [cwd disk say start_world].
  change (resolve dir (relative ["extract_lut.js"])) with (snippet_at dir).
  fold js_bytes.
  rewrite fs_write_intro; [| exact Hsn | now rewrite removelast_snippet].
  rewrite !bind_print, bind_unfold.
  rewrite (run_extraction_exited env _
             (exited 1 "" ("Could not find LUT data in mixbox.esm.js" +:+ nl)));
    [| exact Hnode | |].
  - cbn [negb]. rewrite bind_print. cbn [snd console say set_disk mret Py_ret].
    unfold no_decl_report. cbn [stderr exited].
    repeat first [ apply list_elem_of_here
                 | apply list_elem_of_further
                 | apply elem_of_app; right
                 | apply elem_of_app; left; apply list_elem_of_here ].
  - cbn [cwd disk say set_disk]. unfold fs_read.
    rewrite fs_lookup_insert_eq; [reflexivity |].
    rewrite snippet_at_eq. now destruct dir.
  - cbn [cwd disk say set_disk]. apply (locate_no_decl _ _ _ bytes); [| exact Hnd].
    rewrite fs_lookup_insert_ne; [exact Hb |].
    intros E. symmetry in E. now apply input_neq_snippet in E.
Qed.

(** C6. When the third-party file does not hold the declaration, the script
    exits with status 1, an error is printed (the report of the snippet, when
    Node is installed and the snippet could be written), and the output file
    is never written. *)
Theorem missing_pattern_fails (env : Env) (cwd0 : list string)
    (fs0 : gmap (list string) entry) (bytes : list byte) :
  fs_lookup (pristine fs0) (input_at (script_dir env cwd0)) = Some (File bytes) ->
  ~ contains_decl (string_of_list_byte bytes) ->
  (run_script env cwd0 fs0).1 = 1%Z /\
  Exists (fun ev => is_error_event ev = true)
         (console (run_script env cwd0 fs0).2) /\
  (is_dir (pristine fs0) (script_dir env cwd0) = true ->
   not_a_dir (pristine fs0) (snippet_at (script_dir env cwd0)) = true ->
   node_installed env = true ->
   no_decl_report ∈ console (run_script env cwd0 fs0).2) /\
  Wrote (output_at (script_dir env cwd0))
    ∉ journal (disk (run_script env cwd0 fs0).2).
Proof.
  intros Hb Hnd.
  assert (Hcode : (run_script env cwd0 fs0).1 = 1%Z).
  { destruct (run_script env cwd0 fs0) as [code w'] eqn:Hrun. cbn [fst].
    apply run_script_inv in Hrun.
    destruct Hrun as [(-> & _) | (_ & _ & _ & _ & lut' & buf & ps & Hco & _)];
      [reflexivity |].
    destruct Hco as [_ [out2 Hl] _ _].
    destruct (locate_pattern _ _ _ _ _ Hl) as (bytes' & Hb' & Hdecl).
    rewrite Hb in Hb'. injection Hb' as <-. contradiction. }
  split; [exact Hcode |].
  pose proof (status_of_run env cwd0 fs0) as Hrun. rewrite Hcode in Hrun.
  apply failed_journal in Hrun.
  split; [tauto |]. split; [| tauto].
  now apply missing_pattern_report with bytes.
Qed.

Lemma bare_code_no_decl : ~ contains_decl bare_code.
Proof. apply lut_match_none. vm_compute. reflexivity. Qed.

Lemma missing_pattern_fails_witness :
  (run_script (demo_env lut_exact) ["home"] bare_tree).1 = 1%Z /\
  no_decl_report ∈ console (run_script (demo_env lut_exact) ["home"] bare_tree).2 /\
  Wrote (output_at (script_dir (demo_env lut_exact) ["home"]))
    ∉ journal (disk (run_script (demo_env lut_exact) ["home"] bare_tree).2).
Proof.
  destruct (missing_pattern_fails (demo_env lut_exact) ["home"] bare_tree
              (list_byte_of_string bare_code)) as (H1 & _ & H3 & H4).
  - vm_compute. reflexivity.
  - rewrite string_of_list_byte_of_string. exact bare_code_no_decl.
  - split; [exact H1 |]. split; [| exact H4].
    apply H3; vm_compute; reflexivity.
Defined.

(** C7. Intermediate files.  After a successful run neither the snippet nor
    the raw binary exists, and both removals are on record.  A run that fails
    removes nothing, and if it wrote the snippet, the snippet is still there
    at exit with the text that was written. *)
Theorem temp_file_lifecycle (env : Env) (cwd0 : list string)
    (fs0 : gmap (list string) entry) :
  ((run_script env cwd0 fs0).1 = 0%Z ->
   fs_lookup (disk (run_script env cwd0 fs0).2) (snippet_at (script_dir env cwd0))
   = None /\
   fs_lookup (disk (run_script env cwd0 fs0).2) (raw_at (script_dir env cwd0))
   = None /\
   Removed (snippet_at (script_dir env cwd0))
     ∈ journal (disk (run_script env cwd0 fs0).2) /\
   Removed (raw_at (script_dir env cwd0))
     ∈ journal (disk (run_script env cwd0 fs0).2)) /\
  ((run_script env cwd0 fs0).1 <> 0%Z ->
   (forall p, Removed p ∉ journal (disk (run_script env cwd0 fs0).2)) /\
   (Wrote (snippet_at (script_dir env cwd0))
      ∈ journal (disk (run_script env cwd0 fs0).2) ->
    fs_lookup (disk (run_script env cwd0 fs0).2) (snippet_at (script_dir env cwd0))
    = Some (File js_bytes))).
Proof.
  destruct (run_script env cwd0 fs0) as [code w'] eqn:Hrun. cbn [fst snd].
  pose proof Hrun as Hinv. apply run_script_inv in Hinv.
  destruct Hinv as [(-> & _) | (-> & _ & _ & _ & lut & buf & ps & _ & _
                                & Hsp & Hrp & _ & Hj)].
  - split; [discriminate |]. intros _.
    apply failed_journal in Hrun. tauto.
  - split; [| congruence]. intros _.
    split; [exact Hsp |]. split; [exact Hrp |]. rewrite Hj.
    split; rewrite !elem_of_app, !elem_of_cons; tauto.
Qed.

Lemma temp_file_lifecycle_witness :
  (fs_lookup (disk (run_script (demo_env lut_exact) ["home"] demo_tree).2)
     (snippet_at (script_dir (demo_env lut_exact) ["home"])) = None /\
   fs_lookup (disk (run_script (demo_env lut_exact) ["home"] demo_tree).2)
     (raw_at (script_dir (demo_env lut_exact) ["home"])) = None) /\
  fs_lookup (disk (run_script (demo_env lut_short) ["home"] demo_tree).2)
    (snippet_at (script_dir (demo_env lut_short) ["home"]))
  = Some (File js_bytes).
Proof.
  split.
  - destruct (known_good_success (demo_env lut_exact) ["home"] demo_tree lut_exact)
      as (w' & _ & _ & Hrun & _).
    { apply demo_known_good. rewrite lut_exact_len. reflexivity. }
    destruct (temp_file_lifecycle (demo_env lut_exact) ["home"] demo_tree)
      as [Hok _].
    rewrite Hrun in Hok. cbn [fst snd] in Hok. rewrite Hrun. cbn [snd].
    destruct Hok as (H1 & H2 & _); [reflexivity | now split].
  - apply (temp_file_lifecycle (demo_env lut_short) ["home"] demo_tree).
    + vm_compute. discriminate.
    + vm_compute. apply list_elem_of_here.
Defined.

(** ** The generated text, line by line *)

Lemma last_char_app (a b : string) (c : ascii) :
  last_char b = Some c -> last_char (a +:+ b) = Some c.
Proof.
  intros Hb. induction a as [| x a IH]; [exact Hb |].
  rewrite sapp_cons. cbn [last_char].
  destruct (a +:+ b) as [| y s] eqn:E; [discriminate | exact IH].
Qed.

Lemma byte_str_last_digit (b : byte) :
  exists c, last_char (byte_str b) = Some c /\ is_digit c = true.
Proof. destruct b; eexists; split; reflexivity. Qed.

Lemma join_last_digit (bs : list byte) (b : byte) :
  exists c, last_char (join ", " (map byte_str (b :: bs))) = Some c /\
            is_digit c = true.
Proof.
  revert b. induction bs as [| b' bs IH]; intros b.
  - cbn [map]. rewrite join_single. apply byte_str_last_digit.
  - destruct (IH b') as (c & Hc & Hd). exists c. split; [| exact Hd].
    cbn [map] in *. rewrite join_cons2. now do 2 apply last_char_app.
Qed.

Lemma render_last_digit (chunk : list byte) :
  chunk <> [] ->
  exists c, last_char (render chunk) = Some c /\ is_digit c = true.
Proof.
  intros Hne. destruct chunk as [| b bs]; [congruence |].
  destruct (join_last_digit bs b) as (c & Hc & Hd).
  exists c. split; [| exact Hd]. unfold render. now apply last_char_app.
Qed.

Lemma prefix_two_blanks (s : string) :
  String.prefix "  " (String " " (String " " s)) = true.
Proof. destruct s; reflexivity. Qed.

Lemma data_lines_length (lut_data : list byte) :
  length (data_lines lut_data) = ((length lut_data + 15) / 16)%nat.
Proof. unfold data_lines. now rewrite length_map, py_range_length. Qed.

Lemma chunk_length (lut_data : list byte) (k : nat) :
  (k < length (data_lines lut_data))%nat ->
  (0 < length (take 16 (drop (16 * k) lut_data)) <= 16)%nat /\
  ((S k < length (data_lines lut_data))%nat ->
   length (take 16 (drop (16 * k) lut_data)) = 16%nat).
Proof.
  rewrite data_lines_length, length_take, length_drop.
  pose proof (Nat.div_mod_eq (length lut_data + 15) 16) as Hq.
  pose proof (Nat.mod_upper_bound (length lut_data + 15) 16) as Hr.
  lia.
Qed.

(** A table of the expected size fills 49,152 lines of exactly 16 values. *)
Lemma normalized_lines (lut_data : list byte) :
  len lut_data = expectedSize ->
  Z.of_nat (length (data_lines lut_data)) = 49152%Z /\
  forall k, (k < length (data_lines lut_data))%nat ->
            length (take 16 (drop (16 * k) lut_data)) = 16%nat.
Proof.
  unfold len, expectedSize. intros Hn.
  rewrite data_lines_length.
  pose proof (Nat.div_mod_eq (length lut_data + 15) 16) as Hq.
  pose proof (Nat.mod_upper_bound (length lut_data + 15) 16) as Hr.
  split; [lia |]. intros k Hk. rewrite length_take, length_drop. lia.
Qed.

Lemma join_comma_blank (values : list string) :
  join ", " values = comma_blank_separated values.
Proof.
  induction values as [| v rest IH]; [reflexivity |].
  destruct rest as [| v' rest]; [reflexivity |].
  rewrite join_cons2, IH. reflexivity.
Qed.

Lemma byte_str_digits (b : byte) : byte_str b <> "" /\ all_digits (byte_str b) = true.
Proof. destruct b; split; (discriminate || reflexivity). Qed.

(** C10. Layout of the data lines of a non-empty table.  The line of index
    [k] is, in this order: two blanks; the values of its chunk, each one a
    non-empty decimal numeral, with a comma and a blank between one value and
    the next ([comma_blank_separated], which is what [join] yields); a comma
    if the line is not the last; the end of line.  So each line starts with
    two blanks, every line but the last ends with a comma before the end of
    line, and the last line ends with a digit, with no comma after it. *)
Theorem line_layout (lut_data : list byte) :
  lut_data <> [] ->
  dart_code lut_data
  = dart_header +:+ flat (data_lines lut_data) +:+ "];" +:+ nl /\
  data_lines lut_data <> [] /\
  forall k line, data_lines lut_data !! k = Some line ->
    let chunk := take 16 (drop (16 * k) lut_data) in
    chunk <> [] /\
    String.prefix "  " line = true /\
    ((S k < length (data_lines lut_data))%nat ->
     line = "  " +:+ join ", " (map byte_str chunk) +:+ "," +:+ nl) /\
    (S k = length (data_lines lut_data) ->
     line = "  " +:+ join ", " (map byte_str chunk) +:+ nl /\
     exists c, last_char ("  " +:+ join ", " (map byte_str chunk)) = Some c /\
               is_digit c = true) /\
    (forall v, v ∈ map byte_str chunk -> v <> "" /\ all_digits v = true) /\
    line = "  " +:+ comma_blank_separated (map byte_str chunk)
           +:+ (if (S k <? length (data_lines lut_data))%nat then "," else "")
           +:+ nl.
Proof.
  intros Hne. split; [apply dart_code_flat |]. split.
  - rewrite data_lines_cons by exact Hne. discriminate.
  - intros k line Hk chunk. apply data_lines_lookup in Hk.
    destruct Hk as [Hlt Hline]. fold chunk in Hline.
    destruct (chunk_length lut_data k Hlt) as [Hlen _]. fold chunk in Hlen.
    assert (Hc : chunk <> []) by (intros E; rewrite E in Hlen; simpl in Hlen; lia).
    split; [exact Hc |]. split; [| split; [| split; [| split]]].
    + rewrite Hline. unfold render. rewrite !sapp_assoc, !sapp_cons.
      apply prefix_two_blanks.
    + intros H. apply Nat.ltb_lt in H. rewrite H in Hline.
      rewrite Hline. unfold render. now rewrite !sapp_assoc.
    + intros H. assert (Hf : (S k <? length (data_lines lut_data))%nat = false)
        by (apply Nat.ltb_ge; lia).
      rewrite Hf in Hline. split.
      * rewrite Hline. unfold render. now rewrite !sapp_assoc.
      * apply (render_last_digit chunk Hc).
    + intros v Hv. apply elem_of_map in Hv. destruct Hv as (b & -> & _).
      apply byte_str_digits.
    + rewrite Hline. unfold render. rewrite join_comma_blank.
      destruct (S k <? length (data_lines lut_data))%nat.
      * now rewrite !sapp_assoc.
      * now rewrite !sapp_assoc, sapp_nil_l.
Qed.

Lemma line_layout_witness :
  dart_code lut_tiny
  = dart_header +:+ flat (data_lines lut_tiny) +:+ "];" +:+ nl /\
  data_lines lut_tiny <> [] /\
  exists line,
    data_lines lut_tiny !! 2%nat = Some line /\
    line = "  42, 42, 42" +:+ nl.
Proof.
  destruct (line_layout lut_tiny) as (H1 & H2 & Hl).
  - vm_compute. discriminate.
  - split; [exact H1 |]. split; [exact H2 |].
    destruct (data_lines lut_tiny !! 2%nat) as [line |] eqn:E;
      [| vm_compute in E; discriminate].
    exists line. split; [reflexivity |].
    destruct (Hl 2%nat line E) as (_ & _ & _ & _ & _ & ->).
    vm_compute. reflexivity.
Defined.

(** ** The formatter on a writable tree *)

Lemma convert_result (w : World) (data : list byte) :
  fs_read (disk w) (raw_at (cwd w)) = FsOk data ->
  output_writable (disk w) (cwd w) ->
  exists w',
    convert_to_dart w = (Return tt, w') /\
    fs_lookup (disk w') (output_at (cwd w))
    = Some (File (list_byte_of_string (dart_code data))) /\
    fs_lookup (disk w') (output_dir_at (cwd w)) = Some Dir /\
    (fs_lookup (disk w) (output_dir_at (cwd w)) = None ->
     MadeDir (output_dir_at (cwd w)) ∈ journal (disk w')) /\
    Wrote (output_at (cwd w)) ∈ journal (disk w').
Proof.
  intros Hread Hok.
  destruct (convert_to_dart w) as [[[] | e] w'] eqn:Hconv.
  2:{ exfalso. exact (convert_ok w data Hread Hok e w' Hconv). }
  exists w'. split; [reflexivity |].
  apply convert_inv in Hconv.
  destruct Hconv as (_ & evs & d1 & _ & _ & [(ps & Hj & Hsame) Hpres] & data' & Hread' & Hw).
  rewrite Hread in Hread'. injection Hread' as <-.
  destruct (fs_write_effect _ _ _ _ Hw) as (Hout & Hfr & Hjw & Hpar).
  rewrite removelast_output in Hpar.
  split; [exact Hout |]. split; [| split].
  - rewrite Hfr; [exact Hpar | apply output_dir_neq_output].
  - intros Hnone. rewrite Hjw, Hj. apply elem_of_app. left. apply elem_of_app. right.
    destruct (decide (output_dir_at (cwd w) ∈ ps)) as [Hin | Hnin].
    + apply list_elem_of_In, in_map, list_elem_of_In, Hin.
    + rewrite (Hsame _ Hnin) in Hpar. congruence.
  - rewrite Hjw. apply elem_of_app. right. apply list_elem_of_here.
Qed.

Lemma byte_str_decimal (b : byte) :
  option_map N.of_uint (NilEmpty.uint_of_string (byte_str b)) = Some (Byte.to_N b).
Proof.
  unfold byte_str, str. rewrite NilEmpty.usu. cbn [option_map].
  now rewrite DecimalN.Unsigned.of_to.
Qed.

(** C8. The formatter.  On a tree where the output can be written,
    [convert_to_dart] returns; the output file, at the fixed path
    [../lib/utils/mixbox_lut_data.dart] below the working directory, holds
    the generated text; its directory exists afterwards and was created if it
    did not.  The text is the header (comment lines, then the declaration of
    [mixboxLutData]), the data lines and the closing line; the line of index
    [k] renders the [k]-th chunk of at most 16 bytes (exactly 16 for all but
    the last line, and exactly 16 on each of the 49,152 lines of a table of
    the expected size) in decimal, separated by commas; read back, the
    entries are the bytes. *)
Theorem formatter_contract (w : World) (lut_data : list byte) :
  fs_read (disk w) (raw_at (cwd w)) = FsOk lut_data ->
  output_writable (disk w) (cwd w) ->
  exists w',
    convert_to_dart w = (Return tt, w') /\
    output_at (cwd w)
    = removelast (cwd w) ++ ["lib"; "utils"; "mixbox_lut_data.dart"] /\
    fs_lookup (disk w') (output_at (cwd w))
    = Some (File (list_byte_of_string (dart_code lut_data))) /\
    fs_lookup (disk w') (output_dir_at (cwd w)) = Some Dir /\
    (fs_lookup (disk w) (output_dir_at (cwd w)) = None ->
     MadeDir (output_dir_at (cwd w)) ∈ journal (disk w')) /\
    dart_code lut_data
    = dart_header +:+ flat (data_lines lut_data) +:+ "];" +:+ nl /\
    (exists comments,
       dart_header = lines (comments ++ ["const List<int> mixboxLutData = ["]) /\
       comments <> [] /\
       Forall (fun l => l = "" \/ String.prefix "//" l = true) comments) /\
    (forall k line, data_lines lut_data !! k = Some line ->
       line = "  " +:+ join ", " (map byte_str (take 16 (drop (16 * k) lut_data)))
              +:+ (if (S k <? length (data_lines lut_data))%nat then "," else "")
              +:+ nl /\
       (0 < length (take 16 (drop (16 * k) lut_data)) <= 16)%nat /\
       ((S k < length (data_lines lut_data))%nat ->
        length (take 16 (drop (16 * k) lut_data)) = 16%nat)) /\
    (len lut_data = expectedSize ->
     Z.of_nat (length (data_lines lut_data)) = 49152%Z /\
     forall k, (k < length (data_lines lut_data))%nat ->
               length (take 16 (drop (16 * k) lut_data)) = 16%nat) /\
    (forall b, option_map N.of_uint (NilEmpty.uint_of_string (byte_str b))
               = Some (Byte.to_N b)) /\
    array_entries (dart_code lut_data) = Some (map Byte.to_N lut_data).
Proof.
  intros Hread Hok.
  destruct (convert_result w lut_data Hread Hok) as (w' & Hrun & Hout & Hdir & Hmk & _).
  exists w'. split; [exact Hrun |]. split; [apply output_at_eq |].
  split; [exact Hout |]. split; [exact Hdir |]. split; [exact Hmk |].
  split; [apply dart_code_flat |]. split.
  { eexists (removelast _). split; [| split].
    - unfold dart_header. f_equal.
      match goal with
      | |- ?l = _ => rewrite (app_removelast_last (l := l) "");
                     [reflexivity | discriminate]
      end.
    - discriminate.
    - cbn [removelast]. repeat constructor; (now left) || (now right). }
  split.
  { intros k line Hk. apply data_lines_lookup in Hk. destruct Hk as [Hlt Hline].
    split; [| now apply chunk_length].
    rewrite Hline. unfold render. now rewrite !sapp_assoc. }
  split; [apply normalized_lines |].
  split; [apply byte_str_decimal | apply array_entries_dart_code].
Qed.

Lemma formatter_contract_witness :
  exists w',
    convert_to_dart formatter_world = (Return tt, w') /\
    fs_lookup (disk w') (output_at (cwd formatter_world))
    = Some (File (list_byte_of_string (dart_code lut_tiny))) /\
    fs_lookup (disk w') (output_dir_at (cwd formatter_world)) = Some Dir /\
    MadeDir (output_dir_at (cwd formatter_world)) ∈ journal (disk w').
Proof.
  destruct (formatter_contract formatter_world lut_tiny)
    as (w' & Hrun & _ & Hout & Hdir & Hmk & _).
  - vm_compute. reflexivity.
  - split; vm_compute; reflexivity.
  - exists w'. split; [exact Hrun |]. split; [exact Hout |]. split; [exact Hdir |].
    apply Hmk. vm_compute. reflexivity.
Defined.

(** ** The directory of the script *)

Lemma plain_removelast (p : list string) : plain p -> plain (removelast p).
Proof.
  unfold plain. induction p as [| a p IH]; intros H; [constructor |].
  inversion H as [| ? ? Ha Hp]; subst.
  destruct p as [| b p]; [constructor |].
  cbn [removelast]. constructor; [exact Ha | now apply IH].
Qed.

Lemma walk_plain (cs base : list string) : plain base -> plain (walk base cs).
Proof.
  revert base. induction cs as [| c cs IH]; intros base Hb; [exact Hb |].
  cbn [walk].
  destruct (String.eqb c "..") eqn:E1; [now apply IH, plain_removelast |].
  destruct (String.eqb c ".") eqn:E2; [now apply IH |].
  destruct (String.eqb c "") eqn:E3; [now apply IH |].
  apply IH. apply Forall_app. split; [exact Hb |].
  apply String.eqb_neq in E1, E2, E3. repeat constructor; assumption.
Qed.

Lemma walk_of_plain (cs base : list string) : plain cs -> walk base cs = base ++ cs.
Proof.
  revert base. induction cs as [| c cs IH]; intros base Hc.
  - now rewrite app_nil_r.
  - inversion Hc as [| ? ? (H1 & H2 & H3) Hcs]; subst. cbn [walk].
    apply String.eqb_neq in H1, H2, H3. rewrite H1, H2, H3. cbn [orb].
    rewrite IH by exact Hcs. now rewrite <- app_assoc.
Qed.

(** Started in a normalised directory, [script_dir] is the parent of the
    absolute path of the script. *)
Lemma script_dir_parent (env : Env) (cwd0 : list string) :
  plain cwd0 ->
  script_dir env cwd0 = removelast (resolve cwd0 (script_file env)).
Proof.
  intros Hp. unfold script_dir, resolve at 1. cbn [absolute parts os_path_dirname].
  apply (walk_of_plain _ []). apply plain_removelast. unfold resolve.
  apply walk_plain. destruct (absolute (script_file env)); [constructor | exact Hp].
Qed.

(** The environment of the same script under another [__file__]. *)
Lemma same_script_same_run (env : Env) (cwd0 : list string)
    (fs0 : gmap (list string) entry) (file' : pathname) (cwd' : list string) :
  script_dir {| script_file := file'; node_installed := node_installed env;
                js_decompress := js_decompress env |} cwd'
  = script_dir env cwd0 ->
  is_dir (pristine fs0) (script_dir env cwd0) = true ->
  run_script {| script_file := file'; node_installed := node_installed env;
                js_decompress := js_decompress env |} cwd' fs0
  = run_script env cwd0 fs0.
Proof.
  intros Hsame Hdir. apply is_dir_lookup in Hdir.
  unfold run_script. change {| files := fs0; journal := [] |} with (pristine fs0).
  rewrite !main_start, Hsame, Hdir. reflexivity.
Qed.

(** For a script named by an absolute path the directory of the script is
    the same wherever the process is started. *)
Lemma script_dir_absolute (env : Env) (cwd0 cwd' : list string) :
  absolute (script_file env) = true ->
  script_dir env cwd' = script_dir env cwd0.
Proof.
  intros H. unfold script_dir, resolve. cbn [absolute parts os_path_dirname].
  now rewrite H.
Qed.

(** Every change that a run makes to the disk, with the paths written out
    from the directory of the script. *)
Lemma run_journal_paths (env : Env) (cwd0 : list string)
    (fs0 : gmap (list string) entry) (op : fs_op) :
  op ∈ journal (disk (run_script env cwd0 fs0).2) ->
  op = Wrote (script_dir env cwd0 ++ ["extract_lut.js"]) \/
  op = Wrote (script_dir env cwd0 ++ ["mixbox_lut_raw.bin"]) \/
  op = Wrote (removelast (script_dir env cwd0)
              ++ ["lib"; "utils"; "mixbox_lut_data.dart"]) \/
  op = Removed (script_dir env cwd0 ++ ["extract_lut.js"]) \/
  op = Removed (script_dir env cwd0 ++ ["mixbox_lut_raw.bin"]) \/
  exists p, op = MadeDir p.
Proof.
  set (dir := script_dir env cwd0).
  destruct (run_script env cwd0 fs0) as [code w'] eqn:Hrun. cbn [snd].
  apply run_script_inv in Hrun. fold dir in Hrun.
  rewrite snippet_at_eq, raw_at_eq in Hrun.
  destruct Hrun as [(_ & _ & _ & _ & Hj) | (_ & _ & _ & _ & lut & buf & ps & _ & _
                                            & _ & _ & _ & Hj)].
  - intros Hin. destruct Hj as [Hj | [_ [Hj | [ps Hj]]]]; rewrite Hj in Hin.
    + now apply elem_of_nil in Hin.
    + apply list_elem_of_singleton in Hin. now left.
    + apply elem_of_app in Hin. destruct Hin as [Hin | Hin].
      * rewrite !elem_of_cons in Hin.
        destruct Hin as [-> | [-> | Hin]]; [tauto | tauto |].
        now apply elem_of_nil in Hin.
      * apply elem_of_map in Hin. destruct Hin as (p & -> & _). eauto 10.
  - rewrite output_at_eq in Hj. rewrite Hj. rewrite !elem_of_app. intros Hin.
    destruct Hin as [Hin | [Hin | Hin]].
    + rewrite !elem_of_cons in Hin.
      destruct Hin as [-> | [-> | Hin]]; [tauto | tauto |].
      now apply elem_of_nil in Hin.
    + apply elem_of_map in Hin. destruct Hin as (p & -> & _). eauto 10.
    + rewrite !elem_of_cons in Hin.
      destruct Hin as [-> | [-> | [-> | Hin]]]; [tauto | tauto | tauto |].
      now apply elem_of_nil in Hin.
Qed.

(** Where a successful run found its input and left its output. *)
Lemma run_success_paths (env : Env) (cwd0 : list string)
    (fs0 : gmap (list string) entry) :
  (run_script env cwd0 fs0).1 = 0%Z ->
  (exists ps,
     journal (disk (run_script env cwd0 fs0).2)
     = [Wrote (script_dir env cwd0 ++ ["extract_lut.js"]);
        Wrote (script_dir env cwd0 ++ ["mixbox_lut_raw.bin"])]
       ++ map MadeDir ps
       ++ [Wrote (removelast (script_dir env cwd0)
                  ++ ["lib"; "utils"; "mixbox_lut_data.dart"]);
           Removed (script_dir env cwd0 ++ ["extract_lut.js"]);
           Removed (script_dir env cwd0 ++ ["mixbox_lut_raw.bin"])]) /\
  fs_lookup (disk (run_script env cwd0 fs0).2)
    (removelast (script_dir env cwd0) ++ ["lib"; "utils"]) = Some Dir /\
  (exists buf,
     fs_lookup (disk (run_script env cwd0 fs0).2)
       (removelast (script_dir env cwd0) ++ ["lib"; "utils"; "mixbox_lut_data.dart"])
     = Some (File (list_byte_of_string (dart_code buf)))) /\
  (exists bytes,
     fs_lookup (pristine fs0)
       (removelast (script_dir env cwd0)
        ++ ["reference-mixbox"; "mixbox-master"; "javascript"; "mixbox.esm.js"])
     = Some (File bytes) /\
     contains_decl (string_of_list_byte bytes)).
Proof.
  set (dir := script_dir env cwd0).
  destruct (run_script env cwd0 fs0) as [code w'] eqn:Hrun. cbn [fst snd].
  intros ->. apply run_script_inv in Hrun. fold dir in Hrun.
  destruct Hrun as [(Hc & _) | (_ & _ & _ & _ & lut & buf & ps & Hco & Ho & _
                                & _ & Hd & Hj)]; [discriminate |].
  rewrite snippet_at_eq, raw_at_eq, output_at_eq in Hj.
  rewrite output_at_eq in Ho. rewrite output_dir_at_eq in Hd.
  split; [now exists ps |]. split; [exact Hd |]. split; [now exists buf |].
  destruct Hco as [_ [out2 Hloc] _ _].
  apply locate_pattern in Hloc. now rewrite input_at_eq in Hloc.
Qed.

(** C9. [main] first moves to the directory of the script ([script_dir],
    the parent of the absolute path of [__file__]): when that directory
    exists, the [try] block runs in a world whose working directory
    it is, and the process ends there after a successful run; when it does
    not, no stage runs and nothing is changed.  The run then depends on where
    the script is and not on where it was started from: started in another
    directory under a name that denotes the same script directory, the process
    ends with the same status, disk and console, and a script named by an
    absolute path has the same script directory wherever it is started.

    The relative names of the program are resolved in that directory.  With
    [dir] the directory of the script and [up] its parent: whatever the run
    writes or removes is [dir/extract_lut.js], [dir/mixbox_lut_raw.bin] or
    [up/lib/utils/mixbox_lut_data.dart], and the rest of its changes are
    directories made; a successful run wrote the snippet and the raw binary at
    the first two, then the output file at the third, then removed the first
    two, in this order; it leaves the directory [up/lib/utils] and the Dart
    text in [up/lib/utils/mixbox_lut_data.dart]; and the third-party file it
    read is
    [up/reference-mixbox/mixbox-master/javascript/mixbox.esm.js], a file of
    the tree that holds the declaration. *)
Theorem runs_in_script_directory (env : Env) (cwd0 : list string)
    (fs0 : gmap (list string) entry) :
  (plain cwd0 ->
   script_dir env cwd0 = removelast (resolve cwd0 (script_file env))) /\
  (is_dir (pristine fs0) (script_dir env cwd0) = true ->
   main env {| cwd := cwd0; disk := pristine fs0; console := [] |}
   = guarded_pipeline env (start_world (script_dir env cwd0) fs0) /\
   cwd (start_world (script_dir env cwd0) fs0) = script_dir env cwd0) /\
  ((run_script env cwd0 fs0).1 = 0%Z ->
   cwd (run_script env cwd0 fs0).2 = script_dir env cwd0) /\
  (is_dir (pristine fs0) (script_dir env cwd0) = false ->
   disk (run_script env cwd0 fs0).2 = pristine fs0) /\
  (forall file' cwd',
     script_dir {| script_file := file'; node_installed := node_installed env;
                   js_decompress := js_decompress env |} cwd'
     = script_dir env cwd0 ->
     is_dir (pristine fs0) (script_dir env cwd0) = true ->
     run_script {| script_file := file'; node_installed := node_installed env;
                   js_decompress := js_decompress env |} cwd' fs0
     = run_script env cwd0 fs0) /\
  (forall cwd',
     absolute (script_file env) = true ->
     script_dir env cwd' = script_dir env cwd0) /\
  (forall op,
     op ∈ journal (disk (run_script env cwd0 fs0).2) ->
     op = Wrote (script_dir env cwd0 ++ ["extract_lut.js"]) \/
     op = Wrote (script_dir env cwd0 ++ ["mixbox_lut_raw.bin"]) \/
     op = Wrote (removelast (script_dir env cwd0)
                 ++ ["lib"; "utils"; "mixbox_lut_data.dart"]) \/
     op = Removed (script_dir env cwd0 ++ ["extract_lut.js"]) \/
     op = Removed (script_dir env cwd0 ++ ["mixbox_lut_raw.bin"]) \/
     exists p, op = MadeDir p) /\
  ((run_script env cwd0 fs0).1 = 0%Z ->
   (exists ps,
      journal (disk (run_script env cwd0 fs0).2)
      = [Wrote (script_dir env cwd0 ++ ["extract_lut.js"]);
         Wrote (script_dir env cwd0 ++ ["mixbox_lut_raw.bin"])]
        ++ map MadeDir ps
        ++ [Wrote (removelast (script_dir env cwd0)
                   ++ ["lib"; "utils"; "mixbox_lut_data.dart"]);
            Removed (script_dir env cwd0 ++ ["extract_lut.js"]);
            Removed (script_dir env cwd0 ++ ["mixbox_lut_raw.bin"])]) /\
   fs_lookup (disk (run_script env cwd0 fs0).2)
     (removelast (script_dir env cwd0) ++ ["lib"; "utils"]) = Some Dir /\
   (exists buf,
      fs_lookup (disk (run_script env cwd0 fs0).2)
        (removelast (script_dir env cwd0) ++ ["lib"; "utils"; "mixbox_lut_data.dart"])
      = Some (File (list_byte_of_string (dart_code buf)))) /\
   (exists bytes,
      fs_lookup (pristine fs0)
        (removelast (script_dir env cwd0)
         ++ ["reference-mixbox"; "mixbox-master"; "javascript"; "mixbox.esm.js"])
      = Some (File bytes) /\
      contains_decl (string_of_list_byte bytes))).
Proof.
  split; [apply script_dir_parent |]. split; [| split; [| split; [| split]]].
  - intros Hdir. apply is_dir_lookup in Hdir. rewrite main_start, Hdir. now split.
  - destruct (run_script env cwd0 fs0) as [code w'] eqn:Hrun. cbn [fst snd].
    intros ->. apply run_script_inv in Hrun.
    destruct Hrun as [(Hc & _) | (_ & Hcwd & _)]; [discriminate | exact Hcwd].
  - intros Hdir. destruct (chdir_uncaught env cwd0 fs0 Hdir) as [e ->]. reflexivity.
  - apply same_script_same_run.
  - split; [intros cwd'; apply script_dir_absolute |]. split.
    + apply run_journal_paths.
    + apply run_success_paths.
Qed.

Lemma runs_in_script_directory_witness :
  script_dir (demo_env lut_short) ["home"] = ["home"; "proj"; "scripts"] /\
  run_script (demo_env_abs lut_short) ["tmp"] demo_tree
  = run_script (demo_env lut_short) ["home"] demo_tree /\
  script_dir (demo_env_abs lut_exact) ["tmp"] = ["home"; "proj"; "scripts"] /\
  exists ps,
    journal (disk (run_script (demo_env lut_exact) ["home"] demo_tree).2)
    = [Wrote ["home"; "proj"; "scripts"; "extract_lut.js"];
       Wrote ["home"; "proj"; "scripts"; "mixbox_lut_raw.bin"]]
      ++ map MadeDir ps
      ++ [Wrote ["home"; "proj"; "lib"; "utils"; "mixbox_lut_data.dart"];
          Removed ["home"; "proj"; "scripts"; "extract_lut.js"];
          Removed ["home"; "proj"; "scripts"; "mixbox_lut_raw.bin"]].
Proof.
  split; [vm_compute; reflexivity |]. split; [| split].
  - apply (runs_in_script_directory (demo_env lut_short) ["home"] demo_tree).
    + vm_compute. reflexivity.
    + vm_compute. reflexivity.
  - rewrite (proj1 (proj2 (proj2 (proj2 (proj2 (proj2
               (runs_in_script_directory (demo_env_abs lut_exact) ["home"] demo_tree))))))
               ["tmp"] eq_refl).
    vm_compute. reflexivity.
  - destruct (runs_in_script_directory (demo_env lut_exact) ["home"] demo_tree)
      as (_ & _ & _ & _ & _ & _ & _ & Hok).
    destruct Hok as ((ps & Hj) & _).
    + destruct (known_good_success (demo_env lut_exact) ["home"] demo_tree lut_exact)
        as (w' & buf & log & Hrun & _).
      * apply demo_known_good. rewrite lut_exact_len. reflexivity.
      * now rewrite Hrun.
    + exists ps. exact Hj.
Defined.

(** * Further properties of the code *)

(** ** The snippet: what the pattern captures *)

Lemma match_here_decl (s body : string) :
  match_here s = Some body <-> exists post, decl_at s "" body post.
Proof.
  unfold decl_at. split.
  - intros H. apply match_here_sound in H. destruct H as (post & -> & H1 & H2).
    exists post. now rewrite sapp_nil_l.
  - intros (post & -> & H1 & H2). rewrite sapp_nil_l.
    now apply match_here_complete.
Qed.

Lemma decl_at_cons (c : ascii) (s pre body post : string) :
  decl_at (String c s) (String c pre) body post <-> decl_at s pre body post.
Proof.
  unfold decl_at. rewrite sapp_cons. split.
  - intros ([= ->] & H1 & H2). now repeat split.
  - intros (-> & H1 & H2). now repeat split.
Qed.

Lemma decl_at_head (c c' : ascii) (s pre body post : string) :
  decl_at (String c s) (String c' pre) body post -> c' = c.
Proof. intros (E & _). rewrite sapp_cons in E. now injection E. Qed.

(** The match is the leftmost declaration. *)
Lemma lut_match_first (code body : string) :
  lut_match code = Some body ->
  exists pre post,
    decl_at code pre body post /\
    forall pre' body' post',
      decl_at code pre' body' post' -> (String.length pre <= String.length pre')%nat.
Proof.
  assert (Hhere : forall s b, match_here s = Some b ->
            exists pre post, decl_at s pre b post /\
              forall pre' body' post', decl_at s pre' body' post' ->
                (String.length pre <= String.length pre')%nat).
  { intros s b E. apply match_here_decl in E. destruct E as [post E].
    exists "", post. split; [exact E |]. intros; simpl; lia. }
  induction code as [| c s IH]; rewrite lut_match_unfold.
  - destruct (match_here "") as [b |] eqn:E; [| discriminate].
    intros [= ->]. now apply Hhere.
  - destruct (match_here (String c s)) as [b |] eqn:E.
    + intros [= ->]. now apply Hhere.
    + intros H. destruct (IH H) as (pre & post & Hd & Hmin).
      exists (String c pre), post. split; [now apply decl_at_cons |].
      intros pre' body' post' Hd'. destruct pre' as [| c' p].
      * exfalso.
        assert (match_here (String c s) = Some body')
          by (apply match_here_decl; eauto).
        congruence.
      * pose proof (decl_at_head _ _ _ _ _ _ Hd') as ->.
        apply (proj1 (decl_at_cons _ _ _ _ _)) in Hd'.
        simpl. apply le_n_S. eapply Hmin. exact Hd'.
Qed.

Lemma lut_match_leftmost (code pre body post : string) :
  decl_at code pre body post ->
  (forall pre' body' post',
     decl_at code pre' body' post' -> (String.length pre <= String.length pre')%nat) ->
  lut_match code = Some body.
Proof.
  revert code. induction pre as [| c p IH]; intros code Hd Hmin.
  - rewrite lut_match_unfold.
    assert (E : match_here code = Some body) by (apply match_here_decl; eauto).
    now rewrite E.
  - assert (exists s, code = String c s) as [s ->].
    { destruct Hd as (-> & _). rewrite sapp_cons. eauto. }
    rewrite lut_match_unfold.
    destruct (match_here (String c s)) as [b |] eqn:E.
    + apply match_here_decl in E. destruct E as [post' E].
      apply Hmin in E. simpl in E. lia.
    + apply IH; [now apply (proj1 (decl_at_cons _ _ _ _ _)) in Hd |].
      intros pre' body' post' Hd'.
      apply (proj2 (decl_at_cons c _ _ _ _)) in Hd'. apply Hmin in Hd'.
      simpl in Hd'. lia.
Qed.

(** X1. [lutMatch[1]] is the text between the quotes of the leftmost
    declaration of the file: a declaration with an empty string, or one whose
    string is not closed by a quote followed by [);], is passed over. *)
Theorem first_declaration_is_captured (code body : string) :
  lut_match code = Some body
  <-> exists pre post,
        decl_at code pre body post /\
        forall pre' body' post',
          decl_at code pre' body' post' ->
          (String.length pre <= String.length pre')%nat.
Proof.
  split; [apply lut_match_first |].
  intros (pre & post & Hd & Hmin). now apply (lut_match_leftmost code pre body post).
Qed.

(** ** The snippet: the two indices of [substring] *)

Lemma substring_head (x rest : string) :
  String.substring 0 (String.length x) (x +:+ rest) = x.
Proof.
  induction x as [| a x IHx]; [now destruct rest |].
  rewrite sapp_cons. simpl. now rewrite IHx.
Qed.

Lemma substring_at (pre x rest : string) :
  String.substring (String.length pre) (String.length x) (pre +:+ x +:+ rest) = x.
Proof.
  induction pre as [| c p IH].
  - rewrite sapp_nil_l. apply substring_head.
  - rewrite sapp_cons. simpl. exact IH.
Qed.

Lemma indexOf_bound (hay pre needle rest : string) :
  needle <> "" ->
  hay = pre +:+ needle +:+ rest ->
  (0 <= indexOf hay needle <= Z.of_nat (String.length pre))%Z.
Proof.
  intros Hne ->. unfold indexOf.
  pose proof (substring_at pre needle rest) as Hsub.
  destruct (String.index 0 needle (pre +:+ needle +:+ rest)) as [m |] eqn:E.
  - split; [lia |].
    destruct (Nat.le_gt_cases m (String.length pre)) as [Hle | Hgt]; [lia |].
    exfalso.
    apply (String.index_correct2 _ _ _ _ E (String.length pre)); [lia | exact Hgt |].
    exact Hsub.
  - exfalso.
    apply (String.index_correct3 0 (String.length pre) _ _ E Hne); [lia |].
    exact Hsub.
Qed.

(** X2. Once the pattern has matched, [decompressFunctionEnd] is an index
    of the text, at or before the declaration that matched: it is never
    [-1], the value the snippet checks [decompressFunctionStart] for. *)
Theorem end_index_is_found (code body : string) :
  lut_match code = Some body ->
  exists pre post,
    decl_at code pre body post /\
    (0 <= indexOf code "var lut = decompress" <= Z.of_nat (String.length pre))%Z.
Proof.
  intros H. apply lut_match_first in H. destruct H as (pre & post & Hd & _).
  exists pre, post. split; [exact Hd |].
  destruct Hd as (E & _).
  apply (indexOf_bound code pre "var lut = decompress"
           ("(" +:+ q +:+ body +:+ lut_suffix +:+ post)); [discriminate |].
  rewrite E. unfold lut_prefix. now rewrite !sapp_assoc.
Qed.

Lemma end_index_is_found_witness :
  exists pre post,
    decl_at demo_code pre "eJzt" post /\
    (0 <= indexOf demo_code "var lut = decompress" <= Z.of_nat (String.length pre))%Z.
Proof. apply (end_index_is_found demo_code "eJzt"). vm_compute. reflexivity. Defined.

(** ** Runs that stop at the extraction *)

(** A run up to the call of [run_extraction]. *)
Lemma run_until_extraction (env : Env) (cwd0 : list string)
    (fs0 : gmap (list string) entry) :
  is_dir (pristine fs0) (script_dir env cwd0) = true ->
  not_a_dir (pristine fs0) (snippet_at (script_dir env cwd0)) = true ->
  main env {| cwd := cwd0; disk := pristine fs0; console := [] |}
  = try_except
      (ok ← run_extraction env;
       if negb ok then
         print "[FAIL] Extraction failed" ;;
         mret 1%Z
       else
         print "[OK] Extraction complete" ;;
         print "" ;;
         print "Step 3: Converting to Dart format..." ;;
         convert_to_dart ;;
         print "[OK] Dart file generated" ;;
         print "" ;;
         print "Step 4: Cleaning up temporary files..." ;;
         cleanup ;;
         print "[OK] Cleanup complete" ;;
         print "" ;;
         print (str_mul "=" 60) ;;
         print "SUCCESS! Mixbox LUT has been extracted and converted." ;;
         print "Output: lib/utils/mixbox_lut_data.dart" ;;
         print (str_mul "=" 60) ;;
         mret 0%Z)
      (fun e => Some (print_err (nl +:+ "[ERROR] " +:+ exn_str e) ;;
                      traceback_print_exc e ;;
                      mret 1%Z))
      (extraction_world fs0 (script_dir env cwd0)).
Proof.
  intros Hdir Hsn. set (dir := script_dir env cwd0) in *.
  apply is_dir_lookup in Hdir.
  rewrite main_start. fold dir. rewrite Hdir.
  unfold guarded_pipeline, try_except, pipeline.
  rewrite bind_print, bind_unfold.
  unfold create_extraction_script, open_write, os_call.
  cbn [cwd disk say start_world].
  change (resolve dir (relative ["extract_lut.js"])) with (snippet_at dir).
  fold js_bytes.
  rewrite fs_write_intro;
    [| exact Hsn | rewrite removelast_snippet; now apply is_dir_lookup].
  rewrite !bind_print. reflexivity.
Qed.

Lemma extraction_false_run (env : Env) (cwd0 : list string)
    (fs0 : gmap (list string) entry) (w2 : World) :
  is_dir (pristine fs0) (script_dir env cwd0) = true ->
  not_a_dir (pristine fs0) (snippet_at (script_dir env cwd0)) = true ->
  run_extraction env (extraction_world fs0 (script_dir env cwd0)) = (Return false, w2) ->
  run_script env cwd0 fs0 = (1%Z, say w2 [Print "[FAIL] Extraction failed"]).
Proof.
  intros Hdir Hsn Hrun. unfold run_script.
  change {| files := fs0; journal := [] |} with (pristine fs0).
  rewrite run_until_extraction by assumption.
  unfold try_except. rewrite bind_unfold, Hrun. cbn [negb].
  rewrite bind_print. reflexivity.
Qed.

Lemma run_extraction_no_node (env : Env) (w : World) :
  node_installed env = false ->
  run_extraction env w
  = (Return false,
     say w [Print "Running Node.js extraction script...";
            PrintErr "Error: Node.js not found. Please install Node.js to run this script."]).
Proof.
  intros Hnode. unfold run_extraction. rewrite bind_print. unfold try_except.
  rewrite bind_unfold. unfold subprocess_run. rewrite Hnode.
  rewrite bind_print_err. cbn [mret Py_ret]. now rewrite say_say.
Qed.

Lemma run_extraction_failed (env : Env) (w : World) (r : Completed) (d' : Disk) :
  node_installed env = true ->
  node (js_decompress env) (cwd w) (disk w) = (r, d') ->
  returncode r <> 0%Z ->
  run_extraction env w
  = (Return false,
     set_disk (say w (Print "Running Node.js extraction script..." :: child_report r)) d').
Proof.
  intros Hnode Hn Hrc. unfold run_extraction. rewrite bind_print. unfold try_except.
  rewrite bind_unfold. unfold subprocess_run. rewrite Hnode.
  cbn [cwd disk say]. rewrite Hn.
  apply Z.eqb_neq in Hrc. rewrite Hrc.
  rewrite !bind_print_err. unfold child_report, say, set_disk.
  cbn [cwd disk console mret Py_ret]. now rewrite <- !app_assoc.
Qed.

Lemma snippet_nonempty (dir : list string) : snippet_at dir <> [].
Proof. rewrite snippet_at_eq. now destruct dir. Qed.

Lemma raw_nonempty (dir : list string) : raw_at dir <> [].
Proof. rewrite raw_at_eq. now destruct dir. Qed.

Lemma read_with_snippet (fs0 : gmap (list string) entry) (dir : list string) :
  fs_read (with_snippet fs0 dir) (snippet_at dir) = FsOk js_bytes.
Proof.
  unfold fs_read, with_snippet.
  change fs0 with (files (pristine fs0)) at 2.
  now rewrite fs_lookup_insert_eq by apply snippet_nonempty.
Qed.

Lemma lookup_with_snippet (fs0 : gmap (list string) entry) (dir q : list string) :
  q <> snippet_at dir ->
  fs_lookup (with_snippet fs0 dir) q = fs_lookup (pristine fs0) q.
Proof.
  intros Hq. unfold with_snippet. change fs0 with (files (pristine fs0)) at 2.
  apply fs_lookup_insert_ne. congruence.
Qed.

Lemma locate_with_snippet (dec : JsRuntime)
    (fs0 : gmap (list string) entry) (dir : list string) :
  locate_and_decompress dec dir (with_snippet fs0 dir)
  = locate_and_decompress dec dir (pristine fs0).
Proof. apply locate_frame, lookup_with_snippet, input_neq_snippet. Qed.

Lemma node_with_snippet (dec : JsRuntime)
    (fs0 : gmap (list string) entry) (dir : list string) :
  node dec dir (with_snippet fs0 dir) = extract_lut_js dec dir (with_snippet fs0 dir).
Proof.
  unfold node. change (walk dir ["extract_lut.js"]) with (snippet_at dir).
  rewrite read_with_snippet. fold js_bytes.
  now destruct (decide (js_bytes = js_bytes)).
Qed.

(** The child when the snippet exits before it decompresses, and when the
    table is too small. *)
Lemma node_early_exit (dec : JsRuntime)
    (fs0 : gmap (list string) entry) (dir : list string) (done : Completed) :
  locate_and_decompress dec dir (pristine fs0) = inl done ->
  node dec dir (with_snippet fs0 dir) = (done, with_snippet fs0 dir).
Proof.
  intros H. rewrite node_with_snippet. unfold extract_lut_js.
  now rewrite locate_with_snippet, H.
Qed.

Lemma stderr_with_snippet (dec : JsRuntime)
    (fs0 : gmap (list string) entry) (dir : list string) :
  evaluation_stderr dec dir (with_snippet fs0 dir)
  = evaluation_stderr dec dir (pristine fs0).
Proof.
  unfold evaluation_stderr, fs_read.
  change (walk dir mixbox_rel) with (input_at dir).
  now rewrite lookup_with_snippet by apply input_neq_snippet.
Qed.

Lemma node_too_small (dec : JsRuntime)
    (fs0 : gmap (list string) entry) (dir : list string)
    (out2 : string) (lut : list byte) :
  locate_and_decompress dec dir (pristine fs0) = inr (out2, lut) ->
  (len lut < expectedSize)%Z ->
  node dec dir (with_snippet fs0 dir)
  = (exited 1 out2 (evaluation_stderr dec dir (pristine fs0)
                    +:+ "Decompressed data smaller than expected!" +:+ nl),
     with_snippet fs0 dir).
Proof.
  intros H Hs. rewrite node_with_snippet. unfold extract_lut_js.
  rewrite locate_with_snippet, H. unfold store_lut.
  rewrite (select_smaller lut Hs). cbn [returncode stdout stderr exited].
  now rewrite stderr_with_snippet.
Qed.

(** The run when the child fails and leaves the disk as it found it. *)
Lemma child_failure_run (env : Env) (cwd0 : list string)
    (fs0 : gmap (list string) entry) (r : Completed) :
  is_dir (pristine fs0) (script_dir env cwd0) = true ->
  not_a_dir (pristine fs0) (snippet_at (script_dir env cwd0)) = true ->
  node_installed env = true ->
  node (js_decompress env) (script_dir env cwd0)
       (with_snippet fs0 (script_dir env cwd0))
  = (r, with_snippet fs0 (script_dir env cwd0)) ->
  returncode r <> 0%Z ->
  run_script env cwd0 fs0
  = (1%Z, {| cwd := script_dir env cwd0;
             disk := with_snippet fs0 (script_dir env cwd0);
             console := banner ++ step_lines ++ child_report r
                        ++ [Print "[FAIL] Extraction failed"] |}).
Proof.
  intros Hdir Hsn Hnode Hn Hrc.
  rewrite (extraction_false_run env cwd0 fs0 _ Hdir Hsn
             (run_extraction_failed env (extraction_world fs0 (script_dir env cwd0))
                r _ Hnode Hn Hrc)).
  unfold say, set_disk, extraction_world, step_lines, child_report.
  cbn [cwd disk console]. rewrite <- !app_assoc. reflexivity.
Qed.

(** The third-party code of the sample environment writes nothing. *)
Lemma demo_silent (lut : list byte) :
  evaluation_stderr (js_decompress (demo_env lut))
    (script_dir (demo_env lut) ["home"]) (pristine demo_tree) = "".
Proof. vm_compute. reflexivity. Qed.

(** X3. When the child process exits with a status other than 0, the script
    prints the status, the standard output and the standard error of the child
    on its own standard error, then the line [[FAIL] Extraction failed], and
    exits with status 1 without a stack trace; on the disk only the snippet was
    added, and it is still there. *)
Theorem child_failure_transcript (env : Env) (cwd0 : list string)
    (fs0 : gmap (list string) entry) (r : Completed) (d' : Disk) :
  is_dir (pristine fs0) (script_dir env cwd0) = true ->
  not_a_dir (pristine fs0) (snippet_at (script_dir env cwd0)) = true ->
  node_installed env = true ->
  node (js_decompress env) (script_dir env cwd0)
       (with_snippet fs0 (script_dir env cwd0)) = (r, d') ->
  returncode r <> 0%Z ->
  d' = with_snippet fs0 (script_dir env cwd0) /\
  run_script env cwd0 fs0
  = (1%Z, {| cwd := script_dir env cwd0;
             disk := with_snippet fs0 (script_dir env cwd0);
             console := banner ++ step_lines ++ child_report r
                        ++ [Print "[FAIL] Extraction failed"] |}).
Proof.
  intros Hdir Hsn Hnode Hn Hrc.
  assert (Hd : d' = with_snippet fs0 (script_dir env cwd0)).
  { apply node_inv in Hn. destruct Hn as [[_ ->] | (Hz & _)]; [reflexivity | congruence]. }
  split; [exact Hd |]. subst d'.
  now apply child_failure_run.
Qed.

Lemma child_failure_transcript_witness :
  exists out2,
    run_script (demo_env lut_short) ["home"] demo_tree
    = (1%Z, {| cwd := script_dir (demo_env lut_short) ["home"];
               disk := with_snippet demo_tree (script_dir (demo_env lut_short) ["home"]);
               console :=
                 banner ++ step_lines
                 ++ child_report
                      (exited 1 out2 ("Decompressed data smaller than expected!" +:+ nl))
                 ++ [Print "[FAIL] Extraction failed"] |}).
Proof.
  destruct (demo_located lut_short) as [out2 Hloc]. exists out2.
  assert (Hsmall : (len lut_short < expectedSize)%Z) by (vm_compute; reflexivity).
  pose proof (node_too_small _ _ _ _ _ Hloc Hsmall) as Hn.
  rewrite demo_silent, sapp_nil_l in Hn.
  refine (proj2 (child_failure_transcript (demo_env lut_short) ["home"] demo_tree
                   _ _ _ _ _ Hn _)).
  - vm_compute. reflexivity.
  - vm_compute. reflexivity.
  - reflexivity.
  - discriminate.
Defined.

Lemma substring_head_inv (x s : string) :
  String.substring 0 (String.length x) s = x -> exists post, s = x +:+ post.
Proof.
  revert s. induction x as [| a x IHx]; intros s H.
  - exists s. reflexivity.
  - destruct s as [| b s]; [discriminate |]. simpl in H.
    injection H as -> H. destruct (IHx _ H) as [post ->].
    exists post. now rewrite sapp_cons.
Qed.

Lemma substring_occurs_at (s x : string) (m : nat) :
  String.substring m (String.length x) s = x -> x <> "" ->
  exists pre post, s = pre +:+ x +:+ post /\ String.length pre = m.
Proof.
  revert m. induction s as [| c s IH]; intros m H Hne.
  - destruct m; simpl in H; destruct x; simpl in H; congruence.
  - destruct m as [| m].
    + destruct (substring_head_inv _ _ H) as [post E].
      exists "", post. split; [now rewrite sapp_nil_l | reflexivity].
    + simpl in H. destruct (IH m H Hne) as (pre & post & -> & Hlen).
      exists (String c pre), post. split; [now rewrite sapp_cons |].
      simpl. now rewrite Hlen.
Qed.

(** [indexOf] is [-1] when the text does not occur. *)
Lemma indexOf_absent (hay needle : string) :
  needle <> "" -> ~ occurs needle hay -> indexOf hay needle = (-1)%Z.
Proof.
  intros Hne Hno. unfold indexOf.
  destruct (String.index 0 needle hay) as [m |] eqn:E; [| reflexivity].
  exfalso. apply Hno. apply String.index_correct1 in E.
  destruct (substring_occurs_at hay needle m E Hne) as (pre & post & Hs & _).
  now exists pre, post.
Qed.

Lemma locate_no_function (dec : JsRuntime)
    (dir : list string) (d : Disk) (bytes : list byte) :
  fs_lookup d (input_at dir) = Some (File bytes) ->
  contains_decl (string_of_list_byte bytes) ->
  ~ occurs "function decompress(" (string_of_list_byte bytes) ->
  exists out,
    locate_and_decompress dec dir d
    = inl (exited 1 out ("Could not find decompress function" +:+ nl)).
Proof.
  intros Hb Hdecl Hno. apply lut_match_complete in Hdecl. destruct Hdecl as [body Hm].
  unfold locate_and_decompress, fs_read.
  change (walk dir mixbox_rel) with (input_at dir). rewrite Hb, Hm.
  rewrite indexOf_absent by (discriminate || exact Hno).
  cbn [Z.eqb Pos.eqb]. eexists. reflexivity.
Qed.

(** X4. A third-party file that declares the table but holds no text
    [function decompress(]: the snippet reports [Could not find decompress
    function] and exits with status 1 without calling any decompression code;
    the script prints that report, exits with status 1, and has written
    nothing but the snippet. *)
Theorem missing_function_transcript (env : Env) (cwd0 : list string)
    (fs0 : gmap (list string) entry) (bytes : list byte) :
  is_dir (pristine fs0) (script_dir env cwd0) = true ->
  not_a_dir (pristine fs0) (snippet_at (script_dir env cwd0)) = true ->
  node_installed env = true ->
  fs_lookup (pristine fs0) (input_at (script_dir env cwd0)) = Some (File bytes) ->
  contains_decl (string_of_list_byte bytes) ->
  ~ occurs "function decompress(" (string_of_list_byte bytes) ->
  exists out,
    run_script env cwd0 fs0
    = (1%Z, {| cwd := script_dir env cwd0;
               disk := with_snippet fs0 (script_dir env cwd0);
               console :=
                 banner ++ step_lines
                 ++ child_report
                      (exited 1 out ("Could not find decompress function" +:+ nl))
                 ++ [Print "[FAIL] Extraction failed"] |}).
Proof.
  intros Hdir Hsn Hnode Hb Hdecl Hno.
  destruct (locate_no_function (js_decompress env) _ _ _ Hb Hdecl Hno) as [out Hloc].
  exists out.
  apply (child_failure_run env cwd0 fs0 _ Hdir Hsn Hnode
           (node_early_exit _ _ _ _ Hloc)).
  discriminate.
Qed.

Lemma headless_code_decl : contains_decl headless_code.
Proof.
  exists "", "eJzt", nl. split; [reflexivity |]. split; [discriminate |].
  repeat constructor; discriminate.
Qed.

Lemma headless_code_no_function : ~ occurs "function decompress(" headless_code.
Proof.
  intros (pre & post & E).
  assert (H : indexOf headless_code "function decompress(" <> (-1)%Z).
  { pose proof (indexOf_bound headless_code pre "function decompress(" post) as Hb.
    specialize (Hb ltac:(discriminate) E). lia. }
  apply H. vm_compute. reflexivity.
Qed.

Lemma missing_function_transcript_witness :
  exists out,
    run_script (demo_env lut_exact) ["home"] headless_tree
    = (1%Z, {| cwd := script_dir (demo_env lut_exact) ["home"];
               disk := with_snippet headless_tree (script_dir (demo_env lut_exact) ["home"]);
               console :=
                 banner ++ step_lines
                 ++ child_report
                      (exited 1 out ("Could not find decompress function" +:+ nl))
                 ++ [Print "[FAIL] Extraction failed"] |}).
Proof.
  apply (missing_function_transcript (demo_env lut_exact) ["home"] headless_tree
           (list_byte_of_string headless_code)).
  - vm_compute. reflexivity.
  - vm_compute. reflexivity.
  - reflexivity.
  - vm_compute. reflexivity.
  - rewrite string_of_list_byte_of_string. exact headless_code_decl.
  - rewrite string_of_list_byte_of_string. exact headless_code_no_function.
Defined.

(** X5. Without Node on the path: the script prints the hint to install
    Node.js on standard error and the line [[FAIL] Extraction failed], and
    exits with status 1 without a stack trace; the snippet it wrote is left in
    the script directory and nothing else is changed. *)
Theorem node_missing_transcript (env : Env) (cwd0 : list string)
    (fs0 : gmap (list string) entry) :
  is_dir (pristine fs0) (script_dir env cwd0) = true ->
  not_a_dir (pristine fs0) (snippet_at (script_dir env cwd0)) = true ->
  node_installed env = false ->
  run_script env cwd0 fs0
  = (1%Z, {| cwd := script_dir env cwd0;
             disk := with_snippet fs0 (script_dir env cwd0);
             console :=
               banner ++ step_lines
               ++ [PrintErr
                     "Error: Node.js not found. Please install Node.js to run this script.";
                   Print "[FAIL] Extraction failed"] |}).
Proof.
  intros Hdir Hsn Hnode.
  rewrite (extraction_false_run env cwd0 fs0 _ Hdir Hsn
             (run_extraction_no_node env _ Hnode)).
  unfold say, extraction_world, step_lines. cbn [cwd disk console].
  rewrite <- !app_assoc. reflexivity.
Qed.

Lemma node_missing_transcript_witness :
  run_script demo_env_no_node ["home"] demo_tree
  = (1%Z, {| cwd := script_dir demo_env_no_node ["home"];
             disk := with_snippet demo_tree (script_dir demo_env_no_node ["home"]);
             console :=
               banner ++ step_lines
               ++ [PrintErr
                     "Error: Node.js not found. Please install Node.js to run this script.";
                   Print "[FAIL] Extraction failed"] |}).
Proof.
  apply (node_missing_transcript demo_env_no_node ["home"] demo_tree).
  - vm_compute. reflexivity.
  - vm_compute. reflexivity.
  - reflexivity.
Defined.

(** X6. A directory named [extract_lut.js] in the script directory: [open]
    raises [IsADirectoryError], the handler of [main] prints the error and the
    stack trace, and the script exits with status 1; nothing on the disk is
    changed and no later stage runs. *)
Theorem snippet_blocked_transcript (env : Env) (cwd0 : list string)
    (fs0 : gmap (list string) entry) :
  is_dir (pristine fs0) (script_dir env cwd0) = true ->
  is_dir (pristine fs0) (snippet_at (script_dir env cwd0)) = true ->
  run_script env cwd0 fs0
  = (1%Z, {| cwd := script_dir env cwd0;
             disk := pristine fs0;
             console :=
               banner
               ++ [Print "Step 1: Creating Node.js extraction script...";
                   PrintErr (nl +:+ "[ERROR] [Errno 21] Is a directory: 'extract_lut.js'");
                   Traceback (OSError EISDIR "extract_lut.js")] |}).
Proof.
  intros Hdir Hsn.
  rewrite (exception_caught env cwd0 fs0 (OSError EISDIR "extract_lut.js")
             (say (start_world (script_dir env cwd0) fs0)
                  [Print "Step 1: Creating Node.js extraction script..."]) Hdir).
  - unfold say, start_world. cbn [cwd disk console].
    rewrite <- !app_assoc. reflexivity.
  - unfold pipeline. rewrite bind_print, bind_unfold.
    unfold create_extraction_script, open_write, os_call, fs_write.
    cbn [cwd disk say start_world].
    change (resolve (script_dir env cwd0) (relative ["extract_lut.js"]))
      with (snippet_at (script_dir env cwd0)).
    apply is_dir_lookup in Hsn. now rewrite Hsn.
Qed.

Lemma snippet_blocked_transcript_witness :
  run_script (demo_env lut_exact) ["home"] blocked_tree
  = (1%Z, {| cwd := script_dir (demo_env lut_exact) ["home"];
             disk := pristine blocked_tree;
             console :=
               banner
               ++ [Print "Step 1: Creating Node.js extraction script...";
                   PrintErr (nl +:+ "[ERROR] [Errno 21] Is a directory: 'extract_lut.js'");
                   Traceback (OSError EISDIR "extract_lut.js")] |}).
Proof.
  apply (snippet_blocked_transcript (demo_env lut_exact) ["home"] blocked_tree).
  - vm_compute. reflexivity.
  - vm_compute. reflexivity.
Defined.

(** X7. A decompressed table shorter than 786,432 bytes: the child exits
    with status 1 before it writes the raw file, and the last line on its
    standard error is [Decompressed data smaller than expected!]; the script
    prints the report of the child and exits with status 1; on the disk only
    the snippet was added. *)
Theorem too_small_transcript (env : Env) (cwd0 : list string)
    (fs0 : gmap (list string) entry) (out2 : string) (lut : list byte) :
  is_dir (pristine fs0) (script_dir env cwd0) = true ->
  not_a_dir (pristine fs0) (snippet_at (script_dir env cwd0)) = true ->
  node_installed env = true ->
  locate_and_decompress (js_decompress env) (script_dir env cwd0) (pristine fs0)
  = inr (out2, lut) ->
  (len lut < expectedSize)%Z ->
  exists r,
    node (js_decompress env) (script_dir env cwd0)
         (with_snippet fs0 (script_dir env cwd0))
    = (r, with_snippet fs0 (script_dir env cwd0)) /\
    returncode r = 1%Z /\
    (exists before,
       stderr r = before +:+ "Decompressed data smaller than expected!" +:+ nl) /\
    run_script env cwd0 fs0
    = (1%Z, {| cwd := script_dir env cwd0;
               disk := with_snippet fs0 (script_dir env cwd0);
               console :=
                 banner ++ step_lines ++ child_report r
                 ++ [Print "[FAIL] Extraction failed"] |}) /\
    Wrote (raw_at (script_dir env cwd0))
      ∉ journal (with_snippet fs0 (script_dir env cwd0)).
Proof.
  intros Hdir Hsn Hnode Hloc Hsmall.
  pose proof (node_too_small _ _ _ _ _ Hloc Hsmall) as Hn.
  eexists. split; [exact Hn |]. split; [reflexivity |]. split; [| split].
  - eexists. reflexivity.
  - apply (child_failure_run env cwd0 fs0 _ Hdir Hsn Hnode Hn). discriminate.
  - cbn. intros H. apply list_elem_of_singleton in H. injection H as H.
    symmetry in H. now apply snippet_neq_raw in H.
Qed.

Lemma chatty_located (lut : list byte) :
  exists out2,
    locate_and_decompress (js_decompress (chatty_env lut))
      (script_dir (chatty_env lut) ["home"]) (pristine demo_tree)
    = inr (out2, lut).
Proof. eexists. vm_compute. reflexivity. Qed.

Lemma too_small_transcript_witness :
  exists r,
    returncode r = 1%Z /\
    (exists before,
       stderr r = before +:+ "Decompressed data smaller than expected!" +:+ nl) /\
    run_script (chatty_env lut_short) ["home"] demo_tree
    = (1%Z, {| cwd := script_dir (chatty_env lut_short) ["home"];
               disk := with_snippet demo_tree (script_dir (chatty_env lut_short) ["home"]);
               console :=
                 banner ++ step_lines ++ child_report r
                 ++ [Print "[FAIL] Extraction failed"] |}).
Proof.
  destruct (chatty_located lut_short) as [out2 Hloc].
  destruct (too_small_transcript (chatty_env lut_short) ["home"] demo_tree
              out2 lut_short) as (r & _ & Hrc & Herr & Hrun & _).
  - vm_compute. reflexivity.
  - vm_compute. reflexivity.
  - reflexivity.
  - exact Hloc.
  - vm_compute. reflexivity.
  - exists r. split; [exact Hrc |]. split; [exact Herr | exact Hrun].
Defined.

(** ** Runs that reach the conversion *)

Lemma run_extraction_ok (env : Env) (w : World) (r : Completed) (d' : Disk) :
  node_installed env = true ->
  node (js_decompress env) (cwd w) (disk w) = (r, d') ->
  returncode r = 0%Z ->
  run_extraction env w
  = (Return true,
     set_disk (say w ([Print "Running Node.js extraction script..."; Print (stdout r)]
                      ++ warning_lines r)) d').
Proof.
  intros Hnode Hn Hrc. unfold run_extraction. rewrite bind_print.
  unfold try_except. rewrite bind_unfold. unfold subprocess_run. rewrite Hnode.
  cbn [cwd disk say]. rewrite Hn, Hrc. cbn [Z.eqb].
  rewrite bind_print. unfold warning_lines.
  destruct (bool_decide (stderr r = "")).
  - rewrite bind_unfold. unfold say, set_disk. cbn [cwd disk console mret Py_ret].
    now rewrite <- !app_assoc.
  - rewrite bind_print_err. unfold say, set_disk. cbn [cwd disk console mret Py_ret].
    now rewrite <- !app_assoc.
Qed.

Lemma lookup_with_raw (fs0 : gmap (list string) entry) (dir : list string)
    (buf : list byte) (q : list string) :
  q <> snippet_at dir -> q <> raw_at dir ->
  fs_lookup (with_raw fs0 dir buf) q = fs_lookup (pristine fs0) q.
Proof.
  intros H1 H2. unfold with_raw.
  rewrite fs_lookup_insert_ne by congruence. now apply lookup_with_snippet.
Qed.

Lemma raw_with_raw (fs0 : gmap (list string) entry) (dir : list string)
    (buf : list byte) :
  fs_lookup (with_raw fs0 dir buf) (raw_at dir) = Some (File buf).
Proof. unfold with_raw. apply fs_lookup_insert_eq, raw_nonempty. Qed.

Lemma snippet_with_raw (fs0 : gmap (list string) entry) (dir : list string)
    (buf : list byte) :
  fs_lookup (with_raw fs0 dir buf) (snippet_at dir) = Some (File js_bytes).
Proof.
  unfold with_raw. rewrite fs_lookup_insert_ne
    by (intros E; symmetry in E; now apply snippet_neq_raw in E).
  pose proof (read_with_snippet fs0 dir) as H. unfold fs_read in H.
  destruct (fs_lookup (with_snippet fs0 dir) (snippet_at dir)) as [[c |] |];
    congruence.
Qed.

Lemma node_ok (dec : JsRuntime)
    (fs0 : gmap (list string) entry) (dir : list string)
    (out2 : string) (lut buf : list byte) (log : string) :
  is_dir (pristine fs0) dir = true ->
  not_a_dir (pristine fs0) (raw_at dir) = true ->
  locate_and_decompress dec dir (pristine fs0) = inr (out2, lut) ->
  select_lut_buffer lut = Some (buf, log) ->
  node dec dir (with_snippet fs0 dir)
  = (finished_child dec fs0 dir out2 log buf, with_raw fs0 dir buf).
Proof.
  intros Hdir Hraw Hloc Hsel. rewrite node_with_snippet. unfold extract_lut_js.
  rewrite locate_with_snippet, Hloc. unfold store_lut. rewrite Hsel.
  change (walk dir ["mixbox_lut_raw.bin"]) with (raw_at dir).
  rewrite fs_write_intro.
  - cbn [returncode stdout stderr exited].
    rewrite stderr_with_snippet, sapp_nil_r. reflexivity.
  - unfold not_a_dir, is_dir in *. rewrite lookup_with_snippet; [exact Hraw |].
    intros E. symmetry in E. now apply snippet_neq_raw in E.
  - rewrite removelast_raw. unfold is_dir in *.
    rewrite lookup_with_snippet; [exact Hdir |].
    rewrite snippet_at_eq. apply snoc_neq_self.
Qed.

(** A run up to the call of [convert_to_dart]. *)
Lemma run_until_conversion (env : Env) (cwd0 : list string)
    (fs0 : gmap (list string) entry) (out2 : string) (lut buf : list byte)
    (log : string) :
  extractable env cwd0 fs0 out2 lut buf log ->
  main env {| cwd := cwd0; disk := pristine fs0; console := [] |}
  = try_except
      (convert_to_dart ;;
       print "[OK] Dart file generated" ;;
       print "" ;;
       print "Step 4: Cleaning up temporary files..." ;;
       cleanup ;;
       print "[OK] Cleanup complete" ;;
       print "" ;;
       print (str_mul "=" 60) ;;
       print "SUCCESS! Mixbox LUT has been extracted and converted." ;;
       print "Output: lib/utils/mixbox_lut_data.dart" ;;
       print (str_mul "=" 60) ;;
       mret 0%Z)
      (fun e => Some (print_err (nl +:+ "[ERROR] " +:+ exn_str e) ;;
                      traceback_print_exc e ;;
                      mret 1%Z))
      (conversion_world fs0 (script_dir env cwd0) buf
         (finished_child (js_decompress env) fs0 (script_dir env cwd0) out2 log buf)).
Proof.
  intros [Hdir Hnode Hsn Hraw Hloc Hsel].
  rewrite run_until_extraction by assumption.
  unfold try_except. rewrite bind_unfold.
  rewrite (run_extraction_ok env (extraction_world fs0 (script_dir env cwd0)) _ _ Hnode
             (node_ok _ _ _ _ _ _ _ Hdir Hraw Hloc Hsel) eq_refl).
  cbn [negb]. rewrite !bind_print.
  unfold conversion_world, extraction_world, extraction_lines, step_lines, say, set_disk.
  cbn [cwd disk console]. rewrite <- !app_assoc. reflexivity.
Qed.

(** ** The conversion, step by step *)

Lemma made_dirs_refl (ps : list (list string)) (d : Disk) : made_dirs ps d d.
Proof. intros q. now left. Qed.

Lemma made_dirs_trans (ps1 ps2 : list (list string)) (d1 d2 d3 : Disk) :
  made_dirs ps1 d1 d2 -> made_dirs ps2 d2 d3 -> made_dirs (ps1 ++ ps2) d1 d3.
Proof.
  intros H1 H2 q. destruct (H2 q) as [E2 | (Hin2 & Hn2 & Hd2)].
  - destruct (H1 q) as [E1 | (Hin1 & Hn1 & Hd1)].
    + left. congruence.
    + right. split; [apply elem_of_app; now left |]. split; congruence.
  - destruct (H1 q) as [E1 | (Hin1 & Hn1 & Hd1)].
    + right. split; [apply elem_of_app; now right |]. split; congruence.
    + congruence.
Qed.

Lemma made_dirs_weaken (ps ps' : list (list string)) (d d' : Disk) :
  (forall q, q ∈ ps -> q ∈ ps') -> made_dirs ps d d' -> made_dirs ps' d d'.
Proof.
  intros Hsub H q. destruct (H q) as [E | (Hin & Hn & Hd)]; [now left | right].
  split; [now apply Hsub | now split].
Qed.

Lemma mkdir_exist_ok_made (name : pathname) (w : World) (r : outcome unit) (w' : World) :
  mkdir_exist_ok name w = (r, w') ->
  made_dirs [resolve (cwd w) name] (disk w) (disk w').
Proof.
  unfold mkdir_exist_ok, try_except, os_mkdir, os_call.
  destruct (fs_mkdir (disk w) (resolve (cwd w) name)) as [d' | e] eqn:Hm.
  - intros [= <- <-]. cbn [disk set_disk].
    apply fs_mkdir_ok in Hm. destruct Hm as (-> & Hp & Hnone). intros q.
    destruct (decide (q = resolve (cwd w) name)) as [-> | Hne].
    + right. split; [apply list_elem_of_here |]. split; [exact Hnone |].
      now apply fs_lookup_insert_eq.
    + left. apply fs_lookup_insert_ne. congruence.
  - rewrite bind_unfold. unfold os_path_isdir.
    destruct (is_dir _ _); intros [= <- <-]; apply made_dirs_refl.
Qed.

(** [os.makedirs] on the output directory creates [../lib] and
    [../lib/utils] at most. *)
Lemma makedirs_output_made (w : World) (r : outcome unit) (w' : World) :
  os_makedirs (os_path_dirname output_path) w = (r, w') ->
  is_dir (disk w) (removelast (cwd w)) = true ->
  made_dirs [lib_at (cwd w); output_dir_at (cwd w)] (disk w) (disk w').
Proof.
  intros Hrun Hup. unfold os_makedirs in Hrun.
  change (length (parts (os_path_dirname output_path))) with 3%nat in Hrun.
  assert (Hhead : resolve (cwd w) (os_path_dirname (os_path_dirname output_path))
                  = lib_at (cwd w)) by reflexivity.
  destruct (fs_exists (disk w) (lib_at (cwd w))) eqn:HL.
  - rewrite makedirs_head_present in Hrun by now rewrite Hhead.
    apply mkdir_exist_ok_made in Hrun.
    eapply made_dirs_weaken; [| exact Hrun].
    intros q Hq. apply list_elem_of_further. exact Hq.
  - rewrite makedirs_head_absent in Hrun;
      [| now rewrite Hhead | discriminate | discriminate | reflexivity].
    rewrite bind_unfold in Hrun. unfold ignore_exists, try_except in Hrun.
    rewrite makedirs_head_present in Hrun.
    2:{ unfold fs_exists.
        change (resolve (cwd w)
                  (os_path_dirname (os_path_dirname (os_path_dirname output_path))))
          with (removelast (cwd w)).
        apply is_dir_lookup in Hup. now rewrite Hup. }
    destruct (mkdir_exist_ok (os_path_dirname (os_path_dirname output_path)) w)
      as [r1 w1] eqn:H1.
    pose proof (mkdir_exist_ok_made _ _ _ _ H1) as M1. rewrite Hhead in M1.
    apply mkdir_exist_ok_inv in H1. destruct H1 as (Hc1 & _ & _).
    assert (Hlast : forall r2 w2,
               mkdir_exist_ok (os_path_dirname output_path) w1 = (r2, w2) ->
               made_dirs [lib_at (cwd w); output_dir_at (cwd w)] (disk w) (disk w2)).
    { intros r2 w2 H2. apply mkdir_exist_ok_made in H2. rewrite Hc1 in H2.
      exact (made_dirs_trans _ _ _ _ _ M1 H2). }
    assert (Hstop : made_dirs [lib_at (cwd w); output_dir_at (cwd w)] (disk w) (disk w1)).
    { eapply made_dirs_weaken; [| exact M1].
      intros q Hq. apply list_elem_of_singleton in Hq. subst q. apply list_elem_of_here. }
    destruct r1 as [[] | e].
    + cbn [tail_is_curdir] in Hrun. eapply Hlast. exact Hrun.
    + destruct e as [[] f | c]; try (injection Hrun as <- <-; exact Hstop).
      cbn [tail_is_curdir mret Py_ret] in Hrun. eapply Hlast. exact Hrun.
Qed.

Lemma lib_at_app (dir : list string) : lib_at dir = removelast dir ++ ["lib"].
Proof. reflexivity. Qed.

Lemma convert_start (w : World) (data : list byte) :
  fs_read (disk w) (raw_at (cwd w)) = FsOk data ->
  convert_to_dart w
  = (os_makedirs (os_path_dirname output_path) ;;
     open_write output_path (list_byte_of_string (dart_code data)) ;;
     print ("Generated " +:+ pathname_str output_path) ;;
     print ("File size: " +:+ str (py_strlen (dart_code data)) +:+ " bytes"))
      (say w (read_lines data)).
Proof.
  intros Hread. unfold convert_to_dart. rewrite bind_print, bind_unfold.
  unfold open_read.
  change (resolve (cwd (say w _)) (relative ["mixbox_lut_raw.bin"]))
    with (raw_at (cwd w)).
  change (disk (say w _)) with (disk w). rewrite Hread.
  rewrite bind_print, say_say. reflexivity.
Qed.

(** Without the raw file [convert_to_dart] raises at once. *)
Lemma convert_no_raw (w : World) (e : errno) :
  fs_read (disk w) (raw_at (cwd w)) = FsErr e ->
  convert_to_dart w
  = (Raise (OSError e "mixbox_lut_raw.bin"),
     say w [Print "Converting to Dart format..."]).
Proof.
  intros Hread. unfold convert_to_dart. rewrite bind_print, bind_unfold.
  unfold open_read.
  change (resolve (cwd (say w _)) (relative ["mixbox_lut_raw.bin"]))
    with (raw_at (cwd w)).
  change (disk (say w _)) with (disk w). now rewrite Hread.
Qed.

(** A regular file where the output directory goes stops [os.makedirs]. *)
Lemma makedirs_blocked (w : World) (c : list byte) :
  is_dir (disk w) (lib_at (cwd w)) = true ->
  fs_lookup (disk w) (output_dir_at (cwd w)) = Some (File c) ->
  os_makedirs (os_path_dirname output_path) w
  = (Raise (OSError EEXIST "../lib/utils"), w).
Proof.
  intros HL HU. unfold os_makedirs.
  change (length (parts (os_path_dirname output_path))) with 3%nat.
  rewrite makedirs_head_present.
  2:{ change (resolve (cwd w) (os_path_dirname (os_path_dirname output_path)))
        with (lib_at (cwd w)).
      unfold fs_exists. apply is_dir_lookup in HL. now rewrite HL. }
  unfold mkdir_exist_ok, try_except, os_mkdir, os_call, fs_mkdir.
  change (resolve (cwd w) (os_path_dirname output_path)) with (output_dir_at (cwd w)).
  rewrite HU. rewrite bind_unfold. unfold os_path_isdir, is_dir.
  change (resolve (cwd w) (os_path_dirname output_path)) with (output_dir_at (cwd w)).
  rewrite HU. reflexivity.
Qed.

Lemma lib_neq_snippet (dir : list string) : lib_at dir <> snippet_at dir.
Proof. rewrite lib_at_app, snippet_at_eq. path_neq. Qed.

Lemma lib_neq_raw (dir : list string) : lib_at dir <> raw_at dir.
Proof. rewrite lib_at_app, raw_at_eq. path_neq. Qed.

(** X8. A regular file at [../lib/utils]: the child runs to its end with
    status 0, the script prints its standard output (and its standard error,
    if there is any, as warnings), then [os.makedirs] raises
    [FileExistsError]; the handler of [main] prints the error and the stack
    trace and the script exits with status 1.  The output file is not
    written, and the snippet and the raw binary are left behind in the script
    directory. *)
Theorem output_dir_blocked_transcript (env : Env) (cwd0 : list string)
    (fs0 : gmap (list string) entry) (out2 : string) (lut buf : list byte)
    (log : string) (c : list byte) :
  extractable env cwd0 fs0 out2 lut buf log ->
  is_dir (pristine fs0) (lib_at (script_dir env cwd0)) = true ->
  fs_lookup (pristine fs0) (output_dir_at (script_dir env cwd0)) = Some (File c) ->
  exists r,
    node (js_decompress env) (script_dir env cwd0)
         (with_snippet fs0 (script_dir env cwd0))
    = (r, with_raw fs0 (script_dir env cwd0) buf) /\
    returncode r = 0%Z /\
    run_script env cwd0 fs0
    = (1%Z, {| cwd := script_dir env cwd0;
               disk := with_raw fs0 (script_dir env cwd0) buf;
               console :=
                 banner ++ step_lines
                 ++ extraction_lines r
                 ++ read_lines buf
                 ++ [PrintErr (nl +:+ "[ERROR] [Errno 17] File exists: '../lib/utils'");
                     Traceback (OSError EEXIST "../lib/utils")] |}) /\
    journal (with_raw fs0 (script_dir env cwd0) buf)
    = [Wrote (snippet_at (script_dir env cwd0)); Wrote (raw_at (script_dir env cwd0))] /\
    fs_lookup (with_raw fs0 (script_dir env cwd0) buf) (snippet_at (script_dir env cwd0))
    = Some (File js_bytes) /\
    fs_lookup (with_raw fs0 (script_dir env cwd0) buf) (raw_at (script_dir env cwd0))
    = Some (File buf).
Proof.
  intros Hex HL HU. set (dir := script_dir env cwd0) in *.
  pose proof Hex as [Hdir Hnode Hsn Hraw Hloc Hsel]. fold dir in Hdir, Hraw, Hloc.
  exists (finished_child (js_decompress env) fs0 dir out2 log buf).
  split; [exact (node_ok _ _ _ _ _ _ _ Hdir Hraw Hloc Hsel) |]. split; [reflexivity |].
  split; [| split; [reflexivity | split; [apply snippet_with_raw | apply raw_with_raw]]].
  unfold run_script. change {| files := fs0; journal := [] |} with (pristine fs0).
  rewrite (run_until_conversion env cwd0 fs0 out2 lut buf log Hex). fold dir.
  unfold try_except. rewrite bind_unfold.
  rewrite (convert_start _ buf)
    by (unfold fs_read, conversion_world; cbn [cwd disk]; now rewrite raw_with_raw).
  rewrite bind_unfold.
  rewrite (makedirs_blocked _ c).
  - rewrite bind_print_err, bind_unfold. unfold traceback_print_exc, emit.
    unfold say, conversion_world. cbn [cwd disk console mret Py_ret exn_str].
    rewrite <- !app_assoc. reflexivity.
  - cbn [cwd disk say conversion_world]. unfold is_dir in *.
    rewrite lookup_with_raw; [exact HL | apply lib_neq_snippet | apply lib_neq_raw].
  - cbn [cwd disk say conversion_world].
    rewrite lookup_with_raw;
      [exact HU | apply output_dir_neq_snippet | apply output_dir_neq_raw].
Qed.

Lemma clogged_located (lut : list byte) :
  exists out2,
    locate_and_decompress (js_decompress (chatty_env lut))
      (script_dir (chatty_env lut) ["home"]) (pristine clogged_tree)
    = inr (out2, lut).
Proof. eexists. vm_compute. reflexivity. Qed.

Lemma clogged_warned (lut : list byte) :
  evaluation_stderr (js_decompress (chatty_env lut))
    (script_dir (chatty_env lut) ["home"]) (pristine clogged_tree)
  = "(node:1) Warning: slow path" +:+ nl.
Proof. vm_compute. reflexivity. Qed.

Lemma output_dir_blocked_transcript_witness :
  exists r,
    stderr r = "(node:1) Warning: slow path" +:+ nl /\
    run_script (chatty_env lut_exact) ["home"] clogged_tree
    = (1%Z, {| cwd := script_dir (chatty_env lut_exact) ["home"];
               disk := with_raw clogged_tree (script_dir (chatty_env lut_exact) ["home"])
                         lut_exact;
               console :=
                 banner ++ step_lines
                 ++ extraction_lines r
                 ++ read_lines lut_exact
                 ++ [PrintErr (nl +:+ "[ERROR] [Errno 17] File exists: '../lib/utils'");
                     Traceback (OSError EEXIST "../lib/utils")] |}).
Proof.
  destruct (clogged_located lut_exact) as [out2 Hloc].
  assert (Hex : extractable (chatty_env lut_exact) ["home"] clogged_tree
                  out2 lut_exact lut_exact "").
  { split.
    - vm_compute. reflexivity.
    - reflexivity.
    - vm_compute. reflexivity.
    - vm_compute. reflexivity.
    - exact Hloc.
    - exact (select_equal lut_exact lut_exact_len). }
  destruct (output_dir_blocked_transcript (chatty_env lut_exact) ["home"]
              clogged_tree out2 lut_exact lut_exact "" [] Hex)
    as (r & Hn & _ & Hrun & _).
  - vm_compute. reflexivity.
  - vm_compute. reflexivity.
  - exists r. split; [| exact Hrun].
    destruct Hex as [Hdir _ _ Hraw _ Hsel].
    rewrite (node_ok _ _ _ _ _ _ _ Hdir Hraw Hloc Hsel) in Hn.
    apply (f_equal fst) in Hn. cbn [fst] in Hn. rewrite <- Hn.
    cbn [stderr finished_child exited]. apply clogged_warned.
Defined.

(** ** What a run leaves alone *)

Lemma convert_made (w : World) (r : outcome unit) (w' : World) :
  convert_to_dart w = (r, w') ->
  is_dir (disk w) (removelast (cwd w)) = true ->
  exists d1,
    made_dirs [lib_at (cwd w); output_dir_at (cwd w)] (disk w) d1 /\
    match r with
    | Raise _ => disk w' = d1
    | Return _ =>
        exists text, fs_write d1 (output_at (cwd w)) text = FsOk (disk w')
    end.
Proof.
  intros Hconv Hup.
  destruct (fs_read (disk w) (raw_at (cwd w))) as [data | e] eqn:Hr.
  - rewrite (convert_start w data Hr), bind_unfold in Hconv.
    destruct (os_makedirs _ _) as [r2 w2] eqn:Hm in Hconv.
    pose proof (makedirs_output_made _ _ _ Hm Hup) as Hmade.
    apply makedirs_from_inv in Hm. destruct Hm as (Hc & _ & _).
    cbn [cwd disk say] in Hmade, Hc.
    exists (disk w2). split; [exact Hmade |].
    destruct r2 as [[] | e2].
    + rewrite bind_unfold in Hconv. unfold open_write, os_call in Hconv.
      rewrite Hc in Hconv.
      change (resolve (cwd w) output_path) with (output_at (cwd w)) in Hconv.
      destruct (fs_write (disk w2) (output_at (cwd w)) _) as [d' | e'] eqn:Hw in Hconv.
      * rewrite !bind_print in Hconv. injection Hconv as <- <-.
        eexists. exact Hw.
      * injection Hconv as <- <-. reflexivity.
    + injection Hconv as <- <-. reflexivity.
  - rewrite (convert_no_raw w e Hr) in Hconv. injection Hconv as <- <-.
    exists (disk w). split; [apply made_dirs_refl | reflexivity].
Qed.

Lemma parent_neq_snippet (dir : list string) : removelast dir <> snippet_at dir.
Proof. rewrite snippet_at_eq. apply removelast_snoc_neq. Qed.

Lemma parent_neq_raw (dir : list string) : removelast dir <> raw_at dir.
Proof. rewrite raw_at_eq. apply removelast_snoc_neq. Qed.

Lemma output_not_made (dir : list string) :
  output_at dir ∉ [lib_at dir; output_dir_at dir].
Proof.
  intros H. rewrite !elem_of_cons in H. destruct H as [H | [H | H]].
  - symmetry in H. now apply lib_neq_output in H.
  - symmetry in H. now apply output_dir_neq_output in H.
  - now apply elem_of_nil in H.
Qed.

(** The [try] block leaves every path other than its three files as it
    was, or makes one of the two output directories there; and unless it
    returns 0 it leaves the output path as it was. *)
Lemma pipeline_frame (env : Env) (w : World) (r : outcome Z) (w' : World) :
  pipeline env w = (r, w') ->
  is_dir (disk w) (removelast (cwd w)) = true ->
  (forall q, q <> snippet_at (cwd w) -> q <> raw_at (cwd w) -> q <> output_at (cwd w) ->
             kept_or_made (cwd w) (disk w) (disk w') q) /\
  (r <> Return 0%Z ->
   fs_lookup (disk w') (output_at (cwd w)) = fs_lookup (disk w) (output_at (cwd w))).
Proof.
  intros Hp Hup. revert Hp.
  unfold pipeline. rewrite bind_print, bind_unfold.
  destruct (create_extraction_script _) as [rc w1] eqn:Hc.
  apply create_inv in Hc. cbn [cwd disk say] in Hc.
  destruct Hc as [(e & e' & -> & -> & Hw1) | (-> & d1 & Hw1 & ->)].
  { intros [= <- <-]. split; [intros; now left | reflexivity]. }
  destruct (fs_write_effect _ _ _ _ Hw1) as (Hsp1 & Hfr1 & _ & _).
  rewrite !bind_print, bind_unfold.
  match goal with
  | |- context [run_extraction env ?W0] => set (W := W0)
  end.
  destruct (run_extraction_inv env W)
    as (b & w2 & evs2 & Hrun & Hcwd2 & _ & _ & Hb).
  rewrite Hrun. subst W. cbn [cwd disk console say set_disk] in Hcwd2, Hb.
  destruct b; cbn [negb].
  2:{ destruct Hb as [Hd2 _]. rewrite bind_print.
      intros [= <- <-]. cbn [disk say]. rewrite Hd2. split.
      - intros q H1 _ _. left. now apply Hfr1.
      - intros _. apply Hfr1. intros E. symmetry in E.
        now apply snippet_neq_output in E. }
  destruct Hb as (_ & _ & out2 & lut & buf & log & _ & _ & Hw2).
  destruct (fs_write_effect _ _ _ _ Hw2) as (Hrp2 & Hfr2 & _ & _).
  assert (Hfr12 : forall q, q <> snippet_at (cwd w) -> q <> raw_at (cwd w) ->
                            fs_lookup (disk w2) q = fs_lookup (disk w) q).
  { intros q H1 H2. now rewrite Hfr2, Hfr1. }
  rewrite !bind_print, bind_unfold.
  match goal with
  | |- context [convert_to_dart ?W0] => set (W := W0)
  end.
  destruct (convert_to_dart W) as [r3 w3] eqn:Hconv.
  pose proof Hconv as Hcwd3. apply convert_inv in Hcwd3. destruct Hcwd3 as [Hcwd3 _].
  apply convert_made in Hconv.
  2:{ subst W. cbn [cwd disk say]. rewrite Hcwd2. unfold is_dir in *.
      rewrite Hfr12; [exact Hup | apply parent_neq_snippet | apply parent_neq_raw]. }
  subst W. cbn [cwd disk say] in Hconv, Hcwd3. rewrite Hcwd2 in Hconv, Hcwd3.
  destruct Hconv as (dm & Hmade & Hr3).
  assert (Hkm : forall q, q <> snippet_at (cwd w) -> q <> raw_at (cwd w) ->
                          kept_or_made (cwd w) (disk w) dm q).
  { intros q H1 H2. unfold kept_or_made. rewrite <- (Hfr12 q H1 H2). apply Hmade. }
  assert (Hout : fs_lookup dm (output_at (cwd w)) = fs_lookup (disk w) (output_at (cwd w))).
  { destruct (Hkm (output_at (cwd w))) as [E | (Hin & _)].
    - intros E. symmetry in E. now apply snippet_neq_output in E.
    - intros E. symmetry in E. now apply raw_neq_output in E.
    - exact E.
    - now apply output_not_made in Hin. }
  destruct r3 as [[] | e].
  2:{ intros [= <- <-]. rewrite Hr3. split; [| intros _; exact Hout].
      intros q H1 H2 _. now apply Hkm. }
  destruct Hr3 as (text & Hw3).
  destruct (fs_write_effect _ _ _ _ Hw3) as (_ & Hfr3 & _ & _).
  assert (Hsp3 : fs_lookup (disk w3) (snippet_at (cwd w)) = Some (File js_bytes)).
  { rewrite Hfr3 by apply snippet_neq_output.
    destruct (Hmade (snippet_at (cwd w))) as [E | (_ & Hn & _)].
    - rewrite E, Hfr2; [exact Hsp1 | apply snippet_neq_raw].
    - rewrite Hfr2 in Hn; [congruence | apply snippet_neq_raw]. }
  assert (Hrp3 : fs_lookup (disk w3) (raw_at (cwd w)) = Some (File buf)).
  { rewrite Hfr3 by apply raw_neq_output.
    destruct (Hmade (raw_at (cwd w))) as [E | (_ & Hn & _)]; congruence. }
  rewrite !bind_print, bind_unfold.
  match goal with
  | |- context [cleanup ?W] =>
      destruct (cleanup_ok W js_bytes buf) as (d4 & Hd4 & Hclean)
  end.
  { cbn [cwd disk say]. now rewrite Hcwd3. }
  { cbn [cwd disk say]. now rewrite Hcwd3. }
  rewrite Hclean. cbn [cwd disk console say] in *. subst d4.
  rewrite !bind_print. intros [= <- <-]. cbn [disk say]. rewrite Hcwd3.
  split; [| congruence].
  intros q H1 H2 H3. unfold kept_or_made.
  rewrite fs_lookup_delete_ne by congruence.
  rewrite fs_lookup_delete_ne by congruence.
  rewrite Hfr3 by exact H3. now apply Hkm.
Qed.

(** The same for the process. *)
Lemma run_frame (env : Env) (cwd0 : list string) (fs0 : gmap (list string) entry) :
  is_dir (pristine fs0) (removelast (script_dir env cwd0)) = true ->
  (forall q, q <> snippet_at (script_dir env cwd0) -> q <> raw_at (script_dir env cwd0) ->
             q <> output_at (script_dir env cwd0) ->
             kept_or_made (script_dir env cwd0) (pristine fs0)
               (disk (run_script env cwd0 fs0).2) q) /\
  ((run_script env cwd0 fs0).1 <> 0%Z ->
   fs_lookup (disk (run_script env cwd0 fs0).2) (output_at (script_dir env cwd0))
   = fs_lookup (pristine fs0) (output_at (script_dir env cwd0))).
Proof.
  intros Hup. unfold run_script.
  change {| files := fs0; journal := [] |} with (pristine fs0).
  rewrite main_start.
  destruct (fs_lookup (pristine fs0) (script_dir env cwd0)) as [[c |] |] eqn:Hdir;
    cbn [fst snd disk]; try (split; [intros; now left | reflexivity]).
  unfold guarded_pipeline, try_except.
  destruct (pipeline env (start_world (script_dir env cwd0) fs0)) as [r w1] eqn:Hp.
  apply pipeline_frame in Hp; [| exact Hup].
  cbn [cwd disk start_world] in Hp. destruct Hp as [Hfr Hout].
  destruct r as [code | e].
  - cbn [fst snd]. split; [exact Hfr |]. intros Hc. apply Hout. congruence.
  - rewrite bind_print_err, bind_unfold. unfold traceback_print_exc, emit.
    cbn [fst snd cwd disk console say]. split; [exact Hfr |].
    intros _. now apply Hout.
Qed.

Lemma input_neq_raw (dir : list string) : input_at dir <> raw_at dir.
Proof. rewrite raw_at_eq, input_at_eq. path_neq. Qed.

Lemma input_neq_output (dir : list string) : input_at dir <> output_at dir.
Proof. rewrite output_at_eq, input_at_eq. path_neq. Qed.

Lemma input_not_made (dir : list string) :
  input_at dir ∉ [lib_at dir; output_dir_at dir].
Proof.
  rewrite lib_at_app, output_dir_at_eq, input_at_eq.
  intros H. rewrite !elem_of_cons in H. destruct H as [H | [H | H]].
  - revert H. path_neq.
  - revert H. path_neq.
  - now apply elem_of_nil in H.
Qed.

(** X9. No run touches anything but its own paths.  In a tree where the
    parent of the script directory exists, every path other than the snippet,
    the raw binary and the output file holds at exit what it held at the
    start, unless it is [../lib] or [../lib/utils], was free, and holds a
    directory now.  So every other file keeps its content, and the third-party
    file is never modified. *)
Theorem run_touches_only_its_paths (env : Env) (cwd0 : list string)
    (fs0 : gmap (list string) entry) :
  is_dir (pristine fs0) (removelast (script_dir env cwd0)) = true ->
  (forall q,
     q <> snippet_at (script_dir env cwd0) ->
     q <> raw_at (script_dir env cwd0) ->
     q <> output_at (script_dir env cwd0) ->
     kept_or_made (script_dir env cwd0) (pristine fs0)
       (disk (run_script env cwd0 fs0).2) q) /\
  (forall q c,
     q <> snippet_at (script_dir env cwd0) ->
     q <> raw_at (script_dir env cwd0) ->
     q <> output_at (script_dir env cwd0) ->
     fs_lookup (pristine fs0) q = Some (File c) ->
     fs_lookup (disk (run_script env cwd0 fs0).2) q = Some (File c)) /\
  fs_lookup (disk (run_script env cwd0 fs0).2) (input_at (script_dir env cwd0))
  = fs_lookup (pristine fs0) (input_at (script_dir env cwd0)).
Proof.
  intros Hup. destruct (run_frame env cwd0 fs0 Hup) as [Hfr _].
  split; [exact Hfr |]. split.
  - intros q c H1 H2 H3 Hq.
    destruct (Hfr q H1 H2 H3) as [E | (_ & Hn & _)]; congruence.
  - destruct (Hfr (input_at (script_dir env cwd0))) as [E | (Hin & _)].
    + apply input_neq_snippet.
    + apply input_neq_raw.
    + apply input_neq_output.
    + exact E.
    + now apply input_not_made in Hin.
Qed.

Lemma run_touches_only_its_paths_witness :
  fs_lookup (disk (run_script (demo_env lut_exact) ["home"] demo_tree).2)
    (input_at (script_dir (demo_env lut_exact) ["home"]))
  = fs_lookup (pristine demo_tree) (input_at (script_dir (demo_env lut_exact) ["home"])).
Proof.
  apply (run_touches_only_its_paths (demo_env lut_exact) ["home"] demo_tree).
  vm_compute. reflexivity.
Defined.

(** X10. A run that fails leaves the output path as it was: an output file
    written by an earlier run is still there, with its content. *)
Theorem failed_run_keeps_output (env : Env) (cwd0 : list string)
    (fs0 : gmap (list string) entry) :
  is_dir (pristine fs0) (removelast (script_dir env cwd0)) = true ->
  (run_script env cwd0 fs0).1 <> 0%Z ->
  fs_lookup (disk (run_script env cwd0 fs0).2) (output_at (script_dir env cwd0))
  = fs_lookup (pristine fs0) (output_at (script_dir env cwd0)).
Proof. intros Hup. apply (run_frame env cwd0 fs0 Hup). Qed.

Lemma stale_located (lut : list byte) :
  exists out2,
    locate_and_decompress (js_decompress (demo_env lut))
      (script_dir (demo_env lut) ["home"]) (pristine stale_tree)
    = inr (out2, lut).
Proof. eexists. vm_compute. reflexivity. Qed.

Lemma failed_run_keeps_output_witness :
  fs_lookup (disk (run_script (demo_env lut_short) ["home"] stale_tree).2)
    (output_at (script_dir (demo_env lut_short) ["home"]))
  = Some (File (list_byte_of_string "old")).
Proof.
  rewrite (failed_run_keeps_output (demo_env lut_short) ["home"] stale_tree).
  - vm_compute. reflexivity.
  - vm_compute. reflexivity.
  - destruct (stale_located lut_short) as [out2 Hloc].
    rewrite (child_failure_run (demo_env lut_short) ["home"] stale_tree _
               ltac:(vm_compute; reflexivity) ltac:(vm_compute; reflexivity)
               eq_refl
               (node_too_small _ _ _ _ _ Hloc ltac:(vm_compute; reflexivity))
               ltac:(discriminate)).
    discriminate.
Defined.

(** ** Running the script again *)

Lemma dir_neq_output (dir : list string) : dir <> output_at dir.
Proof.
  rewrite output_at_eq. intros H. apply (f_equal length) in H.
  rewrite length_app in H. cbn [length] in H.
  destruct dir as [| a l]; [simpl in H; lia |].
  rewrite removelast_firstn_len, length_take in H. simpl in H. lia.
Qed.

Lemma parent_neq_output (dir : list string) : removelast dir <> output_at dir.
Proof.
  rewrite output_at_eq. intros H. apply (f_equal length) in H.
  rewrite length_app in H. cbn [length] in H. lia.
Qed.

Lemma kept_or_made_dir (dir : list string) (d d' : Disk) (q : list string) :
  kept_or_made dir d d' q -> is_dir d q = true -> is_dir d' q = true.
Proof.
  unfold is_dir. intros [E | (_ & _ & E)]; rewrite E; [tauto | reflexivity].
Qed.

Lemma kept_or_made_not_a_file (dir : list string) (d d' : Disk) (q : list string) :
  kept_or_made dir d d' q -> not_a_file d q = true -> not_a_file d' q = true.
Proof.
  unfold not_a_file. intros [E | (_ & _ & E)]; rewrite E; [tauto | reflexivity].
Qed.

(** After a successful run the tree is again one on which the script
    succeeds. *)
Lemma known_good_again (env : Env) (cwd0 : list string)
    (fs0 : gmap (list string) entry) (lut : list byte) (w1 : World) :
  known_good env cwd0 fs0 lut ->
  run_script env cwd0 fs0 = (0%Z, w1) ->
  known_good env cwd0 (files (disk w1)) lut.
Proof.
  intros [Hdir Hnode Hsn Hraw [out2 Hloc] Hsize [Hup Hlib Hutils Hout]] Hrun.
  set (dir := script_dir env cwd0) in *.
  rewrite up_at_eq in Hup.
  pose proof (run_frame env cwd0 fs0 Hup) as [Hfr _].
  rewrite Hrun in Hfr. cbn [snd] in Hfr. fold dir in Hfr.
  apply run_script_inv in Hrun.
  destruct Hrun as [(Hc & _) | (_ & _ & _ & _ & lut' & buf & ps & _ & Ho & Hs & Hr & Hd & _)];
    [discriminate |].
  fold dir in Ho, Hs, Hr, Hd.
  assert (Hsame : forall q, fs_lookup (pristine (files (disk w1))) q = fs_lookup (disk w1) q)
    by reflexivity.
  split; fold dir.
  - unfold is_dir. rewrite Hsame.
    apply (kept_or_made_dir dir (pristine fs0)); [| exact Hdir].
    apply Hfr; [rewrite snippet_at_eq | rewrite raw_at_eq | apply dir_neq_output];
      apply snoc_neq_self.
  - exact Hnode.
  - unfold not_a_dir, is_dir. now rewrite Hsame, Hs.
  - unfold not_a_dir, is_dir. now rewrite Hsame, Hr.
  - exists out2. rewrite <- Hloc. apply locate_frame. rewrite Hsame.
    destruct (Hfr (input_at dir)) as [E | (Hin & _)].
    + apply input_neq_snippet.
    + apply input_neq_raw.
    + apply input_neq_output.
    + exact E.
    + now apply input_not_made in Hin.
  - exact Hsize.
  - split; fold dir.
    + rewrite up_at_eq. unfold is_dir. rewrite Hsame.
      apply (kept_or_made_dir dir (pristine fs0)); [| exact Hup].
      apply Hfr; [apply parent_neq_snippet | apply parent_neq_raw
                  | apply parent_neq_output].
    + unfold not_a_file. rewrite Hsame.
      apply (kept_or_made_not_a_file dir (pristine fs0)); [| exact Hlib].
      apply Hfr; [apply lib_neq_snippet | apply lib_neq_raw | apply lib_neq_output].
    + unfold not_a_file. now rewrite Hsame, Hd.
    + unfold not_a_dir, is_dir. now rewrite Hsame, Ho.
Qed.

(** X11. The script can be run again.  After a successful run on a
    known-good tree, a second run on the tree the first one left succeeds as
    well, removes its intermediate files again, and writes the same text to
    the output file. *)
Theorem second_run_same_output (env : Env) (cwd0 : list string)
    (fs0 : gmap (list string) entry) (lut : list byte) :
  known_good env cwd0 fs0 lut ->
  exists w1 w2 buf,
    run_script env cwd0 fs0 = (0%Z, w1) /\
    run_script env cwd0 (files (disk w1)) = (0%Z, w2) /\
    fs_lookup (disk w1) (output_at (script_dir env cwd0))
    = Some (File (list_byte_of_string (dart_code buf))) /\
    fs_lookup (disk w2) (output_at (script_dir env cwd0))
    = Some (File (list_byte_of_string (dart_code buf))) /\
    fs_lookup (disk w2) (snippet_at (script_dir env cwd0)) = None /\
    fs_lookup (disk w2) (raw_at (script_dir env cwd0)) = None.
Proof.
  intros KG.
  destruct (known_good_success env cwd0 fs0 lut KG)
    as (w1 & buf & log & Hrun1 & Hsel & Ho1 & _).
  pose proof (known_good_again env cwd0 fs0 lut w1 KG Hrun1) as KG2.
  destruct (known_good_success env cwd0 _ lut KG2)
    as (w2 & buf2 & log2 & Hrun2 & Hsel2 & Ho2 & Hs2 & Hr2 & _).
  rewrite Hsel in Hsel2. injection Hsel2 as <- <-.
  exists w1, w2, buf. now repeat split.
Qed.

Lemma second_run_same_output_witness :
  exists w1 w2 buf,
    run_script (demo_env lut_exact) ["home"] demo_tree = (0%Z, w1) /\
    run_script (demo_env lut_exact) ["home"] (files (disk w1)) = (0%Z, w2) /\
    fs_lookup (disk w1) (output_at (script_dir (demo_env lut_exact) ["home"]))
    = Some (File (list_byte_of_string (dart_code buf))) /\
    fs_lookup (disk w2) (output_at (script_dir (demo_env lut_exact) ["home"]))
    = Some (File (list_byte_of_string (dart_code buf))).
Proof.
  destruct (second_run_same_output (demo_env lut_exact) ["home"] demo_tree lut_exact)
    as (w1 & w2 & buf & H1 & H2 & H3 & H4 & _).
  - apply demo_known_good. rewrite lut_exact_len. reflexivity.
  - exists w1, w2, buf.
    split; [exact H1 |]. split; [exact H2 |]. split; [exact H3 | exact H4].
Defined.

(** ** The console of a successful run *)

Lemma convert_returns (w : World) (data : list byte) :
  fs_read (disk w) (raw_at (cwd w)) = FsOk data ->
  output_writable (disk w) (cwd w) ->
  exists dm d',
    convert_to_dart w
    = (Return tt, {| cwd := cwd w; disk := d';
                     console := console w ++ read_lines data ++ written_lines data |}) /\
    made_dirs [lib_at (cwd w); output_dir_at (cwd w)] (disk w) dm /\
    fs_write dm (output_at (cwd w)) (list_byte_of_string (dart_code data)) = FsOk d'.
Proof.
  intros Hread Hok. rewrite (convert_start w data Hread), bind_unfold.
  destruct (makedirs_ok (say w (read_lines data))) as (w2 & Hrun & Hc & Hd & Ho);
    [exact Hok |].
  cbn [cwd disk say] in Hc, Hd, Ho.
  assert (Hup : is_dir (disk w) (removelast (cwd w)) = true).
  { destruct Hok as [Hup _ _ _]. now rewrite up_at_eq in Hup. }
  pose proof (makedirs_output_made _ _ _ Hrun Hup) as Hmade.
  pose proof Hrun as Hstep. unfold os_makedirs in Hstep.
  apply makedirs_from_inv in Hstep. destruct Hstep as (_ & Hk & _).
  cbn [cwd disk console say] in Hmade, Hk.
  rewrite Hrun. rewrite bind_unfold. unfold open_write, os_call. rewrite Hc.
  change (resolve (cwd w) output_path) with (output_at (cwd w)).
  assert (Hw : fs_write (disk w2) (output_at (cwd w))
                 (list_byte_of_string (dart_code data))
               = FsOk (commit (disk w2)
                         (<[output_at (cwd w)
                            := File (list_byte_of_string (dart_code data))]>
                            (files (disk w2)))
                         (Wrote (output_at (cwd w))))).
  { apply fs_write_intro; [exact Ho |].
    rewrite removelast_output. now apply is_dir_lookup. }
  rewrite Hw. rewrite !bind_print, print_eq.
  exists (disk w2). eexists. split; [| split; [exact Hmade | exact Hw]].
  change (pathname_str output_path) with "../lib/utils/mixbox_lut_data.dart".
  unfold say, set_disk, written_lines. cbn [cwd disk console].
  rewrite Hc, Hk. rewrite <- !app_assoc. reflexivity.
Qed.

Lemma known_good_extractable (env : Env) (cwd0 : list string)
    (fs0 : gmap (list string) entry) (lut : list byte) :
  known_good env cwd0 fs0 lut ->
  exists out2 buf log, extractable env cwd0 fs0 out2 lut buf log.
Proof.
  intros [Hdir Hnode Hsn Hraw [out2 Hloc] Hsize _].
  destruct (select_ge lut Hsize) as (buf & log & Hsel).
  exists out2, buf, log. now split.
Qed.

Lemma known_good_console (env : Env) (cwd0 : list string)
    (fs0 : gmap (list string) entry) (out2 : string) (lut buf : list byte)
    (log : string) :
  extractable env cwd0 fs0 out2 lut buf log ->
  output_writable (pristine fs0) (script_dir env cwd0) ->
  exists d',
    run_script env cwd0 fs0
    = (0%Z, {| cwd := script_dir env cwd0; disk := d';
               console :=
                 banner ++ step_lines
                 ++ extraction_lines
                      (finished_child (js_decompress env) fs0 (script_dir env cwd0)
                         out2 log buf)
                 ++ read_lines buf ++ written_lines buf ++ closing_lines |}).
Proof.
  intros Hex Hok. set (dir := script_dir env cwd0) in *.
  unfold run_script. change {| files := fs0; journal := [] |} with (pristine fs0).
  rewrite (run_until_conversion env cwd0 fs0 out2 lut buf log Hex). fold dir.
  unfold try_except. rewrite bind_unfold.
  set (W := conversion_world fs0 dir buf
              (finished_child (js_decompress env) fs0 dir out2 log buf)).
  destruct (convert_returns W buf) as (dm & d3 & Hconv & Hmade & Hw3).
  { unfold fs_read. subst W. cbn [cwd disk conversion_world]. now rewrite raw_with_raw. }
  { subst W. cbn [cwd disk conversion_world].
    apply (output_writable_frame (pristine fs0)); [| exact Hok].
    intros q H1 H2. now apply lookup_with_raw. }
  rewrite Hconv. subst W. cbn [cwd disk console conversion_world] in *.
  destruct (fs_write_effect _ _ _ _ Hw3) as (_ & Hfr3 & _ & _).
  assert (Hsp3 : fs_lookup d3 (snippet_at dir) = Some (File js_bytes)).
  { rewrite Hfr3 by apply snippet_neq_output.
    destruct (Hmade (snippet_at dir)) as [E | (_ & Hn & _)].
    - rewrite E. apply snippet_with_raw.
    - rewrite snippet_with_raw in Hn. discriminate. }
  assert (Hrp3 : fs_lookup d3 (raw_at dir) = Some (File buf)).
  { rewrite Hfr3 by apply raw_neq_output.
    destruct (Hmade (raw_at dir)) as [E | (_ & Hn & _)].
    - rewrite E. apply raw_with_raw.
    - rewrite raw_with_raw in Hn. discriminate. }
  rewrite !bind_print, bind_unfold.
  match goal with
  | |- context [cleanup ?W] =>
      destruct (cleanup_ok W js_bytes buf) as (d4 & Hd4 & Hclean)
  end.
  { exact Hsp3. }
  { exact Hrp3. }
  rewrite Hclean. cbn [cwd disk console say] in *.
  rewrite !bind_print. eexists.
  unfold say, closing_lines. cbn [cwd disk console mret Py_ret].
  rewrite <- !app_assoc. reflexivity.
Qed.

Lemma warning_lines_inv (r : Completed) (ev : event) :
  ev ∈ warning_lines r ->
  stderr r <> "" /\ ev = PrintErr ("Warnings: " +:+ stderr r).
Proof.
  unfold warning_lines. destruct (bool_decide (stderr r = "")) eqn:E.
  - intros H. now apply elem_of_nil in H.
  - intros H. apply list_elem_of_singleton in H. split; [| exact H].
    now apply bool_decide_eq_false in E.
Qed.

Lemma warning_lines_intro (r : Completed) :
  stderr r <> "" -> PrintErr ("Warnings: " +:+ stderr r) ∈ warning_lines r.
Proof.
  intros H. unfold warning_lines.
  rewrite (bool_decide_eq_false_2 _ H). apply list_elem_of_here.
Qed.

(** X12. The console of a successful run.  On a known-good tree the child
    exits with status 0 and the script exits with status 0 after printing, in
    this order: the banner, the lines of the first two steps, the standard
    output of the child, its standard error as warnings if there is any, the
    lines of the conversion with the number of bytes read and the size of the
    text written, the two lines of the cleanup and the closing lines.  The
    line of warnings is the only one that goes to standard error, and it is
    printed exactly when the child wrote on its standard error. *)
Theorem success_transcript (env : Env) (cwd0 : list string)
    (fs0 : gmap (list string) entry) (lut : list byte) :
  known_good env cwd0 fs0 lut ->
  exists w' r buf,
    node (js_decompress env) (script_dir env cwd0)
         (with_snippet fs0 (script_dir env cwd0))
    = (r, with_raw fs0 (script_dir env cwd0) buf) /\
    returncode r = 0%Z /\
    run_script env cwd0 fs0 = (0%Z, w') /\
    console w'
    = banner ++ step_lines
      ++ extraction_lines r
      ++ read_lines buf ++ written_lines buf ++ closing_lines /\
    (forall ev, ev ∈ console w' -> is_error_event ev = true ->
                stderr r <> "" /\ ev = PrintErr ("Warnings: " +:+ stderr r)) /\
    (stderr r <> "" -> PrintErr ("Warnings: " +:+ stderr r) ∈ console w').
Proof.
  intros KG.
  destruct (known_good_extractable env cwd0 fs0 lut KG) as (out2 & buf & log & Hex).
  destruct (known_good_console env cwd0 fs0 out2 lut buf log Hex) as [d' Hrun].
  { now destruct KG. }
  pose proof Hex as [Hdir Hnode Hsn Hraw Hloc Hsel].
  eexists _, (finished_child (js_decompress env) fs0 (script_dir env cwd0) out2 log buf),
    buf.
  split; [exact (node_ok _ _ _ _ _ _ _ Hdir Hraw Hloc Hsel) |].
  split; [reflexivity |]. split; [exact Hrun |]. cbn [console].
  split; [reflexivity |]. split.
  - intros ev Hin Herr.
    assert (Hp : forall l, Forall (fun e => is_error_event e = false) l ->
                           ev ∈ l -> False).
    { intros l Hl Hev. rewrite Forall_forall in Hl. apply Hl in Hev. congruence. }
    unfold extraction_lines in Hin. rewrite !elem_of_app in Hin.
    destruct Hin as [H | [H | [[H | [H | H]] | [H | [H | H]]]]].
    + exfalso. revert H. apply Hp. repeat constructor.
    + exfalso. revert H. apply Hp. repeat constructor.
    + exfalso. revert H. apply Hp. repeat constructor.
    + now apply warning_lines_inv.
    + exfalso. revert H. apply Hp. repeat constructor.
    + exfalso. revert H. apply Hp. repeat constructor.
    + exfalso. revert H. apply Hp. repeat constructor.
    + exfalso. revert H. apply Hp. repeat constructor.
  - intros Hne. unfold extraction_lines. rewrite !elem_of_app.
    right. right. left. right. left. now apply warning_lines_intro.
Qed.

Lemma chatty_known_good (lut : list byte) :
  (expectedSize <= len lut)%Z ->
  known_good (chatty_env lut) ["home"] demo_tree lut.
Proof.
  intros Hsize. split.
  - vm_compute. reflexivity.
  - reflexivity.
  - vm_compute. reflexivity.
  - vm_compute. reflexivity.
  - apply chatty_located.
  - exact Hsize.
  - split; vm_compute; reflexivity.
Qed.

Lemma chatty_warned (lut : list byte) :
  evaluation_stderr (js_decompress (chatty_env lut))
    (script_dir (chatty_env lut) ["home"]) (pristine demo_tree)
  = "(node:1) Warning: slow path" +:+ nl.
Proof. vm_compute. reflexivity. Qed.

Lemma success_transcript_witness :
  exists w',
    run_script (chatty_env lut_exact) ["home"] demo_tree = (0%Z, w') /\
    PrintErr ("Warnings: " +:+ "(node:1) Warning: slow path" +:+ nl) ∈ console w'.
Proof.
  destruct (success_transcript (chatty_env lut_exact) ["home"] demo_tree lut_exact)
    as (w' & r & buf & Hn & _ & Hrun & _ & _ & Hwarn).
  - apply chatty_known_good. rewrite lut_exact_len. reflexivity.
  - exists w'. split; [exact Hrun |].
    assert (Herr : stderr r = "(node:1) Warning: slow path" +:+ nl).
    { destruct (chatty_located lut_exact) as [out2 Hloc].
      assert (Hdir : is_dir (pristine demo_tree)
                       (script_dir (chatty_env lut_exact) ["home"]) = true)
        by (vm_compute; reflexivity).
      assert (Hraw : not_a_dir (pristine demo_tree)
                       (raw_at (script_dir (chatty_env lut_exact) ["home"])) = true)
        by (vm_compute; reflexivity).
      rewrite (node_ok _ _ _ _ _ _ _ Hdir Hraw Hloc
                 (select_equal lut_exact lut_exact_len)) in Hn.
      apply (f_equal fst) in Hn. cbn [fst] in Hn. rewrite <- Hn.
      cbn [stderr finished_child exited]. apply chatty_warned. }
    rewrite <- Herr. apply Hwarn. rewrite Herr. discriminate.
Defined.

(** ** [cleanup] on its own *)

Lemma cleanup_step (f : string) (w : World) :
  let p := resolve (cwd w) (relative [f]) in
  not_a_dir (disk w) p = true ->
  p <> [] ->
  exists w',
    (present ← os_path_exists (relative [f]);
     if (present : bool) then
       os_remove (relative [f]) ;;
       print ("Cleaned up " +:+ f)
     else mret tt) w = (Return tt, w') /\
    cwd w' = cwd w /\
    fs_lookup (disk w') p = None /\
    (forall q, q <> p -> fs_lookup (disk w') q = fs_lookup (disk w) q) /\
    console w'
    = console w ++ (if fs_exists (disk w) p then [Print ("Cleaned up " +:+ f)] else []).
Proof.
  intros p Hnd Hne. rewrite bind_unfold. unfold os_path_exists, fs_exists.
  fold p. unfold not_a_dir, is_dir in Hnd.
  destruct (fs_lookup (disk w) p) as [[c |] |] eqn:Hl; [| discriminate |].
  - rewrite bind_unfold. unfold os_remove, os_call. fold p.
    rewrite (fs_unlink_ok _ _ _ Hl). rewrite print_eq.
    eexists. split; [reflexivity |]. cbn [cwd disk console say set_disk].
    split; [reflexivity |]. split; [now apply fs_lookup_delete_eq |].
    split; [| reflexivity].
    intros q Hq. apply fs_lookup_delete_ne. congruence.
  - exists w. cbn [mret Py_ret]. split; [reflexivity |]. split; [reflexivity |].
    split; [exact Hl |]. split; [reflexivity |]. now rewrite app_nil_r.
Qed.

Lemma cleanup_absent (w : World) :
  fs_lookup (disk w) (snippet_at (cwd w)) = None ->
  fs_lookup (disk w) (raw_at (cwd w)) = None ->
  cleanup w = (Return tt, w).
Proof.
  intros H1 H2. unfold cleanup. cbn [for_each].
  rewrite bind_unfold, bind_unfold. unfold os_path_exists at 1, fs_exists.
  change (resolve (cwd w) (relative ["extract_lut.js"])) with (snippet_at (cwd w)).
  rewrite H1. cbn [mret Py_ret].
  rewrite bind_unfold, bind_unfold. unfold os_path_exists, fs_exists.
  change (resolve (cwd w) (relative ["mixbox_lut_raw.bin"])) with (raw_at (cwd w)).
  rewrite H2. reflexivity.
Qed.

(** X13. [cleanup] removes what is there.  When neither of the two names is
    a directory, [cleanup] returns; afterwards neither file exists and every
    other path is as it was; a line [Cleaned up ...] is printed for each file
    that was there and for no other; and a second call changes nothing and
    prints nothing. *)
Theorem cleanup_removes_what_is_there (w : World) :
  not_a_dir (disk w) (snippet_at (cwd w)) = true ->
  not_a_dir (disk w) (raw_at (cwd w)) = true ->
  exists w',
    cleanup w = (Return tt, w') /\
    cwd w' = cwd w /\
    fs_lookup (disk w') (snippet_at (cwd w)) = None /\
    fs_lookup (disk w') (raw_at (cwd w)) = None /\
    (forall q, q <> snippet_at (cwd w) -> q <> raw_at (cwd w) ->
               fs_lookup (disk w') q = fs_lookup (disk w) q) /\
    console w'
    = console w
      ++ (if fs_exists (disk w) (snippet_at (cwd w))
          then [Print "Cleaned up extract_lut.js"] else [])
      ++ (if fs_exists (disk w) (raw_at (cwd w))
          then [Print "Cleaned up mixbox_lut_raw.bin"] else []) /\
    cleanup w' = (Return tt, w').
Proof.
  intros Hs Hr.
  destruct (cleanup_step "extract_lut.js" w Hs (snippet_nonempty _))
    as (w1 & Hrun1 & Hc1 & Hn1 & Hfr1 & Hk1).
  change (resolve (cwd w) (relative ["extract_lut.js"])) with (snippet_at (cwd w)) in *.
  assert (Hr1 : not_a_dir (disk w1) (resolve (cwd w1) (relative ["mixbox_lut_raw.bin"]))
                = true).
  { rewrite Hc1. change (resolve (cwd w) _) with (raw_at (cwd w)).
    unfold not_a_dir, is_dir in *. rewrite Hfr1; [exact Hr |].
    intros E. symmetry in E. now apply snippet_neq_raw in E. }
  destruct (cleanup_step "mixbox_lut_raw.bin" w1 Hr1) as (w2 & Hrun2 & Hc2 & Hn2 & Hfr2 & Hk2).
  { rewrite Hc1. apply raw_nonempty. }
  rewrite Hc1 in Hn2, Hfr2, Hk2.
  change (resolve (cwd w) (relative ["mixbox_lut_raw.bin"])) with (raw_at (cwd w)) in *.
  assert (Hs2 : fs_lookup (disk w2) (snippet_at (cwd w)) = None).
  { rewrite Hfr2; [exact Hn1 | apply snippet_neq_raw]. }
  exists w2. split.
  { unfold cleanup. cbn [for_each]. rewrite bind_unfold, Hrun1.
    rewrite bind_unfold, Hrun2. reflexivity. }
  split; [congruence |]. split; [exact Hs2 |]. split; [exact Hn2 |]. split.
  { intros q H1 H2. now rewrite Hfr2, Hfr1. }
  split.
  { rewrite Hk2, Hk1, <- app_assoc. unfold fs_exists.
    rewrite (Hfr1 (raw_at (cwd w)))
      by (intros E; symmetry in E; now apply snippet_neq_raw in E).
    reflexivity. }
  apply cleanup_absent; rewrite Hc2, Hc1; assumption.
Qed.

Lemma cleanup_removes_what_is_there_witness :
  exists w',
    cleanup littered_world = (Return tt, w') /\
    fs_lookup (disk w') (snippet_at (cwd littered_world)) = None /\
    fs_lookup (disk w') (raw_at (cwd littered_world)) = None /\
    fs_lookup (disk w') ["home"; "proj"; "scripts"; "notes.txt"] = Some (File []) /\
    console w' = [Print "Cleaned up extract_lut.js"; Print "Cleaned up mixbox_lut_raw.bin"].
Proof.
  destruct (cleanup_removes_what_is_there littered_world)
    as (w' & Hrun & _ & Hs & Hr & Hfr & Hk & _).
  - vm_compute. reflexivity.
  - vm_compute. reflexivity.
  - exists w'. split; [exact Hrun |]. split; [exact Hs |]. split; [exact Hr |].
    split.
    + rewrite Hfr; [vm_compute; reflexivity | discriminate | discriminate].
    + rewrite Hk. reflexivity.
Defined.

(** ** The size that [convert_to_dart] reports *)

Lemma list_byte_of_string_app (a b : string) :
  list_byte_of_string (a +:+ b) = list_byte_of_string a ++ list_byte_of_string b.
Proof.
  unfold list_byte_of_string.
  induction a as [| c a IH]; [reflexivity |].
  rewrite sapp_cons. cbn [list_ascii_of_string map app]. now rewrite IH.
Qed.

Lemma byte_count_app (a b : string) :
  byte_count (a +:+ b) = (byte_count a + byte_count b)%N.
Proof.
  unfold byte_count. rewrite list_byte_of_string_app, length_app. lia.
Qed.

Lemma py_strlen_app (a b : string) :
  py_strlen (a +:+ b) = (py_strlen a + py_strlen b)%N.
Proof.
  unfold py_strlen. rewrite list_byte_of_string_app, filter_app, length_app. lia.
Qed.

Lemma byte_str_count (b : byte) : byte_count (byte_str b) = py_strlen (byte_str b).
Proof. destruct b; vm_compute; reflexivity. Qed.

Lemma join_count (bs : list byte) :
  byte_count (join ", " (map byte_str bs)) = py_strlen (join ", " (map byte_str bs)).
Proof.
  induction bs as [| b bs IH]; [reflexivity |].
  destruct bs as [| b' bs].
  - cbn [map]. rewrite join_single. apply byte_str_count.
  - cbn [map] in *. rewrite join_cons2.
    rewrite !byte_count_app, !py_strlen_app, IH, byte_str_count. reflexivity.
Qed.

Lemma data_line_count (lut_data : list byte) (i : nat) :
  byte_count (data_line lut_data i) = py_strlen (data_line lut_data i).
Proof.
  unfold data_line. destruct (_ <? _)%nat;
    rewrite !byte_count_app, !py_strlen_app, join_count; reflexivity.
Qed.

Lemma flat_count (ls : list string) :
  Forall (fun l => byte_count l = py_strlen l) ls ->
  byte_count (flat ls) = py_strlen (flat ls).
Proof.
  induction 1 as [| l ls Hl _ IH]; [reflexivity |].
  rewrite flat_cons, byte_count_app, py_strlen_app. congruence.
Qed.

(** The text has two bytes more than characters: the two multiplication
    signs of the header. *)
Lemma dart_code_count (lut_data : list byte) :
  byte_count (dart_code lut_data) = (py_strlen (dart_code lut_data) + 2)%N.
Proof.
  rewrite dart_code_flat. rewrite !byte_count_app, !py_strlen_app.
  rewrite flat_count.
  - assert (H : byte_count dart_header = (py_strlen dart_header + 2)%N)
      by (vm_compute; reflexivity).
    assert (H1 : byte_count "];" = py_strlen "];") by reflexivity.
    assert (H2 : byte_count nl = py_strlen nl) by reflexivity.
    rewrite H, H1, H2. lia.
  - unfold data_lines. apply Forall_forall. intros l Hl.
    apply elem_of_map in Hl. destruct Hl as (i & -> & _). apply data_line_count.
Qed.

(** X14. The size that [convert_to_dart] prints last, [File size: N bytes],
    is the number of characters of the generated text; the file, written as
    UTF-8, holds two bytes more (the header has two multiplication signs). *)
Theorem reported_size_counts_characters (w : World) (lut_data : list byte) :
  fs_read (disk w) (raw_at (cwd w)) = FsOk lut_data ->
  output_writable (disk w) (cwd w) ->
  exists w',
    convert_to_dart w = (Return tt, w') /\
    fs_lookup (disk w') (output_at (cwd w))
    = Some (File (list_byte_of_string (dart_code lut_data))) /\
    last (console w')
    = Some (Print ("File size: " +:+ str (py_strlen (dart_code lut_data)) +:+ " bytes")) /\
    byte_count (dart_code lut_data) = (py_strlen (dart_code lut_data) + 2)%N.
Proof.
  intros Hread Hok.
  destruct (convert_returns w lut_data Hread Hok) as (dm & d' & Hconv & _ & Hw).
  eexists. split; [exact Hconv |]. cbn [disk console]. split; [| split].
  - now destruct (fs_write_effect _ _ _ _ Hw) as (Hl & _).
  - unfold written_lines.
    rewrite !app_assoc.
    match goal with
    | |- last (?l ++ [?a; ?b]) = _ =>
        change (l ++ [a; b]) with (l ++ [a] ++ [b]); rewrite (app_assoc l [a] [b])
    end.
    apply last_snoc.
  - apply dart_code_count.
Qed.

Lemma reported_size_counts_characters_witness :
  exists w',
    convert_to_dart formatter_world = (Return tt, w') /\
    last (console w')
    = Some (Print ("File size: " +:+ str (py_strlen (dart_code lut_tiny)) +:+ " bytes")) /\
    byte_count (dart_code lut_tiny) = (py_strlen (dart_code lut_tiny) + 2)%N.
Proof.
  destruct (reported_size_counts_characters formatter_world lut_tiny)
    as (w' & Hrun & _ & Hlast & Hsize).
  - vm_compute. reflexivity.
  - split; vm_compute; reflexivity.
  - exists w'. split; [exact Hrun |]. split; [exact Hlast | exact Hsize].
Defined.

(** ** The width of the data lines, and short tables *)

Lemma length_sapp (a b : string) :
  String.length (a +:+ b) = (String.length a + String.length b)%nat.
Proof.
  induction a as [| c a IH]; [reflexivity |].
  rewrite sapp_cons. simpl. now rewrite IH.
Qed.

Lemma byte_str_length (b : byte) : (1 <= String.length (byte_str b) <= 3)%nat.
Proof. destruct b; vm_compute; lia. Qed.

Lemma join_length (bs : list byte) (b : byte) :
  (1 <= String.length (join ", " (map byte_str (b :: bs)))
   /\ String.length (join ", " (map byte_str (b :: bs))) + 2 <= 5 * length (b :: bs))%nat.
Proof.
  revert b. induction bs as [| b' bs IH]; intros b.
  - cbn [map]. rewrite join_single. pose proof (byte_str_length b). simpl. lia.
  - specialize (IH b'). cbn [map] in *. rewrite join_cons2, !length_sapp.
    pose proof (byte_str_length b). cbn [length] in *.
    change (String.length ", ") with 2%nat. lia.
Qed.

(** X15. No data line is wider than 81 characters: two blanks, at most 16
    values of one to three digits, their separators, a comma; with its
    newline a line has between 4 and 82 characters. *)
Theorem data_line_width (lut_data : list byte) (k : nat) (line : string) :
  data_lines lut_data !! k = Some line ->
  (4 <= String.length line <= 82)%nat.
Proof.
  intros Hk. apply data_lines_lookup in Hk. destruct Hk as [Hlt Hline].
  destruct (chunk_length lut_data k Hlt) as [Hlen _].
  destruct (take 16 (drop (16 * k) lut_data)) as [| b bs] eqn:Hc;
    [simpl in Hlen; lia |].
  pose proof (join_length bs b) as Hj.
  rewrite Hline. unfold render.
  destruct (S k <? length (data_lines lut_data))%nat;
    rewrite !length_sapp; change (String.length "  ") with 2%nat;
    change (String.length ",") with 1%nat; change (String.length nl) with 1%nat;
    change (String.length "") with 0%nat; lia.
Qed.

Lemma data_line_width_witness :
  data_lines lut_tiny !! 2%nat = Some ("  42, 42, 42" +:+ nl) /\
  (4 <= String.length ("  42, 42, 42" +:+ nl) <= 82)%nat.
Proof.
  assert (H : data_lines lut_tiny !! 2%nat = Some ("  42, 42, 42" +:+ nl))
    by (vm_compute; reflexivity).
  split; [exact H |].
  exact (data_line_width lut_tiny 2 _ H).
Defined.

Lemma data_lines_one (lut_data : list byte) :
  lut_data <> [] -> (length lut_data <= 16)%nat ->
  data_lines lut_data = ["  " +:+ join ", " (map byte_str lut_data) +:+ nl].
Proof.
  intros Hne Hlen.
  assert (Hn : length (data_lines lut_data) = 1%nat).
  { rewrite data_lines_length.
    destruct lut_data as [| b bs]; [congruence |]. cbn [length] in *.
    pose proof (Nat.div_mod_eq (S (length bs) + 15) 16) as Hq.
    pose proof (Nat.mod_upper_bound (S (length bs) + 15) 16) as Hr. lia. }
  destruct (data_lines lut_data) as [| l [| l' ls]] eqn:E; try discriminate.
  assert (Hl : data_lines lut_data !! 0%nat = Some l) by now rewrite E.
  apply data_lines_lookup in Hl. destruct Hl as [_ ->].
  rewrite E. cbn [length Nat.ltb Nat.leb]. unfold render.
  change (16 * 0)%nat with 0%nat. rewrite drop_0, take_ge by lia.
  now rewrite sapp_nil_l.
Qed.

(** X16. Short tables.  The literal has no data line exactly when the table
    is empty; then it is the header followed by the closing line, and reads
    back as the empty list.  A table of one to sixteen bytes gives a single
    data line, with no comma at its end. *)
Theorem short_tables (lut_data : list byte) :
  (data_lines lut_data = [] <-> lut_data = []) /\
  (lut_data = [] ->
   dart_code lut_data = dart_header +:+ "];" +:+ nl /\
   array_entries (dart_code lut_data) = Some []) /\
  (lut_data <> [] -> (length lut_data <= 16)%nat ->
   data_lines lut_data = ["  " +:+ join ", " (map byte_str lut_data) +:+ nl]).
Proof.
  split; [| split].
  - split.
    + intros H. destruct lut_data as [| b bs]; [reflexivity |].
      rewrite data_lines_cons in H by discriminate. discriminate.
    + intros ->. apply data_lines_nil.
  - intros ->. split; [reflexivity |].
    apply (array_entries_dart_code []).
  - apply data_lines_one.
Qed.

Lemma short_tables_witness :
  dart_code [] = dart_header +:+ "];" +:+ nl /\
  data_lines [x07; xff]%byte = ["  7, 255" +:+ nl].
Proof.
  split.
  - apply (short_tables []). reflexivity.
  - apply (short_tables [x07; xff]%byte); [discriminate | simpl; lia].
Defined.

(** ** What the snippet evaluates *)

(** [indexOf] returns the offset of the first occurrence. *)
Lemma indexOf_first (needle hay pre : string) :
  needle <> "" -> first_at needle hay pre ->
  indexOf hay needle = Z.of_nat (String.length pre).
Proof.
  intros Hne [[rest E] Hmin].
  pose proof (indexOf_bound hay pre needle rest Hne E) as Hb.
  unfold indexOf in *.
  destruct (String.index 0 needle hay) as [m |] eqn:Hi; [| lia].
  apply String.index_correct1 in Hi.
  destruct (substring_occurs_at hay needle m Hi Hne) as (pre' & post' & E' & Hlen).
  apply Hmin in E'. lia.
Qed.

Lemma js_substring_at (pre x rest : string) :
  js_substring (pre +:+ x +:+ rest)
    (Z.of_nat (String.length pre)) (Z.of_nat (String.length (pre +:+ x)))
  = x.
Proof.
  unfold js_substring. rewrite !length_sapp.
  rewrite !Z.max_r by lia. rewrite !Z.min_l by lia. rewrite !Nat2Z.id.
  rewrite Nat.min_l, Nat.max_r by lia.
  replace (String.length pre + String.length x - String.length pre)%nat
    with (String.length x) by lia.
  apply substring_at.
Qed.

(** X17. What the snippet evaluates.  When the first [function decompress(]
    of the third-party file comes before its first [var lut = decompress],
    the text handed to [eval] is the block from the one up to the other, and
    the call of [decompress] that follows is made on the string that the
    pattern captured: the snippet goes on with the table that the evaluation
    and the call yield, and stops if they throw. *)
Theorem snippet_evaluates_function_block
    (dec : JsRuntime) (dir : list string) (d : Disk)
    (bytes : list byte) (a b rest body : string) :
  fs_lookup d (input_at dir) = Some (File bytes) ->
  string_of_list_byte bytes
  = a +:+ ("function decompress(" +:+ b) +:+ "var lut = decompress" +:+ rest ->
  first_at "function decompress(" (string_of_list_byte bytes) a ->
  first_at "var lut = decompress" (string_of_list_byte bytes)
    (a +:+ "function decompress(" +:+ b) ->
  lut_match (string_of_list_byte bytes) = Some body ->
  (forall lut, dec ("function decompress(" +:+ b) body = Some lut ->
     exists out2, locate_and_decompress dec dir d = inr (out2, lut)) /\
  (dec ("function decompress(" +:+ b) body = None ->
     exists done, locate_and_decompress dec dir d = inl done).
Proof.
  intros Hb Hcode Hfn Hend Hm.
  assert (Hloc : locate_and_decompress dec dir d
                 = match dec ("function decompress(" +:+ b) body with
                   | None =>
                       inl (exited 1
                              (("Found compressed LUT, length: "
                                +:+ str (js_strlen body) +:+ nl)
                               +:+ logged dec ("function decompress(" +:+ b) body)
                              (warned dec ("function decompress(" +:+ b) body))
                   | Some lut =>
                       inr ((("Found compressed LUT, length: "
                              +:+ str (js_strlen body) +:+ nl)
                             +:+ logged dec ("function decompress(" +:+ b) body)
                            +:+ "Decompressed LUT, length: "
                            +:+ str (Z.to_N (len lut)) +:+ nl
                            +:+ "Expected length: 786432 (64*64*64*3)" +:+ nl, lut)
                   end).
  { unfold locate_and_decompress, fs_read.
    change (walk dir mixbox_rel) with (input_at dir). rewrite Hb, Hm.
    rewrite (indexOf_first "function decompress(" _ _ ltac:(discriminate) Hfn).
    rewrite (indexOf_first "var lut = decompress" _ _ ltac:(discriminate) Hend).
    destruct (Z.of_nat (String.length a) =? -1)%Z eqn:E;
      [apply Z.eqb_eq in E; lia |].
    cbv zeta. rewrite Hcode.
    rewrite (js_substring_at a ("function decompress(" +:+ b)
               ("var lut = decompress" +:+ rest)).
    reflexivity. }
  rewrite Hloc. split.
  - intros lut ->. eexists. reflexivity.
  - intros ->. eexists. reflexivity.
Qed.

Lemma snippet_evaluates_function_block_witness :
  exists out2,
    locate_and_decompress
      (silent (fun code data =>
         if String.eqb code ("function decompress(s) { return inflate(s); }" +:+ nl)
            && String.eqb data "eJzt"
         then Some lut_tiny else None))
      ["home"; "proj"; "scripts"] (pristine demo_tree)
    = inr (out2, lut_tiny).
Proof.
  refine (proj1 (snippet_evaluates_function_block _ ["home"; "proj"; "scripts"]
                   (pristine demo_tree) (list_byte_of_string demo_code)
                   "" ("s) { return inflate(s); }" +:+ nl)
                   ("(" +:+ q +:+ "eJzt" +:+ q +:+ ");" +:+ nl) "eJzt" _ _ _ _ _)
                lut_tiny _).
  - vm_compute. reflexivity.
  - rewrite string_of_list_byte_of_string. reflexivity.
  - split.
    + eexists. rewrite string_of_list_byte_of_string. reflexivity.
    + intros; simpl; lia.
  - rewrite string_of_list_byte_of_string. split.
    + eexists. reflexivity.
    + intros pre' rest' E.
      pose proof (indexOf_bound demo_code pre' "var lut = decompress" rest'
                    ltac:(discriminate) E) as Hb.
      assert (Hi : indexOf demo_code "var lut = decompress" = 46%Z)
        by (vm_compute; reflexivity).
      rewrite Hi in Hb.
      change (String.length ("" +:+ "function decompress(" +:+ "s) { return inflate(s); }" +:+ nl))
        with 46%nat.
      lia.
  - rewrite string_of_list_byte_of_string. vm_compute. reflexivity.
  - vm_compute. reflexivity.
Defined.

Lemma js_substring_swap (s : string) (a b : Z) :
  js_substring s a b = js_substring s b a.
Proof. unfold js_substring. now rewrite Nat.min_comm, Nat.max_comm. Qed.

(** X18. The two indices in the other order.  When the first
    [var lut = decompress] of the third-party file comes before its first
    [function decompress(], [substring] swaps its two arguments: the text
    handed to [eval] is the block from the declaration up to the function,
    without the function itself; what the evaluation of that block and the
    call of [decompress] on the captured string yield decides how the snippet
    goes on. *)
Theorem snippet_evaluates_swapped_block
    (dec : JsRuntime) (dir : list string) (d : Disk)
    (bytes : list byte) (a b rest body : string) :
  fs_lookup d (input_at dir) = Some (File bytes) ->
  string_of_list_byte bytes
  = a +:+ ("var lut = decompress" +:+ b) +:+ "function decompress(" +:+ rest ->
  first_at "var lut = decompress" (string_of_list_byte bytes) a ->
  first_at "function decompress(" (string_of_list_byte bytes)
    (a +:+ "var lut = decompress" +:+ b) ->
  lut_match (string_of_list_byte bytes) = Some body ->
  (forall lut, dec ("var lut = decompress" +:+ b) body = Some lut ->
     exists out2, locate_and_decompress dec dir d = inr (out2, lut)) /\
  (dec ("var lut = decompress" +:+ b) body = None ->
     exists done, locate_and_decompress dec dir d = inl done).
Proof.
  intros Hb Hcode Hend Hfn Hm.
  assert (Hloc : locate_and_decompress dec dir d
                 = match dec ("var lut = decompress" +:+ b) body with
                   | None =>
                       inl (exited 1
                              (("Found compressed LUT, length: "
                                +:+ str (js_strlen body) +:+ nl)
                               +:+ logged dec ("var lut = decompress" +:+ b) body)
                              (warned dec ("var lut = decompress" +:+ b) body))
                   | Some lut =>
                       inr ((("Found compressed LUT, length: "
                              +:+ str (js_strlen body) +:+ nl)
                             +:+ logged dec ("var lut = decompress" +:+ b) body)
                            +:+ "Decompressed LUT, length: "
                            +:+ str (Z.to_N (len lut)) +:+ nl
                            +:+ "Expected length: 786432 (64*64*64*3)" +:+ nl, lut)
                   end).
  { unfold locate_and_decompress, fs_read.
    change (walk dir mixbox_rel) with (input_at dir). rewrite Hb, Hm.
    rewrite (indexOf_first "function decompress(" _ _ ltac:(discriminate) Hfn).
    rewrite (indexOf_first "var lut = decompress" _ _ ltac:(discriminate) Hend).
    destruct (Z.of_nat (String.length (a +:+ "var lut = decompress" +:+ b)) =? -1)%Z
      eqn:E; [apply Z.eqb_eq in E; lia |].
    cbv zeta. rewrite js_substring_swap. rewrite Hcode.
    rewrite (js_substring_at a ("var lut = decompress" +:+ b)
               ("function decompress(" +:+ rest)).
    reflexivity. }
  rewrite Hloc. split.
  - intros lut ->. eexists. reflexivity.
  - intros ->. eexists. reflexivity.
Qed.

Lemma snippet_evaluates_swapped_block_witness :
  exists done,
    locate_and_decompress
      (silent (fun code data =>
         if String.prefix "function decompress(" code then Some lut_tiny else None))
      ["home"; "proj"; "scripts"] (pristine swapped_tree)
    = inl done.
Proof.
  refine (proj2 (snippet_evaluates_swapped_block _ ["home"; "proj"; "scripts"]
                   (pristine swapped_tree) (list_byte_of_string swapped_code)
                   "" ("(" +:+ q +:+ "eJzt" +:+ q +:+ ");" +:+ nl)
                   ("s) { return inflate(s); }" +:+ nl) "eJzt" _ _ _ _ _) _).
  - vm_compute. reflexivity.
  - rewrite string_of_list_byte_of_string. reflexivity.
  - split.
    + eexists. rewrite string_of_list_byte_of_string. reflexivity.
    + intros; simpl; lia.
  - rewrite string_of_list_byte_of_string. split.
    + eexists. reflexivity.
    + intros pre' rest' E.
      pose proof (indexOf_bound swapped_code pre' "function decompress(" rest'
                    ltac:(discriminate) E) as Hb.
      assert (Hi : indexOf swapped_code "function decompress(" = 30%Z)
        by (vm_compute; reflexivity).
      rewrite Hi in Hb.
      change (String.length
                ("" +:+ "var lut = decompress" +:+ "(" +:+ q +:+ "eJzt" +:+ q +:+ ");" +:+ nl))
        with 30%nat.
      lia.
  - rewrite string_of_list_byte_of_string. vm_compute. reflexivity.
  - vm_compute. reflexivity.
Defined.

(** ** The exit status and the output file *)

(** X19. The exit status tells whether the output file was written: a run
    ends with status 0 exactly when it wrote the output file. *)
Theorem status_zero_iff_output_written (env : Env) (cwd0 : list string)
    (fs0 : gmap (list string) entry) :
  (run_script env cwd0 fs0).1 = 0%Z
  <-> Wrote (output_at (script_dir env cwd0))
        ∈ journal (disk (run_script env cwd0 fs0).2).
Proof.
  destruct (run_script env cwd0 fs0) as [code w'] eqn:Hrun. cbn [fst snd].
  pose proof Hrun as Hinv. apply run_script_inv in Hinv.
  destruct Hinv as [(-> & _) | (-> & _ & _ & _ & lut & buf & ps & _ & _ & _ & _ & _ & Hj)].
  - apply failed_journal in Hrun. destruct Hrun as (Hno & _).
    split; [discriminate | contradiction].
  - split; [| reflexivity]. intros _. rewrite Hj.
    apply elem_of_app. right. apply elem_of_app. right. apply list_elem_of_here.
Qed.
